(** * ELD trip planner and log assembler: a shallow embedding

    The development follows the Python modules of the repository:
    - [route_calculator]   : [interpolate_position]
    - [views]              : the validation done by [TripELDView.post]
    - [eld_log_generator]  : [generate_eld_logs] and its helpers
    - [stop_generator]     : [generate_stops] and its helpers

    Conventions of the embedding.
    - Python floats are idealised as exact rationals ([Q]); [round] is
      round-half-to-even, [math.floor] is [Qfloor].
    - A [datetime] is the number of microseconds elapsed since midnight of an
      arbitrary day 0; the calendar date is the day ordinal.  ISO strings are
      in order-preserving bijection with these values, so a stop carries its
      [estimatedArrival] as a [datetime].  The range limits of Python's
      [datetime] (years 1..9999) are not modelled.
    - The random generator, the geocoder and every other external effect
      live in an abstract [world] that is threaded through the code. *)

From Stdlib Require Import ZArith QArith Qround Qabs Qminmax.
From Stdlib Require Import List String Ascii Bool Lia Lqa.
From Stdlib Require Import Sorting.Sorted Sorting.Permutation.
From Stdlib Require Import DecimalString.
Import ListNotations.

Set Warnings "-register-all".

Open Scope Q_scope.
Open Scope string_scope.

(** ** Python numerics *)

Module Py.

Definition Qlt_bool (a b : Q) : bool := negb (Qle_bool b a).

(** [round(x)] on a float: nearest integer, ties to the even one. *)
Definition round (x : Q) : Z :=
  let f := Qfloor x in
  match Qcompare (x - inject_Z f) (1 # 2) with
  | Lt => f
  | Gt => (f + 1)%Z
  | Eq => if Z.even f then f else (f + 1)%Z
  end.

(** [int(x)] on a float: truncation towards zero. *)
Definition int (x : Q) : Z :=
  if Qle_bool 0 x then Qfloor x else Qceiling x.

(** [x % 1] on a float. *)
Definition mod1 (x : Q) : Q := x - inject_Z (Qfloor x).

Definition str_of_Z (z : Z) : string := NilZero.string_of_int (Z.to_int z).

(** [f"{x:.1f}"]. *)
Definition format_1f (x : Q) : string :=
  let n := round (x * 10) in
  let a := Z.abs n in
  (if (n <? 0)%Z then "-" else "") ++
  str_of_Z (a / 10) ++ "." ++ str_of_Z (a mod 10).

(** [s.capitalize()] for the lower-case ASCII words the planner uses. *)
Definition capitalize (s : string) : string :=
  match s with
  | EmptyString => EmptyString
  | String c rest =>
      let n := nat_of_ascii c in
      String (if andb (97 <=? n)%nat (n <=? 122)%nat
              then ascii_of_nat (n - 32) else c) rest
  end.

(** Outcome of a computation that may raise, or that the model cuts short
    when its iteration budget is used up. *)
Inductive exn : Type :=
| ZeroDivisionError
| IndexError
| KeyError (key : string)
| AttributeError
| RecursionError
| OtherError (msg : string).

Inductive outcome (A : Type) : Type :=
| Ok (a : A)
| Raise (e : exn)
| OutOfFuel.
Arguments Ok {A} a.
Arguments Raise {A} e.
Arguments OutOfFuel {A}.

(** [a / b] on floats. *)
Definition div (a b : Q) : outcome Q :=
  if Qeq_bool b 0 then Raise ZeroDivisionError else Ok (a / b).

(** Sequencing: an exception of the first computation ends the second. *)
Definition bind {A B} (m : outcome A) (k : A -> outcome B) : outcome B :=
  match m with
  | Ok a => k a
  | Raise e => Raise e
  | OutOfFuel => OutOfFuel
  end.

End Py.

(** ** [datetime] *)

Module DateTime.

Local Open Scope Z_scope.

Definition datetime := Z.
Definition timedelta := Z.

Definition US_PER_SECOND : Z := 1000000.
Definition US_PER_MINUTE : Z := 60 * US_PER_SECOND.
Definition US_PER_HOUR : Z := 60 * US_PER_MINUTE.
Definition US_PER_DAY : Z := 24 * US_PER_HOUR.

Definition date (t : datetime) : Z := t / US_PER_DAY.
Definition hour (t : datetime) : Z := (t / US_PER_HOUR) mod 24.
Definition minute (t : datetime) : Z := (t / US_PER_MINUTE) mod 60.
Definition second (t : datetime) : Z := (t / US_PER_SECOND) mod 60.
Definition microsecond (t : datetime) : Z := t mod US_PER_SECOND.

(** [datetime(y, m, d, hh, mm, ss, us)] with the date given as an ordinal. *)
Definition make (day hh mm ss us : Z) : datetime :=
  day * US_PER_DAY + hh * US_PER_HOUR + mm * US_PER_MINUTE
  + ss * US_PER_SECOND + us.

(** [t.replace(hour=hh, minute=mm, second=ss)]. *)
Definition replace_hms (t : datetime) (hh mm ss : Z) : datetime :=
  make (date t) hh mm ss (microsecond t).

(** [t.replace(hour=0, minute=0, second=0, microsecond=0)]. *)
Definition day_start (t : datetime) : datetime := make (date t) 0 0 0 0.

Definition days (n : Z) : timedelta := n * US_PER_DAY.
Definition minutes (n : Z) : timedelta := n * US_PER_MINUTE.

(** [timedelta(hours=x)] for a float [x]: rounded to the microsecond. *)
Definition hours (x : Q) : timedelta :=
  Py.round (x * inject_Z US_PER_HOUR)%Q.

(** [d.total_seconds()]. *)
Definition total_seconds (d : timedelta) : Q :=
  (inject_Z d / inject_Z US_PER_SECOND)%Q.

(** [t.hour + (t.minute / 60)], the fractional hour used everywhere. *)
Definition hour_frac (t : datetime) : Q :=
  (inject_Z (hour t) + inject_Z (minute t) / 60)%Q.

End DateTime.

Import DateTime.

(** A coordinate pair [[lng, lat]]. *)
Definition Coord : Type := (Q * Q)%type.

(** ** [route_calculator] *)

Module route_calculator.

Record CombinedRoute : Type := {
  distance : Q;
  duration : Q;
  coordinates : list Coord;
  pickup_coordinates : option Coord;
  dropoff_coordinates : option Coord
}.

Definition interpolate_position (route : CombinedRoute) (percentage : Q)
  : Coord :=
  match coordinates route with
  | [] => (0, 0)
  | _ :: _ =>
      let percentage := Qmax 0 (Qmin 1 percentage) in
      let len := Z.of_nat (List.length (coordinates route)) in
      let index := Qfloor (percentage * inject_Z len) in
      let index := Z.min index (len - 1) in
      let index := Z.max 0 index in
      nth (Z.to_nat index) (coordinates route) (0, 0)
  end.

(** A route of an OSRM response: [route["distance"]] in meters,
    [route["duration"]] in seconds and
    [route["geometry"]["coordinates"]]. *)
Record Route : Type := {
  route_distance : Q;
  route_duration : Q;
  geometry : list Coord
}.

(** An OSRM response, as far as [combine_routes] reads it: the value of
    ["routes"], if the key is there. *)
Record RouteResponse : Type := { routes : option (list Route) }.

(** [segment["routes"][0]], when ["routes"] is there and not empty. *)
Definition first_route (segment : RouteResponse) : option Route :=
  match routes segment with
  | Some (route :: _) => Some route
  | _ => None
  end.

(** The loop of [combine_routes] from index [i] on, over the totals and the
    coordinates gathered so far. *)
Fixpoint combine_loop (i : nat) (route_segments : list RouteResponse)
    (totals : Q * Q * list Coord) : Q * Q * list Coord :=
  match route_segments with
  | [] => totals
  | segment :: rest =>
      let totals :=
        match first_route segment with
        | None => totals
        | Some route =>
            let '(total_distance_miles, total_duration, all_coordinates) :=
              totals in
            let distance_miles := (route_distance route / 1000) * 0.621371 in
            let segment_coords := geometry route in
            (total_distance_miles + distance_miles,
             total_duration + route_duration route,
             (all_coordinates
              ++ (if (i =? 0)%nat then segment_coords
                  else tl segment_coords))%list)
        end in
      combine_loop (S i) rest totals
  end.

(** [coordinates[-1]] *)
Definition last_coordinate (segment_coords : list Coord) : Py.outcome Coord :=
  match segment_coords with
  | [] => Py.Raise Py.IndexError
  | c :: rest => Py.Ok (last rest c)
  end.

(** Lines 179-185: the last coordinate of a segment that has a route; the
    empty list otherwise, here [None]. *)
Definition end_coordinates (segment : option RouteResponse)
  : Py.outcome (option Coord) :=
  match segment with
  | None => Py.Ok None
  | Some segment =>
      match first_route segment with
      | None => Py.Ok None
      | Some route =>
          Py.bind (last_coordinate (geometry route))
                  (fun c => Py.Ok (Some c))
      end
  end.

Definition combine_routes (route_segments : list RouteResponse)
  : Py.outcome CombinedRoute :=
  let '(total_distance_miles, total_duration, all_coordinates) :=
    combine_loop 0 route_segments (0, 0, []) in
  Py.bind (end_coordinates (hd_error route_segments))
    (fun pickup_coordinates' =>
  Py.bind (end_coordinates
             (last (map Some route_segments) None))
    (fun dropoff_coordinates' =>
  Py.Ok {| distance := total_distance_miles;
           duration := total_duration;
           coordinates := all_coordinates;
           pickup_coordinates := pickup_coordinates';
           dropoff_coordinates := dropoff_coordinates' |})).

End route_calculator.

(** ** [trip.views] *)

Module views.

Import Py.

(** Parsed JSON request data. *)
Inductive json : Type :=
| JNull
| JBool (b : bool)
| JNum (x : Q)
| JStr (s : string)
| JList (items : list json)
| JObj (fields : list (string * json)).

(** Python truthiness, as tested by [not v]. *)
Definition truthy (v : json) : bool :=
  match v with
  | JNull => false
  | JBool b => b
  | JNum x => negb (Qeq_bool x 0)
  | JStr s => negb (String.eqb s "")
  | JList items => match items with [] => false | _ => true end
  | JObj fields => match fields with [] => false | _ => true end
  end.

Fixpoint assoc (key : string) (fields : list (string * json)) : option json :=
  match fields with
  | [] => None
  | (k, v) :: rest => if String.eqb k key then Some v else assoc key rest
  end.

(** [d.get(key, default)]; anything but a dict has no [get]. *)
Definition get (d : json) (key : string) (default : json) : outcome json :=
  match d with
  | JObj fields =>
      Ok (match assoc key fields with Some v => v | None => default end)
  | _ => Raise AttributeError
  end.

(** [{"lat": ..., "lng": ...}] *)
Record location : Type := { lat : json; lng : json }.

(** [trip_data.get(which, {}).get("coordinates", {}).get(field)] *)
Definition coordinate_of (trip_data : json) (which field : string)
  : outcome json :=
  bind (get trip_data which (JObj [])) (fun loc =>
  bind (get loc "coordinates" (JObj [])) (fun c =>
  get c field JNull)).

Definition extract_location (trip_data : json) (which : string)
  : outcome location :=
  bind (coordinate_of trip_data which "latitude") (fun la =>
  bind (coordinate_of trip_data which "longitude") (fun lo =>
  Ok {| lat := la; lng := lo |})).

Inductive response (A : Type) : Type :=
| Response200 (data : A)
| Response400 (error : string)
| Response500 (error : string).
Arguments Response200 {A} data.
Arguments Response400 {A} error.
Arguments Response500 {A} error.

(** The validation loop of [post]: [true] when some location is rejected. *)
Definition rejects (locations : list location) : bool :=
  existsb (fun l => orb (negb (truthy (lat l))) (negb (truthy (lng l))))
          locations.

Section Post.

(** The rest of the request handler (route, stops, logs) and the text
    [str(e)] of an exception. *)
Variable A : Type.
Variable pipeline : list location -> json -> outcome A.
Variable str_of_exn : exn -> string.

Definition post_body (request_data : json) : outcome (response A) :=
  bind (get request_data "trip" (JObj [])) (fun trip_data =>
  bind (extract_location trip_data "currentLocation") (fun current_location =>
  bind (extract_location trip_data "pickupLocation") (fun pickup_location =>
  bind (extract_location trip_data "dropoffLocation") (fun dropoff_location =>
  let locations := [current_location; pickup_location; dropoff_location] in
  if rejects locations
  then Ok (Response400 "Missing or invalid coordinates in trip data")
  else
    bind (get trip_data "currentCycleUsed" (JNum 0)) (fun cycle_used =>
    bind (pipeline locations cycle_used) (fun eld_data =>
    Ok (Response200 eld_data))))))).

Definition post (request_data : json) : outcome (response A) :=
  match post_body request_data with
  | Ok r => Ok r
  | Raise (KeyError k) =>
      Ok (Response400 ("Missing required field: " ++ str_of_exn (KeyError k)))
  | Raise e =>
      Ok (Response500 ("Error processing request: " ++ str_of_exn e))
  | OutOfFuel => OutOfFuel
  end.

End Post.

End views.

(** ** Stable sorting, as done by [list.sort] and [sorted] *)

Section Sorting.

Variable A : Type.
Variable leb : A -> A -> bool.

Fixpoint insert_sorted (x : A) (l : list A) : list A :=
  match l with
  | [] => [x]
  | y :: rest => if leb x y then x :: y :: rest else y :: insert_sorted x rest
  end.

Definition stable_sort (l : list A) : list A :=
  fold_right insert_sorted [] l.

End Sorting.

Arguments insert_sorted {A} leb x l.
Arguments stable_sort {A} leb l.

(** A stop of the planned trip.  The dictionary key ["type"] is the field
    [type]; [estimatedArrival] is the parsed ISO timestamp. *)
Record Stop : Type := {
  type : string;
  name : string;
  coordinates : Coord;
  duration : string;
  estimatedArrival : datetime
}.

(** ** [eld_log_generator] *)

Module eld_log_generator.

Import Py.

Definition MAX_DRIVING_HOURS : Z := 11.
Definition MAX_ON_DUTY_HOURS : Z := 14.
Definition REQUIRED_REST_HOURS : Z := 10.
Definition PRE_TRIP_START_HOUR : Q := 6.5.
Definition DRIVING_START_HOUR : Q := 7.0.
Definition DRIVING_END_HOUR : Q := 17.5.
Definition SLEEPER_START_HOUR : Q := 19.0.
Definition SLEEPER_END_HOUR : Q := 6.5.

(** The four duty statuses: ["driving"], ["on-duty"], ["off-duty"],
    ["sleeper-berth"]. *)
Inductive duty : Type := driving | on_duty | off_duty | sleeper_berth.

Definition duty_eqb (a b : duty) : bool :=
  match a, b with
  | driving, driving | on_duty, on_duty
  | off_duty, off_duty | sleeper_berth, sleeper_berth => true
  | _, _ => false
  end.

Record DutyStatus : Type := { hour : Q; status : duty }.
Record Remark : Type := { time : Q; location : string }.
Record Violation : Type := { violation_type : string; description : string }.

Record ELDLogEntry : Type := {
  log_date : Z;
  log_startTime : datetime;
  log_endTime : datetime;
  log_status : duty;
  log_location : string;
  miles : Z
}.

Record GraphData : Type := {
  hourData : list DutyStatus;
  remarks : list Remark
}.

(** The daily log sheet.  Keys that are absent until the last loop of
    [generate_eld_logs] are optional fields. *)
Record DailyLogSheet : Type := {
  date : Z;
  driverName : string;
  driverID : string;
  truckNumber : string;
  trailerNumber : string;
  carrier : string;
  homeTerminal : string;
  shippingDocNumber : string;
  startOdometer : Z;
  endOdometer : Z;
  startLocation : string;
  endLocation : string;
  startTime : option datetime;
  endTime : option datetime;
  totalMiles : Z;
  totalHours : Q;
  logs : list ELDLogEntry;
  certificationTime : string;
  certificationStatus : string;
  graphData : GraphData;
  violations : list Violation;
  licensePlate : option string;
  shipperCommodity : option string;
  remarks_text : option string;
  officeAddress : option string;
  homeAddress : option string;
  totalMilesDrivingToday : option string;
  totalMileageToday : option string
}.

(** [add_duty_status]: the first record within 0.001 of [hour] gets the new
    status; otherwise a record is appended. *)
Fixpoint add_duty_status (statuses : list DutyStatus) (hour' : Q)
    (status' : duty) : list DutyStatus :=
  match statuses with
  | [] => [ {| hour := hour'; status := status' |} ]
  | existing :: rest =>
      if Qlt_bool (Qabs (hour existing - hour')) 0.001
      then {| hour := hour existing; status := status' |} :: rest
      else existing :: add_duty_status rest hour' status'
  end.

Fixpoint add_remark (rs : list Remark) (hour' : Q) (location' : string)
  : list Remark :=
  match rs with
  | [] => [ {| time := hour'; location := location' |} ]
  | existing :: rest =>
      if Qlt_bool (Qabs (time existing - hour')) 0.001
      then {| time := time existing; location := location' |} :: rest
      else existing :: add_remark rest hour' location'
  end.

(** The two lists [duty_statuses] and [remarks] of one day. *)
Record Trace : Type := {
  duty_statuses : list DutyStatus;
  trace_remarks : list Remark
}.

(** [add_duty_status(duty_statuses, h, st); add_remark(remarks, h, text)] *)
Definition note (tr : Trace) (h : Q) (st : duty) (text : string) : Trace :=
  {| duty_statuses := add_duty_status (duty_statuses tr) h st;
     trace_remarks := add_remark (trace_remarks tr) h text |}.

Definition type_in (t : string) (l : list string) : bool :=
  existsb (String.eqb t) l.

Definition stop_hour_of (stop : Stop) : Q := hour_frac (estimatedArrival stop).

(** Lines 101-124: initial duty statuses from the stops of the day. *)
Definition seed_stop (tr : Trace) (stop : Stop) : Trace :=
  let stop_hour := stop_hour_of stop in
  let stop_type := type stop in
  if String.eqb stop_type "overnight" then
    note tr stop_hour sleeper_berth (name stop)
  else if String.eqb stop_type "off-duty" then
    note tr stop_hour off_duty (name stop)
  else if String.eqb stop_type "rest" then
    note tr stop_hour off_duty (name stop)
  else if String.eqb stop_type "pretrip" then
    note tr stop_hour on_duty (name stop)
  else if type_in stop_type ["pickup"; "dropoff"; "waypoint"; "fuel"] then
    note tr stop_hour on_duty (name stop)
  else if String.eqb stop_type "start" then
    note tr stop_hour off_duty (name stop)
  else tr.

Definition seed_stops (day_stops : list Stop) (tr : Trace) : Trace :=
  fold_left seed_stop day_stops tr.

(** [any(abs(s["hour"] - h) < 0.01 for s in duty_statuses)] *)
Definition any_near (ds : list DutyStatus) (h : Q) : bool :=
  existsb (fun s => Qlt_bool (Qabs (hour s - h)) 0.01) ds.

(** Lines 126-149: the hours from midnight to 6:30. *)
Definition early_morning (is_first_day : bool) (tr : Trace) : Trace :=
  let early_morning_statuses :=
    filter (fun s => andb (Qle_bool 0 (hour s))
                          (Qlt_bool (hour s) SLEEPER_END_HOUR))
           (duty_statuses tr) in
  match early_morning_statuses with
  | [] =>
      if is_first_day then note tr 0.0 off_duty ""
      else note tr 0.0 sleeper_berth ""
  | _ :: _ =>
      if negb (existsb (fun s => Qlt_bool (Qabs (hour s)) 0.01)
                       (duty_statuses tr))
      then if is_first_day then note tr 0.0 off_duty ""
           else note tr 0.0 sleeper_berth ""
      else tr
  end.

(** Lines 151-154: the transition at 6:30. *)
Definition rest_end (tr : Trace) : Trace :=
  if negb (any_near (duty_statuses tr) SLEEPER_END_HOUR)
  then note tr SLEEPER_END_HOUR on_duty "End of Rest Period"
  else tr.

(** Lines 156-184: the standard pattern at the start of the day. *)
Definition morning_pattern (is_first_day : bool) (first_stop_time : datetime)
    (tr : Trace) : Trace :=
  if is_first_day then
    let first_stop_hour := hour_frac first_stop_time in
    if Qle_bool first_stop_hour PRE_TRIP_START_HOUR then
      let tr := note tr PRE_TRIP_START_HOUR on_duty "Pre-trip Inspection" in
      note tr DRIVING_START_HOUR driving "Start Driving"
    else
      let tr := note tr first_stop_hour on_duty "Pre-trip Inspection" in
      let driving_start := Qmin (first_stop_hour + 0.5) 23.9 in
      note tr driving_start driving "Start Driving"
  else
    let tr := note tr PRE_TRIP_START_HOUR on_duty "Pre-trip Inspection" in
    note tr DRIVING_START_HOUR driving "Start Driving".

(** The variables updated by the loop of lines 186-250. *)
Record DayState : Type := {
  trace : Trace;
  current_status : duty;
  current_odometer : Z;
  current_position : Q;
  driving_hours : Q;
  on_duty_hours : Q
}.

(** Lines 192-216: the status a stop switches to, and its remark. *)
Definition stop_status (stop : Stop) (stop_hour : Q) (rs : list Remark)
  : duty * list Remark :=
  let t := type stop in
  if String.eqb t "start" then
    (on_duty, add_remark rs stop_hour "Starting Location")
  else if String.eqb t "pretrip" then
    (on_duty, add_remark rs stop_hour "Pre-trip Inspection")
  else if String.eqb t "rest" then
    (off_duty, add_remark rs stop_hour "30-Minute Break")
  else if String.eqb t "fuel" then
    (on_duty, add_remark rs stop_hour "Fueling")
  else if String.eqb t "off-duty" then
    (off_duty, add_remark rs stop_hour "End of Driving Day")
  else if String.eqb t "overnight" then
    (sleeper_berth, add_remark rs stop_hour "10-Hour Rest")
  else if type_in t ["pickup"; "dropoff"; "waypoint"] then
    (on_duty, add_remark rs stop_hour (name stop))
  else (on_duty, rs).

(** Lines 218-221. *)
Definition status_change (st : DayState) (stop : Stop) : DayState :=
  let stop_hour := stop_hour_of stop in
  let '(next_status, rs) :=
    stop_status stop stop_hour (trace_remarks (trace st)) in
  if negb (duty_eqb next_status (current_status st)) then
    {| trace := {| duty_statuses :=
                     add_duty_status (duty_statuses (trace st))
                                     stop_hour next_status;
                   trace_remarks := rs |};
       current_status := next_status;
       current_odometer := current_odometer st;
       current_position := current_position st;
       driving_hours := driving_hours st;
       on_duty_hours := on_duty_hours st |}
  else
    {| trace := {| duty_statuses := duty_statuses (trace st);
                   trace_remarks := rs |};
       current_status := current_status st;
       current_odometer := current_odometer st;
       current_position := current_position st;
       driving_hours := driving_hours st;
       on_duty_hours := on_duty_hours st |}.

(** Lines 223-250: the driving segment from [stop] to [next_stop]. *)
Definition driving_segment (st : DayState) (stop next_stop : Stop)
  : DayState :=
  let stop_time := estimatedArrival stop in
  let next_time := estimatedArrival next_stop in
  if andb (negb (type_in (type next_stop) ["off-duty"; "overnight"]))
          (negb (type_in (type stop) ["off-duty"; "overnight"])) then
    let stop_duration := 0.5 in
    let driving_start :=
      (stop_time + DateTime.minutes (int (stop_duration * 60)))%Z in
    let driving_start_hour := hour_frac driving_start in
    let time_diff :=
      total_seconds (next_time - driving_start)%Z / 3600 in
    if Qlt_bool 0.25 time_diff then
      let now_driving := duty_eqb (current_status st) driving in
      let miles_driven := time_diff * 60 in
      {| trace :=
           {| duty_statuses :=
                if negb now_driving
                then add_duty_status (duty_statuses (trace st))
                                     driving_start_hour driving
                else duty_statuses (trace st);
              trace_remarks := trace_remarks (trace st) |};
         current_status := driving;
         current_odometer := (current_odometer st + round miles_driven)%Z;
         current_position := current_position st + miles_driven;
         driving_hours := driving_hours st + time_diff;
         on_duty_hours := on_duty_hours st + time_diff |}
    else st
  else st.

(** The loop of lines 188-250 over the stops of the day. *)
Fixpoint stops_loop (day_stops : list Stop) (st : DayState) : DayState :=
  match day_stops with
  | [] => st
  | stop :: rest =>
      let st := status_change st stop in
      let st :=
        match rest with
        | next_stop :: _ => driving_segment st stop next_stop
        | [] => st
        end in
      stops_loop rest st
  end.

(** Lines 96-98. *)
Definition is_early_completion (is_last_day : bool) (last_stop : Stop)
  : bool :=
  let last_stop_hour := hour_frac (estimatedArrival last_stop) in
  andb (andb is_last_day (Qlt_bool last_stop_hour DRIVING_END_HOUR))
       (String.eqb (type last_stop) "dropoff").

(** Lines 252-269: the standard pattern at the end of the day. *)
Definition end_of_day (early_completion is_last_day : bool) (tr : Trace)
  : Trace :=
  if negb early_completion then
    let tr :=
      if negb (any_near (duty_statuses tr) DRIVING_END_HOUR)
      then note tr DRIVING_END_HOUR off_duty "End of Driving Day"
      else tr in
    let tr :=
      if negb (any_near (duty_statuses tr) SLEEPER_START_HOUR)
      then note tr SLEEPER_START_HOUR sleeper_berth "10-Hour Rest"
      else tr in
    if negb is_last_day then note tr 23.99 sleeper_berth "" else tr
  else tr.

Definition hour_leb (a b : DutyStatus) : bool := Qle_bool (hour a) (hour b).
Definition time_leb (a b : Remark) : bool := Qle_bool (time a) (time b).

(** Lines 477-485: the remark closest in time, the first one on ties. *)
Fixpoint closest_remark (rs : list Remark) (current_hour : Q)
    (closest_diff : option Q) (location' : string) : string :=
  match rs with
  | [] => location'
  | remark :: rest =>
      let time_diff := Qabs (time remark - current_hour) in
      let closer :=
        match closest_diff with
        | None => true
        | Some d => Qlt_bool time_diff d
        end in
      if closer then closest_remark rest current_hour (Some time_diff)
                                    (location remark)
      else closest_remark rest current_hour closest_diff location'
  end.

(** Lines 449-459 and 463-473: the timestamp of a status change. *)
Definition status_time (day_start' reference : datetime) (h : Q) : datetime :=
  let t := replace_hms day_start' (int h) (int (mod1 h * 60)) 0 in
  if andb (DateTime.hour t <? DateTime.hour reference)%Z (Qlt_bool h 12)
  then (t + DateTime.days 1)%Z else t.

Fixpoint log_entries (sorted_statuses : list DutyStatus) (rs : list Remark)
    (day_start' day_end : datetime) : list ELDLogEntry :=
  match sorted_statuses with
  | [] => []
  | current :: rest =>
      let current_hour := hour current in
      let current_time := status_time day_start' day_start' current_hour in
      let next_time :=
        match rest with
        | next_status :: _ =>
            status_time day_start' current_time (hour next_status)
        | [] => day_end
        end in
      let location' :=
        closest_remark rs current_hour None "Unknown Location" in
      let miles' :=
        match status current with
        | driving =>
            let time_diff :=
              total_seconds (next_time - current_time)%Z / 3600 in
            round (time_diff * 60)
        | _ => 0%Z
        end in
      {| log_date := DateTime.date day_start';
         log_startTime := current_time;
         log_endTime := next_time;
         log_status := status current;
         log_location := location';
         miles := miles' |}
      :: log_entries rest rs day_start' day_end
  end.

Definition generate_log_entries (ds : list DutyStatus) (rs : list Remark)
    (start_time end_time : datetime) (odometer : Z) : list ELDLogEntry :=
  match ds with
  | [] => []
  | _ :: _ => log_entries (stable_sort hour_leb ds) rs start_time end_time
  end.

(** Lines 297-308. *)
Definition hos_violations (driving_hours' on_duty_hours' : Q)
  : list Violation :=
  ((if Qlt_bool (inject_Z MAX_DRIVING_HOURS) driving_hours' then
     [ {| violation_type := "driving-limit";
          description :=
            "Exceeded " ++ str_of_Z MAX_DRIVING_HOURS
            ++ "-hour driving limit (" ++ format_1f driving_hours'
            ++ " hours)" |} ]
   else [])
  ++
  (if Qlt_bool (inject_Z MAX_ON_DUTY_HOURS) on_duty_hours' then
     [ {| violation_type := "on-duty-limit";
          description :=
            "Exceeded " ++ str_of_Z MAX_ON_DUTY_HOURS
            ++ "-hour on-duty limit (" ++ format_1f on_duty_hours'
            ++ " hours)" |} ]
   else []))%list.

(** Lines 54-64: the stops grouped by day, in order of first appearance. *)
Fixpoint group_add (day : Z) (stop : Stop)
    (groups : list (Z * (Stop * list Stop))) : list (Z * (Stop * list Stop)) :=
  match groups with
  | [] => [(day, (stop, []))]
  | (d, (first, others)) :: rest =>
      if (day =? d)%Z then (d, (first, (others ++ [stop])%list)) :: rest
      else (d, (first, others)) :: group_add day stop rest
  end.

Definition stops_by_day (stops : list Stop)
  : list (Z * (Stop * list Stop)) :=
  fold_left
    (fun groups stop =>
       group_add (DateTime.date (estimatedArrival stop)) stop groups)
    stops [].

Definition day_leb (a b : Z * (Stop * list Stop)) : bool :=
  (fst a <=? fst b)%Z.

(** The duty-status trace of a day up to the loop over its stops
    (lines 87-250), from the stops and the odometer at day start. *)
Definition day_trace (is_first_day : bool) (first_stop : Stop)
    (others : list Stop) (odometer : Z) : DayState :=
  let day_stops := first_stop :: others in
  let tr := {| duty_statuses := []; trace_remarks := [] |} in
  let tr := seed_stops day_stops tr in
  let tr := early_morning is_first_day tr in
  let tr := rest_end tr in
  let tr := morning_pattern is_first_day (estimatedArrival first_stop) tr in
  stops_loop day_stops
    {| trace := tr;
       current_status := driving;
       current_odometer := odometer;
       current_position := 0;
       driving_hours := 0;
       on_duty_hours := 0 |}.

Section World.

(** The external effects: [random.randint], [random.choice] and the
    geocoder [get_location_name] (cache, network, random fallback), which
    answers with a name for every coordinate pair: it catches the failures
    of the cache and of the network itself. *)
Variable world : Type.
Variable randint : Z -> Z -> world -> Z * world.
Variable choice : list string -> world -> string * world.
Variable get_location_name : Coord -> world -> string * world.

(** [create_daily_log_sheet]: four draws, in the order of the dictionary
    display. *)
Definition create_daily_log_sheet (date_str : Z) (w : world)
  : DailyLogSheet * world :=
  let '(driver, w) := randint 10000000 99999999 w in
  let '(truck, w) := randint 100 999 w in
  let '(trailer, w) := randint 100 999 w in
  let '(bol, w) := randint 100000 999999 w in
  ({| date := date_str;
      driverName := "John Doe";
      driverID := "DL" ++ str_of_Z driver;
      truckNumber := "Truck-" ++ str_of_Z truck;
      trailerNumber := "Trailer-" ++ str_of_Z trailer;
      carrier := "Sample Carrier Inc.";
      homeTerminal := "Dallas Terminal";
      shippingDocNumber := "BOL-" ++ str_of_Z bol;
      startOdometer := 0;
      endOdometer := 0;
      startLocation := "";
      endLocation := "";
      startTime := None;
      endTime := None;
      totalMiles := 0;
      totalHours := 0;
      logs := [];
      certificationTime := "";
      certificationStatus := "Uncertified";
      graphData := {| hourData := []; remarks := [] |};
      violations := [];
      licensePlate := None;
      shipperCommodity := None;
      remarks_text := None;
      officeAddress := None;
      homeAddress := None;
      totalMilesDrivingToday := None;
      totalMileageToday := None |}, w).

(** One iteration of the loop over the days (lines 73-314): the sheet of the
    day and the odometer carried to the next day. *)
Definition process_day (day_index number_of_days : nat) (day : Z)
    (first_stop : Stop) (others : list Stop) (current_odometer' : Z)
    (w : world) : DailyLogSheet * Z * world :=
  let day_stops := first_stop :: others in
  let '(daily_log, w) := create_daily_log_sheet day w in
  let first_stop_time := estimatedArrival first_stop in
  let '(start_location, w) := get_location_name (coordinates first_stop) w in
  let is_first_day := (day_index =? 0)%nat in
  let is_last_day := (day_index =? number_of_days - 1)%nat in
  let last_stop := last day_stops first_stop in
  let early := is_early_completion is_last_day last_stop in
  let st := day_trace is_first_day first_stop others current_odometer' in
  let tr := end_of_day early is_last_day (trace st) in
  let last_stop_time := estimatedArrival last_stop in
  let '(end_location, w) := get_location_name (coordinates last_stop) w in
  let sorted_statuses := stable_sort hour_leb (duty_statuses tr) in
  let sorted_remarks := stable_sort time_leb (trace_remarks tr) in
  ({| date := date daily_log;
      driverName := driverName daily_log;
      driverID := driverID daily_log;
      truckNumber := truckNumber daily_log;
      trailerNumber := trailerNumber daily_log;
      carrier := carrier daily_log;
      homeTerminal := homeTerminal daily_log;
      shippingDocNumber := shippingDocNumber daily_log;
      startOdometer := current_odometer';
      endOdometer := current_odometer st;
      startLocation := start_location;
      endLocation := end_location;
      startTime := Some first_stop_time;
      endTime := Some last_stop_time;
      totalMiles := round (current_position st);
      totalHours := on_duty_hours st;
      logs := generate_log_entries sorted_statuses sorted_remarks
                first_stop_time last_stop_time (current_odometer st);
      certificationTime := certificationTime daily_log;
      certificationStatus := certificationStatus daily_log;
      graphData := {| hourData := sorted_statuses;
                      remarks := sorted_remarks |};
      violations :=
        (violations daily_log
         ++ hos_violations (driving_hours st) (on_duty_hours st))%list;
      licensePlate := None;
      shipperCommodity := None;
      remarks_text := None;
      officeAddress := None;
      homeAddress := None;
      totalMilesDrivingToday := None;
      totalMileageToday := None |},
   current_odometer st, w).

(** The loop over the days, in ascending order of date. *)
Fixpoint days_loop (groups : list (Z * (Stop * list Stop)))
    (day_index number_of_days : nat) (current_odometer' : Z) (w : world)
  : list DailyLogSheet * world :=
  match groups with
  | [] => ([], w)
  | (day, (first_stop, others)) :: rest =>
      let '(daily_log, odometer, w) :=
        process_day day_index number_of_days day first_stop others
                    current_odometer' w in
      let '(daily_logs, w) :=
        days_loop rest (S day_index) number_of_days odometer w in
      (daily_log :: daily_logs, w)
  end.

(** Lines 317-326: the presentation fields. *)
Definition present (log : DailyLogSheet) (w : world) : DailyLogSheet * world :=
  let '(plate, w) := randint 1000 9999 w in
  let '(state, w) := choice ["CA"; "TX"; "NY"; "FL"] w in
  let '(shipper, w) := choice ["ABC"; "XYZ"; "Global"; "National"] w in
  let '(commodity, w) :=
    choice ["Electronics"; "Produce"; "Furniture"; "Machinery"] w in
  ({| date := date log;
      driverName := driverName log;
      driverID := driverID log;
      truckNumber := truckNumber log;
      trailerNumber := trailerNumber log;
      carrier := carrier log;
      homeTerminal := homeTerminal log;
      shippingDocNumber := shippingDocNumber log;
      startOdometer := startOdometer log;
      endOdometer := endOdometer log;
      startLocation := startLocation log;
      endLocation := endLocation log;
      startTime := startTime log;
      endTime := endTime log;
      totalMiles := totalMiles log;
      totalHours := totalHours log;
      logs := logs log;
      certificationTime := certificationTime log;
      certificationStatus := certificationStatus log;
      graphData := graphData log;
      violations := violations log;
      licensePlate :=
        Some ("ABC-" ++ str_of_Z plate ++ " (" ++ state ++ ")");
      shipperCommodity :=
        Some (shipper ++ " Shipping Co. - " ++ commodity);
      remarks_text := Some "No issues reported";
      officeAddress := Some "1234 Business Rd, Suite 100, Dallas, TX 75201";
      homeAddress := Some "5678 Industrial Ave, Houston, TX 77001";
      totalMilesDrivingToday := Some (str_of_Z (totalMiles log) ++ " miles");
      totalMileageToday := Some (str_of_Z (totalMiles log) ++ " miles") |},
   w).

Fixpoint present_all (daily_logs : list DailyLogSheet) (w : world)
  : list DailyLogSheet * world :=
  match daily_logs with
  | [] => ([], w)
  | log :: rest =>
      let '(log, w) := present log w in
      let '(rest, w) := present_all rest w in
      (log :: rest, w)
  end.

Definition generate_eld_logs (stops : list Stop) (starting_odometer : option Z)
    (w : world) : list DailyLogSheet * world :=
  match stops with
  | [] => ([], w)
  | _ :: _ =>
      let '(starting_odometer, w) :=
        match starting_odometer with
        | None => randint 100000 500000 w
        | Some odometer => (odometer, w)
        end in
      let groups := stable_sort day_leb (stops_by_day stops) in
      let '(daily_logs, w) :=
        days_loop groups 0 (List.length groups) starting_odometer w in
      present_all daily_logs w
  end.

End World.

End eld_log_generator.

(** ** [stop_generator] *)

Module stop_generator.

Import Py.

Local Abbreviation CombinedRoute := route_calculator.CombinedRoute.
Local Abbreviation interpolate_position :=
  route_calculator.interpolate_position.

Definition PRE_TRIP_START_HOUR : Q := 6.5.
Definition DRIVING_START_HOUR : Q := 7.0.
Definition DRIVING_END_HOUR : Q := 17.5.
Definition SLEEPER_START_HOUR : Q := 19.0.
Definition SLEEPER_END_HOUR : Q := 6.5.
Definition FUEL_STOP_INTERVAL : Q := 500.
Definition PICKUP_DURATION : Q := 0.5.
Definition DROPOFF_DURATION : Q := 0.5.
Definition WAYPOINT_DURATION : Q := 0.5.
Definition FUEL_DURATION : Q := 0.5.
Definition BREAK_DURATION : Q := 0.5.
Definition PREFERRED_BREAK_HOUR : Q := 14.0.
Definition AVG_SPEED_MPH : Q := 60.

(** Depth available to a recursive function before Python raises
    [RecursionError] (the default of [sys.getrecursionlimit()]). *)
Definition recursion_limit : nat := 1000.

(** [{"lat": ..., "lng": ...}], with numbers for values. *)
Record Location : Type := { lat : Q; lng : Q }.

Definition format_duration (hours : Q) : string :=
  if Qlt_bool hours 1 then str_of_Z (round (hours * 60)) ++ " minutes"
  else format_1f hours ++ " hours".

Definition calculate_hours_until_end_of_driving_day (current_time : datetime)
  : Q :=
  let current_hour := hour_frac current_time in
  if Qle_bool DRIVING_END_HOUR current_hour then 0
  else DRIVING_END_HOUR - current_hour.

Definition is_within_driving_hours (timestamp : datetime) : bool :=
  let hour := hour_frac timestamp in
  andb (Qle_bool DRIVING_START_HOUR hour) (Qle_bool hour DRIVING_END_HOUR).

(** [t.replace(hour=int(h), minute=int((h % 1) * 60), second=0)] *)
Definition at_hour (t : datetime) (h : Q) : datetime :=
  replace_hms t (int h) (int (mod1 h * 60)) 0.

Definition next_driving_start_time (timestamp : datetime) : datetime :=
  let hour := hour_frac timestamp in
  if Qlt_bool hour DRIVING_START_HOUR then
    at_hour timestamp DRIVING_START_HOUR
  else if Qle_bool DRIVING_END_HOUR hour then
    let next_day := (timestamp + DateTime.days 1)%Z in
    at_hour next_day DRIVING_START_HOUR
  else timestamp.

(** The recursion of [calculate_time_restricted_arrival], with the depth
    still available as first argument. *)
Fixpoint calculate_time_restricted_arrival (depth : nat)
    (start_time : datetime) (driving_hours : Q) : outcome datetime :=
  match depth with
  | O => Raise RecursionError
  | S depth =>
      if Qle_bool driving_hours 0 then Ok start_time
      else
        let current_time := next_driving_start_time start_time in
        let hours_until_end :=
          calculate_hours_until_end_of_driving_day current_time in
        if Qle_bool driving_hours hours_until_end then
          Ok (current_time + DateTime.hours driving_hours)%Z
        else
          let end_of_day := at_hour current_time DRIVING_END_HOUR in
          let remaining_hours := driving_hours - hours_until_end in
          let next_day := (end_of_day + DateTime.days 1)%Z in
          let next_start := at_hour next_day DRIVING_START_HOUR in
          calculate_time_restricted_arrival depth next_start remaining_hours
  end.

Definition align_break_time (break_time : datetime) : datetime :=
  let day_start := DateTime.day_start break_time in
  let target_time :=
    (day_start + DateTime.hours PREFERRED_BREAK_HOUR)%Z in
  let current_hour := hour_frac break_time in
  if Qlt_bool PREFERRED_BREAK_HOUR current_hour then break_time
  else if andb (Qle_bool 12.0 current_hour)
               (Qlt_bool current_hour PREFERRED_BREAK_HOUR)
  then if is_within_driving_hours target_time then target_time
       else break_time
  else break_time.

(** [plan_break_time]: the break, if any, with the driving hours before and
    after it.  [timestamp] is [datetime.timestamp()], which reads a naive
    datetime in the time zone of the machine. *)
Definition plan_break_time (timestamp : datetime -> Q)
    (current_time : datetime) (driving_hours : Q)
  : option datetime * Q * Q :=
  if Qlt_bool driving_hours 8 then (None, driving_hours, 0)
  else
    let hours_before_break := 7.0 in
    let break_time_raw :=
      (current_time + DateTime.hours hours_before_break)%Z in
    if negb (is_within_driving_hours break_time_raw) then
      let hours_until_end :=
        calculate_hours_until_end_of_driving_day current_time in
      let break_time := (current_time + DateTime.hours hours_until_end)%Z in
      (Some break_time, hours_until_end, driving_hours - hours_until_end)
    else
      let day_start := DateTime.day_start break_time_raw in
      let preferred_time :=
        (day_start + DateTime.hours PREFERRED_BREAK_HOUR)%Z in
      let time_diff :=
        Qabs (timestamp break_time_raw - timestamp preferred_time) / 3600 in
      let hours_before_break :=
        if Qle_bool time_diff 2 then
          let hours_before_break :=
            total_seconds (preferred_time - current_time)%Z / 3600 in
          let hours_before_break := Qmin hours_before_break 8.0 in
          Qmax hours_before_break 4.0
        else hours_before_break in
      let break_time :=
        (current_time + DateTime.hours hours_before_break)%Z in
      (Some break_time, hours_before_break,
       driving_hours - hours_before_break).

(** The variables of [generate_stops]. *)
Record Plan : Type := {
  stops : list Stop;
  current_timestamp : datetime;
  current_position : Q;
  miles_since_last_fuel : Q;
  hours_of_driving_since_last_break : Q;
  days_on_road : Z;
  miles_to_next_fuel : Q;
  remaining_drive : Q;
  segment_position : Q
}.

(** Assignments to one variable. *)
Definition append (s : Stop) (p : Plan) : Plan :=
  {| stops := (stops p ++ [s])%list;
     current_timestamp := current_timestamp p;
     current_position := current_position p;
     miles_since_last_fuel := miles_since_last_fuel p;
     hours_of_driving_since_last_break := hours_of_driving_since_last_break p;
     days_on_road := days_on_road p;
     miles_to_next_fuel := miles_to_next_fuel p;
     remaining_drive := remaining_drive p;
     segment_position := segment_position p |}.

Definition set_current_timestamp (t : datetime) (p : Plan) : Plan :=
  {| stops := stops p;
     current_timestamp := t;
     current_position := current_position p;
     miles_since_last_fuel := miles_since_last_fuel p;
     hours_of_driving_since_last_break := hours_of_driving_since_last_break p;
     days_on_road := days_on_road p;
     miles_to_next_fuel := miles_to_next_fuel p;
     remaining_drive := remaining_drive p;
     segment_position := segment_position p |}.

Definition set_hours_since_break (h : Q) (p : Plan) : Plan :=
  {| stops := stops p;
     current_timestamp := current_timestamp p;
     current_position := current_position p;
     miles_since_last_fuel := miles_since_last_fuel p;
     hours_of_driving_since_last_break := h;
     days_on_road := days_on_road p;
     miles_to_next_fuel := miles_to_next_fuel p;
     remaining_drive := remaining_drive p;
     segment_position := segment_position p |}.

Definition set_days_on_road (d : Z) (p : Plan) : Plan :=
  {| stops := stops p;
     current_timestamp := current_timestamp p;
     current_position := current_position p;
     miles_since_last_fuel := miles_since_last_fuel p;
     hours_of_driving_since_last_break := hours_of_driving_since_last_break p;
     days_on_road := d;
     miles_to_next_fuel := miles_to_next_fuel p;
     remaining_drive := remaining_drive p;
     segment_position := segment_position p |}.

Definition set_miles_to_next_fuel (m : Q) (p : Plan) : Plan :=
  {| stops := stops p;
     current_timestamp := current_timestamp p;
     current_position := current_position p;
     miles_since_last_fuel := miles_since_last_fuel p;
     hours_of_driving_since_last_break := hours_of_driving_since_last_break p;
     days_on_road := days_on_road p;
     miles_to_next_fuel := m;
     remaining_drive := remaining_drive p;
     segment_position := segment_position p |}.

Definition set_remaining_drive (r : Q) (p : Plan) : Plan :=
  {| stops := stops p;
     current_timestamp := current_timestamp p;
     current_position := current_position p;
     miles_since_last_fuel := miles_since_last_fuel p;
     hours_of_driving_since_last_break := hours_of_driving_since_last_break p;
     days_on_road := days_on_road p;
     miles_to_next_fuel := miles_to_next_fuel p;
     remaining_drive := r;
     segment_position := segment_position p |}.

Definition set_segment_position (x : Q) (p : Plan) : Plan :=
  {| stops := stops p;
     current_timestamp := current_timestamp p;
     current_position := current_position p;
     miles_since_last_fuel := miles_since_last_fuel p;
     hours_of_driving_since_last_break := hours_of_driving_since_last_break p;
     days_on_road := days_on_road p;
     miles_to_next_fuel := miles_to_next_fuel p;
     remaining_drive := remaining_drive p;
     segment_position := x |}.

(** [try: ... except (IndexError, ZeroDivisionError): handler] *)
Definition try_except {A} (m : outcome A) (handler : outcome A) : outcome A :=
  match m with
  | Raise IndexError | Raise ZeroDivisionError => handler
  | other => other
  end.

(** Lines 368-389 and 583-604: the early morning after the 10-hour rest,
    and the bookkeeping that closes the day. *)
Definition early_morning_rest (overnight_coordinates : Coord) (p : Plan)
  : Plan :=
  let next_day_hour := hour_frac (current_timestamp p) in
  let p :=
    if Qlt_bool next_day_hour SLEEPER_END_HOUR then
      let p :=
        append {| type := "overnight";
                  name := "Early Morning Rest (Sleeper Berth)";
                  coordinates := overnight_coordinates;
                  duration :=
                    format_duration (SLEEPER_END_HOUR - next_day_hour);
                  estimatedArrival := current_timestamp p |} p in
      set_current_timestamp
        (at_hour (current_timestamp p) SLEEPER_END_HOUR) p
    else p in
  let p :=
    set_current_timestamp
      (next_driving_start_time (current_timestamp p)) p in
  let p := set_hours_since_break 0 p in
  set_days_on_road (days_on_road p + 1) p.

(** A 30-minute break taken at [break_time] (lines 400-410, 425-435,
    477-487). *)
Definition take_break (break_name : string) (break_coordinates : Coord)
    (break_time : datetime) (p : Plan) : Plan :=
  let p :=
    append {| type := "rest";
              name := break_name;
              coordinates := break_coordinates;
              duration := format_duration BREAK_DURATION;
              estimatedArrival := break_time |} p in
  let p := set_hours_since_break 0 p in
  set_current_timestamp
    (break_time + DateTime.hours BREAK_DURATION)%Z p.

(** One iteration of the loop [while remaining_drive > 0] (lines 326-604). *)
Definition drive_step (route : CombinedRoute) (p : Plan) : outcome Plan :=
  let total_distance := route_calculator.distance route in
  let hours_until_end :=
    calculate_hours_until_end_of_driving_day (current_timestamp p) in
  if Qle_bool hours_until_end 0 then
    (* lines 329-390: already past driving hours *)
    bind (div (segment_position p) total_distance) (fun percent =>
    let overnight_coordinates := interpolate_position route percent in
    let current_hour := hour_frac (current_timestamp p) in
    let p :=
      if andb (Qle_bool DRIVING_END_HOUR current_hour)
              (Qlt_bool current_hour SLEEPER_START_HOUR) then
        let off_duty_hours := SLEEPER_START_HOUR - current_hour in
        let p :=
          append {| type := "off-duty";
                    name := "End of Driving Day";
                    coordinates := overnight_coordinates;
                    duration := format_duration off_duty_hours;
                    estimatedArrival := current_timestamp p |} p in
        let sleeper_time :=
          at_hour (current_timestamp p) SLEEPER_START_HOUR in
        set_current_timestamp sleeper_time p
      else p in
    let p :=
      append {| type := "overnight";
                name := "Required 10-Hour Rest";
                coordinates := overnight_coordinates;
                duration := "10 hours";
                estimatedArrival := current_timestamp p |} p in
    let p :=
      set_current_timestamp
        (current_timestamp p + DateTime.hours 10)%Z p in
    Ok (early_morning_rest overnight_coordinates p))
  else if Qle_bool 8 (hours_of_driving_since_last_break p) then
    (* lines 393-411: mandatory break first *)
    bind (div (segment_position p) total_distance) (fun percent =>
    let break_coordinates := interpolate_position route percent in
    let break_time := align_break_time (current_timestamp p) in
    Ok (take_break "30-Minute Break" break_coordinates break_time p))
  else
    let hours_left_before_break :=
      Qmax 0 (8 - hours_of_driving_since_last_break p) in
    let drivable_hours :=
      Qmin (Qmin (remaining_drive p) hours_until_end)
           hours_left_before_break in
    if Qle_bool drivable_hours 0 then
      (* lines 418-436: forced break *)
      bind (div (segment_position p) total_distance) (fun percent =>
      let break_coordinates := interpolate_position route percent in
      let break_time := align_break_time (current_timestamp p) in
      Ok (take_break "30-Minute Break (Required)" break_coordinates
                     break_time p))
    else
      let drivable_miles := drivable_hours * AVG_SPEED_MPH in
      let need_fuel :=
        andb (Qle_bool (miles_to_next_fuel p) drivable_miles)
             (Qlt_bool 0 (miles_to_next_fuel p)) in
      if need_fuel then
        (* lines 442-489: fuel stop *)
        let fuel_position := segment_position p + miles_to_next_fuel p in
        bind (div fuel_position total_distance) (fun fuel_percent =>
        bind (try_except (Ok (interpolate_position route fuel_percent))
                         (Ok (interpolate_position route 0)))
             (fun fuel_coordinates =>
        let driving_hours_to_fuel := miles_to_next_fuel p / AVG_SPEED_MPH in
        bind (calculate_time_restricted_arrival recursion_limit
                (current_timestamp p) driving_hours_to_fuel)
             (fun fuel_arrival =>
        let p :=
          append {| type := "fuel";
                    name := "Fuel Stop";
                    coordinates := fuel_coordinates;
                    duration := format_duration FUEL_DURATION;
                    estimatedArrival := fuel_arrival |} p in
        let p := set_segment_position fuel_position p in
        let p :=
          set_current_timestamp
            (fuel_arrival + DateTime.hours FUEL_DURATION)%Z p in
        let p :=
          set_hours_since_break
            (hours_of_driving_since_last_break p + driving_hours_to_fuel) p in
        let p := set_miles_to_next_fuel FUEL_STOP_INTERVAL p in
        let p :=
          set_remaining_drive (remaining_drive p - driving_hours_to_fuel) p in
        if Qle_bool 7 (hours_of_driving_since_last_break p) then
          let break_time := align_break_time (current_timestamp p) in
          Ok (take_break "30-Minute Break" fuel_coordinates break_time p)
        else Ok p)))
      else if andb (Qle_bool 8 (hours_of_driving_since_last_break p
                                + drivable_hours))
                   (Qlt_bool 0 (8 - hours_of_driving_since_last_break p))
      then
        (* lines 492-528: break during this segment *)
        let hours_until_break_needed :=
          8 - hours_of_driving_since_last_break p in
        let pre_break_position :=
          segment_position p + hours_until_break_needed * AVG_SPEED_MPH in
        bind (div pre_break_position total_distance) (fun pre_break_percent =>
        bind (try_except (Ok (interpolate_position route pre_break_percent))
                         (Ok (interpolate_position route 0)))
             (fun break_coordinates =>
        bind (calculate_time_restricted_arrival recursion_limit
                (current_timestamp p) hours_until_break_needed)
             (fun pre_break_arrival =>
        let break_time := align_break_time pre_break_arrival in
        let p :=
          append {| type := "rest";
                    name := "30-Minute Break";
                    coordinates := break_coordinates;
                    duration := format_duration BREAK_DURATION;
                    estimatedArrival := break_time |} p in
        let p := set_segment_position pre_break_position p in
        let p :=
          set_current_timestamp
            (break_time + DateTime.hours BREAK_DURATION)%Z p in
        let p :=
          set_remaining_drive
            (remaining_drive p - hours_until_break_needed) p in
        let p :=
          set_miles_to_next_fuel
            (miles_to_next_fuel p
             - hours_until_break_needed * AVG_SPEED_MPH) p in
        Ok (set_hours_since_break 0 p))))
      else
        (* lines 530-604: drive as far as possible *)
        let drive_position :=
          segment_position p + drivable_hours * AVG_SPEED_MPH in
        bind (calculate_time_restricted_arrival recursion_limit
                (current_timestamp p) drivable_hours)
             (fun arrival_time =>
        let p := set_segment_position drive_position p in
        let p := set_current_timestamp arrival_time p in
        let p :=
          set_remaining_drive (remaining_drive p - drivable_hours) p in
        let p :=
          set_miles_to_next_fuel
            (miles_to_next_fuel p - drivable_hours * AVG_SPEED_MPH) p in
        let p :=
          set_hours_since_break
            (hours_of_driving_since_last_break p + drivable_hours) p in
        let hours_until_end :=
          calculate_hours_until_end_of_driving_day (current_timestamp p) in
        if andb (Qle_bool hours_until_end 0)
                (Qlt_bool 0 (remaining_drive p)) then
          bind (try_except
                  (bind (div (segment_position p) total_distance)
                        (fun percent =>
                           Ok (interpolate_position route percent)))
                  (Ok (interpolate_position route 0)))
               (fun overnight_coordinates =>
          let off_duty_start :=
            at_hour (current_timestamp p) DRIVING_END_HOUR in
          let p :=
            append {| type := "off-duty";
                      name := "End of Driving Day";
                      coordinates := overnight_coordinates;
                      duration :=
                        format_duration
                          (SLEEPER_START_HOUR - DRIVING_END_HOUR);
                      estimatedArrival := off_duty_start |} p in
          let sleeper_time := at_hour off_duty_start SLEEPER_START_HOUR in
          let p :=
            append {| type := "overnight";
                      name := "Required 10-Hour Rest";
                      coordinates := overnight_coordinates;
                      duration := "10 hours";
                      estimatedArrival := sleeper_time |} p in
          let p :=
            set_current_timestamp
              (sleeper_time + DateTime.hours 10)%Z p in
          Ok (early_morning_rest overnight_coordinates p))
        else Ok p).

(** The loop [while remaining_drive > 0]; [fuel] bounds the number of
    iterations the model follows. *)
Fixpoint drive_loop (fuel : nat) (route : CombinedRoute) (p : Plan)
  : outcome Plan :=
  match fuel with
  | O => OutOfFuel
  | S fuel =>
      if Qlt_bool 0 (remaining_drive p) then
        bind (drive_step route p) (drive_loop fuel route)
      else Ok p
  end.

Definition stop_leb (a b : Stop) : bool :=
  (estimatedArrival a <=? estimatedArrival b)%Z.

Section World.

(** The geocoder, which the planner calls under [try ... except Exception]:
    here it is allowed to raise. *)
Variable world : Type.
Variable get_location_name : Coord -> world -> outcome string * world.

(** Lines 311-637: the leg to [locations[i]]. *)
Definition leg (fuel : nat) (route : CombinedRoute) (number_of_locations : Z)
    (i : Z) (location : Location) (p : Plan) (w : world)
  : outcome Plan * world :=
  let total_distance := route_calculator.distance route in
  match div (inject_Z i) (inject_Z (number_of_locations - 1)) with
  | Ok location_percent =>
      let next_position := total_distance * location_percent in
      let distance_to_next := next_position - current_position p in
      let driving_hours := distance_to_next / AVG_SPEED_MPH in
      let p :=
        set_miles_to_next_fuel
          (FUEL_STOP_INTERVAL - miles_since_last_fuel p) p in
      let p := set_remaining_drive driving_hours p in
      let p := set_segment_position (current_position p) p in
      match drive_loop fuel route p with
      | Ok p =>
          let p :=
            {| stops := stops p;
               current_timestamp := current_timestamp p;
               current_position := next_position;
               miles_since_last_fuel :=
                 miles_since_last_fuel p + distance_to_next;
               hours_of_driving_since_last_break :=
                 hours_of_driving_since_last_break p;
               days_on_road := days_on_road p;
               miles_to_next_fuel := miles_to_next_fuel p;
               remaining_drive := remaining_drive p;
               segment_position := segment_position p |} in
          let '(stop_type, stop_duration) :=
            if (i =? 1)%Z then ("pickup", PICKUP_DURATION)
            else if (i =? number_of_locations - 1)%Z
                 then ("dropoff", DROPOFF_DURATION)
                 else ("waypoint", WAYPOINT_DURATION) in
          let location_coordinates := (lng location, lat location) in
          let '(looked_up, w) := get_location_name location_coordinates w in
          let location_name :=
            match looked_up with
            | Ok found => capitalize stop_type ++ " at " ++ found
            | _ => capitalize stop_type ++ " Location"
            end in
          let p :=
            append {| type := stop_type;
                      name := location_name;
                      coordinates := (lng location, lat location);
                      duration := format_duration stop_duration;
                      estimatedArrival := current_timestamp p |} p in
          (Ok (set_current_timestamp
                 (current_timestamp p + DateTime.hours stop_duration)%Z p),
           w)
      | Raise e => (Raise e, w)
      | OutOfFuel => (OutOfFuel, w)
      end
  | Raise e => (Raise e, w)
  | OutOfFuel => (OutOfFuel, w)
  end.

(** The loop [for i in range(1, len(locations))]. *)
Fixpoint legs (fuel : nat) (route : CombinedRoute) (number_of_locations : Z)
    (i : Z) (destinations : list Location) (p : Plan) (w : world)
  : outcome Plan * world :=
  match destinations with
  | [] => (Ok p, w)
  | location :: rest =>
      match leg fuel route number_of_locations i location p w with
      | (Ok p, w) => legs fuel route number_of_locations (i + 1) rest p w
      | failed => failed
      end
  end.

(** Lines 254-308: the stops before the first leg. *)
Definition start_of_trip (origin : Location) (start_time : datetime)
    (current_cycle_used : Q) : Plan :=
  let p :=
    {| stops :=
         [ {| type := "start";
              name := "Starting Location";
              coordinates := (lng origin, lat origin);
              duration := "0 hours";
              estimatedArrival := start_time |} ];
       current_timestamp := start_time;
       current_position := 0;
       miles_since_last_fuel := 0;
       hours_of_driving_since_last_break := current_cycle_used;
       days_on_road := 0;
       miles_to_next_fuel := 0;
       remaining_drive := 0;
       segment_position := 0 |} in
  let current_hour := hour_frac (current_timestamp p) in
  let p :=
    if Qlt_bool current_hour SLEEPER_END_HOUR then
      let p :=
        append {| type := "off-duty";
                  name := "Early Morning Rest (Off-Duty)";
                  coordinates := (lng origin, lat origin);
                  duration := format_duration (SLEEPER_END_HOUR - current_hour);
                  estimatedArrival := current_timestamp p |} p in
      set_current_timestamp
        (at_hour (current_timestamp p) SLEEPER_END_HOUR) p
    else p in
  let current_hour := hour_frac (current_timestamp p) in
  let p :=
    if andb (Qle_bool PRE_TRIP_START_HOUR current_hour)
            (Qlt_bool current_hour DRIVING_START_HOUR) then
      let p :=
        append {| type := "pretrip";
                  name := "Pre-trip Inspection";
                  coordinates := (lng origin, lat origin);
                  duration :=
                    format_duration (DRIVING_START_HOUR - PRE_TRIP_START_HOUR);
                  estimatedArrival := current_timestamp p |} p in
      let pretrip_time := DRIVING_START_HOUR - current_hour in
      set_current_timestamp
        (current_timestamp p + DateTime.hours pretrip_time)%Z p
    else p in
  set_current_timestamp (next_driving_start_time (current_timestamp p)) p.

(** The planner up to the final sort: the variables after the last leg. *)
Definition plan_trip (fuel : nat) (route : CombinedRoute)
    (locations : list Location) (start_time : datetime)
    (current_cycle_used : Q) (w : world) : outcome Plan * world :=
  match locations with
  | [] => (Raise IndexError, w)
  | origin :: destinations =>
      legs fuel route (Z.of_nat (List.length locations)) 1 destinations
           (start_of_trip origin start_time current_cycle_used) w
  end.

(** [generate_stops], called with a start time as the view does; [fuel]
    bounds the iterations of each drive loop. *)
Definition generate_stops (fuel : nat) (route : CombinedRoute)
    (locations : list Location) (start_time : datetime)
    (current_cycle_used : Q) (w : world) : outcome (list Stop) * world :=
  match plan_trip fuel route locations start_time current_cycle_used w with
  | (Ok p, w) => (Ok (stable_sort stop_leb (stops p)), w)
  | (Raise e, w) => (Raise e, w)
  | (OutOfFuel, w) => (OutOfFuel, w)
  end.

End World.

End stop_generator.

(** * Properties *)

(** ** Comparisons on rationals *)

Lemma Qlt_bool_iff (a b : Q) : Py.Qlt_bool a b = true <-> a < b.
Proof.
  unfold Py.Qlt_bool. rewrite negb_true_iff.
  split; intro H.
  - apply Qnot_le_lt. intro Hle. apply Qle_bool_iff in Hle. congruence.
  - destruct (Qle_bool b a) eqn:E; [|reflexivity].
    apply Qle_bool_iff in E. exfalso. apply (Qlt_not_le _ _ H E).
Qed.

Lemma Qlt_bool_false_iff (a b : Q) : Py.Qlt_bool a b = false <-> b <= a.
Proof.
  unfold Py.Qlt_bool. rewrite negb_false_iff. apply Qle_bool_iff.
Qed.

Lemma Qle_bool_false_iff (a b : Q) : Qle_bool a b = false <-> b < a.
Proof.
  rewrite <- Qlt_bool_iff. unfold Py.Qlt_bool.
  destruct (Qle_bool a b); simpl; split; congruence.
Qed.

Lemma round_comp (x y : Q) : x == y -> Py.round x = Py.round y.
Proof.
  intros H. unfold Py.round. rewrite (Qfloor_comp x y H).
  assert (E : x - inject_Z (Qfloor y) == y - inject_Z (Qfloor y))
    by (rewrite H; reflexivity).
  rewrite (Qcompare_comp _ _ E _ _ (Qeq_refl (1 # 2))). reflexivity.
Qed.

(** Linear arithmetic with divisions by numerals: [x / c] is [x * (1 / c)]. *)
Ltac qinv_consts :=
  unfold Qdiv in *;
  repeat match goal with
  | |- context [Qinv (Qmake ?n ?d)] =>
      let v := eval cbv in (Qinv (Qmake n d)) in
      change (Qinv (Qmake n d)) with v
  | H : context [Qinv (Qmake ?n ?d)] |- _ =>
      let v := eval cbv in (Qinv (Qmake n d)) in
      change (Qinv (Qmake n d)) with v in H
  end.

Ltac qlra := qinv_consts; lra.

(** Turns the boolean tests found in the hypotheses into propositions. *)
Ltac qbool :=
  repeat match goal with
  | H : andb _ _ = true |- _ => apply andb_true_iff in H; destruct H
  | H : andb _ _ = false |- _ => apply andb_false_iff in H
  | H : negb _ = true |- _ => apply negb_true_iff in H
  | H : negb _ = false |- _ => apply negb_false_iff in H
  | H : Py.Qlt_bool _ _ = true |- _ => apply Qlt_bool_iff in H
  | H : Py.Qlt_bool _ _ = false |- _ => apply Qlt_bool_false_iff in H
  | H : Qle_bool _ _ = true |- _ => apply Qle_bool_iff in H
  | H : Qle_bool _ _ = false |- _ => apply Qle_bool_false_iff in H
  end.

(** ** [interpolate_position] *)

Section Interpolation.

Import route_calculator.


Lemma clamp_id (p : Q) : 0 <= p <= 1 -> Qmax 0 (Qmin 1 p) == p.
Proof.
  intros [H0 H1].
  rewrite (Q.min_r 1 p) by exact H1.
  apply Q.max_r. exact H0.
Qed.

Lemma clamp_above (p : Q) : 1 <= p -> Qmax 0 (Qmin 1 p) == 1.
Proof.
  intros H.
  rewrite (Q.min_l 1 p) by exact H.
  apply Q.max_r. lra.
Qed.


(** The index computed by lines 211-215. *)
Definition interpolation_index (route : CombinedRoute) (p : Q) : Z :=
  let N := Z.of_nat (List.length (coordinates route)) in
  Z.max 0 (Z.min (Qfloor (Qmax 0 (Qmin 1 p) * inject_Z N)) (N - 1)).

Lemma interpolation_index_range (route : CombinedRoute) (p : Q) :
  coordinates route <> [] ->
  (0 <= interpolation_index route p
   <= Z.of_nat (List.length (coordinates route)) - 1)%Z.
Proof.
  intros Hne. unfold interpolation_index.
  destruct (coordinates route) as [|c cs]; [congruence|].
  simpl List.length. lia.
Qed.

Lemma interpolate_position_nth (route : CombinedRoute) (p : Q) :
  coordinates route <> [] ->
  nth_error (coordinates route) (Z.to_nat (interpolation_index route p))
  = Some (interpolate_position route p).
Proof.
  intros Hne.
  pose proof (interpolation_index_range route p Hne) as Hr.
  unfold interpolate_position, interpolation_index in *.
  destruct (coordinates route) as [|c cs] eqn:E; [congruence|].
  cbv zeta.
  set (i := Z.max 0 _) in *.
  apply nth_error_nth'.
  simpl List.length in *. lia.
Qed.

(** For a fraction in [[0, 1)] no clamping of the index is needed. *)
Lemma interpolation_index_floor (route : CombinedRoute) (p : Q) :
  coordinates route <> [] -> 0 <= p -> p < 1 ->
  interpolation_index route p
  = Qfloor (p * inject_Z (Z.of_nat (List.length (coordinates route)))).
Proof.
  intros Hne H0 H1. unfold interpolation_index.
  set (N := Z.of_nat (List.length (coordinates route))).
  assert (HN : (0 < N)%Z).
  { subst N. destruct (coordinates route); [congruence|]. simpl. lia. }
  assert (Hc : Qmax 0 (Qmin 1 p) == p) by (apply clamp_id; lra).
  rewrite (Qfloor_comp _ (p * inject_Z N)) by (rewrite Hc; reflexivity).
  assert (HNq : 0 < inject_Z N).
  { change (inject_Z 0 < inject_Z N). rewrite <- Zlt_Qlt. exact HN. }
  assert (Hlo : (0 <= Qfloor (p * inject_Z N))%Z).
  { rewrite <- (Qfloor_Z 0). apply Qfloor_resp_le.
    apply Qmult_le_0_compat; [exact H0 | lra]. }
  assert (Hhi : (Qfloor (p * inject_Z N) < N)%Z).
  { rewrite Zlt_Qlt.
    apply Qle_lt_trans with (p * inject_Z N); [apply Qfloor_le|].
    setoid_replace (inject_Z N) with (1 * inject_Z N) at 2 by ring.
    apply Qmult_lt_compat_r; assumption. }
  lia.
Qed.

Lemma interpolation_index_last (route : CombinedRoute) (p : Q) :
  coordinates route <> [] -> 1 <= p ->
  interpolation_index route p
  = (Z.of_nat (List.length (coordinates route)) - 1)%Z.
Proof.
  intros Hne H1. unfold interpolation_index.
  set (N := Z.of_nat (List.length (coordinates route))).
  assert (HN : (0 < N)%Z).
  { subst N. destruct (coordinates route); [congruence|]. simpl. lia. }
  assert (Hc : Qmax 0 (Qmin 1 p) == 1) by (apply clamp_above; exact H1).
  rewrite (Qfloor_comp _ (inject_Z N)) by (rewrite Hc; ring).
  rewrite Qfloor_Z. lia.
Qed.


End Interpolation.



(** ** The validation of [TripELDView.post] *)

Section Validation.

Import Py views.

Variable A : Type.
Variable pipeline : list location -> json -> outcome A.
Variable str_of_exn : exn -> string.

(** A request body
    [{"trip": {"currentLocation": ..., "pickupLocation": ...,
               "dropoffLocation": ...}}]. *)
Definition coordinates_json (latitude longitude : json) : json :=
  JObj [("coordinates",
         JObj [("latitude", latitude); ("longitude", longitude)])].

Definition trip_request (c_lat c_lng p_lat p_lng d_lat d_lng : json) : json :=
  JObj [("trip",
         JObj [("currentLocation", coordinates_json c_lat c_lng);
               ("pickupLocation", coordinates_json p_lat p_lng);
               ("dropoffLocation", coordinates_json d_lat d_lng)])].

Definition validation_error : response A :=
  Response400 "Missing or invalid coordinates in trip data".

(** The validation rejects a request exactly when one of the six values is
    falsy. *)
Lemma post_rejects_iff (c_lat c_lng p_lat p_lng d_lat d_lng : json) :
  post_body A pipeline (trip_request c_lat c_lng p_lat p_lng d_lat d_lng)
  = Ok validation_error
  <-> (truthy c_lat && truthy c_lng && truthy p_lat && truthy p_lng
       && truthy d_lat && truthy d_lng = false)%bool.
Proof.
  unfold post_body, trip_request, coordinates_json, rejects. simpl.
  destruct (truthy c_lat), (truthy c_lng), (truthy p_lat), (truthy p_lng),
    (truthy d_lat), (truthy d_lng); simpl;
    try (split; [reflexivity | reflexivity]);
    split; try discriminate;
    destruct (pipeline _ _); simpl; discriminate.
Qed.

(** A null value is rejected. *)
Lemma post_null_latitude (c_lng p_lat p_lng d_lat d_lng : json) :
  post A pipeline str_of_exn
       (trip_request JNull c_lng p_lat p_lng d_lat d_lng)
  = Ok validation_error.
Proof. reflexivity. Qed.

(** Six non-null numbers different from zero pass the validation, and the
    pipeline is run on the three locations. *)
Lemma post_nonzero_numbers (a b c d e f : Q) :
  ~ a == 0 -> ~ b == 0 -> ~ c == 0 -> ~ d == 0 -> ~ e == 0 -> ~ f == 0 ->
  post_body A pipeline
    (trip_request (JNum a) (JNum b) (JNum c) (JNum d) (JNum e) (JNum f))
  = bind (pipeline [ {| lat := JNum a; lng := JNum b |};
                     {| lat := JNum c; lng := JNum d |};
                     {| lat := JNum e; lng := JNum f |} ] (JNum 0))
         (fun eld_data => Ok (Response200 eld_data)).
Proof.
  intros Ha Hb Hc Hd He Hf.
  assert (T : forall x, ~ x == 0 -> Qeq_bool x 0 = false).
  { intros x Hx. destruct (Qeq_bool x 0) eqn:E; [|reflexivity].
    apply Qeq_bool_iff in E. contradiction. }
  unfold post_body, trip_request, coordinates_json, rejects. simpl.
  rewrite !T by assumption. reflexivity.
Qed.

(** C3: a request whose six coordinates are all present, non-null floats,
    the current location lying on the equator (latitude 0.0), is answered
    with the 400 validation error, whatever the pipeline: the test
    [not location["lat"]] is also true of the number zero. *)
Theorem C3_zero_latitude_is_rejected :
  post A pipeline str_of_exn
       (trip_request (JNum 0.0) (JNum 10.5) (JNum 12.25) (JNum 10.75)
                     (JNum 13.5) (JNum 11.0))
  = Ok validation_error.
Proof. reflexivity. Qed.

End Validation.

(** ** The log assembler: where a sheet comes from *)

Section Assembler.

Import Py eld_log_generator.

Variable world : Type.
Variable randint : Z -> Z -> world -> Z * world.
Variable choice : list string -> world -> string * world.
Variable get_location_name : Coord -> world -> string * world.

Local Abbreviation process_day :=
  (eld_log_generator.process_day world randint get_location_name).
Local Abbreviation days_loop :=
  (eld_log_generator.days_loop world randint get_location_name).
Local Abbreviation present := (eld_log_generator.present world randint choice).
Local Abbreviation present_all :=
  (eld_log_generator.present_all world randint choice).
Local Abbreviation generate_eld_logs :=
  (eld_log_generator.generate_eld_logs world randint choice get_location_name).

(** The groups of stops, one per day, in ascending order of date. *)
Definition days_of (stops : list Stop) : list (Z * (Stop * list Stop)) :=
  stable_sort day_leb (stops_by_day stops).

(** The fields of a sheet that the presentation loop leaves alone. *)
Definition same_log (a b : DailyLogSheet) : Prop :=
  date a = date b
  /\ startOdometer a = startOdometer b
  /\ endOdometer a = endOdometer b
  /\ totalMiles a = totalMiles b
  /\ totalHours a = totalHours b
  /\ graphData a = graphData b
  /\ violations a = violations b.

Lemma present_same (log : DailyLogSheet) (w : world) :
  same_log (fst (present log w)) log.
Proof.
  unfold eld_log_generator.present.
  destruct (randint 1000 9999 w) as [plate w1].
  destruct (choice _ w1) as [state w2].
  destruct (choice _ w2) as [shipper w3].
  destruct (choice _ w3) as [commodity w4].
  simpl. repeat split.
Qed.

Lemma present_all_nth (daily_logs : list DailyLogSheet) (w : world)
    (k : nat) (sheet : DailyLogSheet) :
  nth_error (fst (present_all daily_logs w)) k = Some sheet ->
  exists log, nth_error daily_logs k = Some log /\ same_log sheet log.
Proof.
  revert w k. induction daily_logs as [|log rest IH]; intros w k H.
  - simpl in H. destruct k; discriminate.
  - simpl in H.
    pose proof (present_same log w) as Hsame.
    destruct (present log w) as [log' w1].
    specialize (IH w1).
    destruct (present_all rest w1) as [rest' w2].
    destruct k as [|k]; simpl in *.
    + inversion H; subst. exists log. split; [reflexivity | exact Hsame].
    + apply IH in H. exact H.
Qed.

(** The variables of a day after the loop over its stops, and the sheet
    built from them. *)
Definition sheet_from (day_index number_of_days : nat) (first_stop : Stop)
    (others : list Stop) (odometer : Z) (sheet : DailyLogSheet) : Prop :=
  let is_last_day := (day_index =? number_of_days - 1)%nat in
  let st := day_trace (day_index =? 0)%nat first_stop others odometer in
  let early :=
    is_early_completion is_last_day
      (last (first_stop :: others) first_stop) in
  let tr := end_of_day early is_last_day (trace st) in
  startOdometer sheet = odometer
  /\ endOdometer sheet = current_odometer st
  /\ totalMiles sheet = round (current_position st)
  /\ totalHours sheet = on_duty_hours st
  /\ hourData (graphData sheet) = stable_sort hour_leb (duty_statuses tr)
  /\ remarks (graphData sheet) = stable_sort time_leb (trace_remarks tr)
  /\ violations sheet
     = hos_violations (driving_hours st) (on_duty_hours st).

Lemma process_day_sheet (day_index number_of_days : nat) (day : Z)
    (first_stop : Stop) (others : list Stop) (odometer : Z) (w : world) :
  sheet_from day_index number_of_days first_stop others odometer
    (fst (fst (process_day day_index number_of_days day first_stop others
                           odometer w)))
  /\ snd (fst (process_day day_index number_of_days day first_stop others
                           odometer w))
     = current_odometer
         (day_trace (day_index =? 0)%nat first_stop others odometer).
Proof.
  unfold eld_log_generator.process_day, create_daily_log_sheet.
  destruct (randint 10000000 99999999 w) as [driver w1].
  destruct (randint 100 999 w1) as [truck w2].
  destruct (randint 100 999 w2) as [trailer w3].
  destruct (randint 100000 999999 w3) as [bol w4].
  destruct (get_location_name (coordinates first_stop) w4) as [l1 w5].
  destruct (get_location_name _ w5) as [l2 w6].
  unfold sheet_from. simpl. repeat split.
Qed.

(** The odometer at the start of the [k]-th day of [groups], when the loop
    is entered at day [day_index] with [odometer]. *)
Fixpoint odometer_at (groups : list (Z * (Stop * list Stop)))
    (day_index : nat) (odometer : Z) (k : nat) : Z :=
  match k, groups with
  | S k, (_, (first_stop, others)) :: rest =>
      odometer_at rest (S day_index)
        (current_odometer
           (day_trace (day_index =? 0)%nat first_stop others odometer)) k
  | _, _ => odometer
  end.

Lemma days_loop_nth (groups : list (Z * (Stop * list Stop)))
    (day_index number_of_days : nat) (odometer : Z) (w : world) (k : nat)
    (log : DailyLogSheet) :
  nth_error (fst (days_loop groups day_index number_of_days odometer w)) k
  = Some log ->
  exists day first_stop others,
    nth_error groups k = Some (day, (first_stop, others))
    /\ sheet_from (day_index + k) number_of_days first_stop others
         (odometer_at groups day_index odometer k) log.
Proof.
  revert day_index odometer w k.
  induction groups as [|[day [first_stop others]] rest IH];
    intros day_index odometer w k H.
  - simpl in H. destruct k; discriminate.
  - simpl in H.
    pose proof (process_day_sheet day_index number_of_days day first_stop
                  others odometer w) as [Hsheet Hodo].
    destruct (process_day day_index number_of_days day first_stop others
                          odometer w) as [[daily_log odometer'] w1].
    simpl in Hsheet, Hodo.
    specialize (IH (S day_index) odometer' w1).
    destruct (days_loop rest (S day_index) number_of_days odometer' w1)
      as [daily_logs w2].
    destruct k as [|k]; simpl in H.
    + inversion H; subst log.
      exists day, first_stop, others. split; [reflexivity|].
      rewrite Nat.add_0_r. exact Hsheet.
    + apply IH in H. destruct H as (d & f & o & Hnth & Hfrom).
      exists d, f, o. split; [exact Hnth|].
      simpl odometer_at. rewrite <- Hodo.
      replace (day_index + S k)%nat with (S day_index + k)%nat by lia.
      exact Hfrom.
Qed.

Lemma sheet_from_same (day_index number_of_days : nat) (first_stop : Stop)
    (others : list Stop) (odometer : Z) (a b : DailyLogSheet) :
  same_log a b ->
  sheet_from day_index number_of_days first_stop others odometer b ->
  sheet_from day_index number_of_days first_stop others odometer a.
Proof.
  unfold same_log, sheet_from.
  intros (H1 & H2 & H3 & H4 & H5 & H6 & H7) (G1 & G2 & G3 & G4 & G5 & G6 & G7).
  rewrite H2, H3, H4, H5, H6, H7. repeat split; assumption.
Qed.

(** The odometer with which [generate_eld_logs] starts. *)
Definition first_odometer (starting_odometer : option Z) (w : world) : Z :=
  match starting_odometer with
  | None => fst (randint 100000 500000 w)
  | Some odometer => odometer
  end.

(** Every sheet returned by [generate_eld_logs] is the sheet of one day of
    the stop list: the [k]-th sheet is built from the [k]-th day. *)
Lemma sheet_origin (stops : list Stop) (starting_odometer : option Z)
    (w : world) (k : nat) (sheet : DailyLogSheet) :
  nth_error (fst (generate_eld_logs stops starting_odometer w)) k
  = Some sheet ->
  exists day first_stop others,
    nth_error (days_of stops) k = Some (day, (first_stop, others))
    /\ sheet_from k (List.length (days_of stops)) first_stop others
         (odometer_at (days_of stops) 0 (first_odometer starting_odometer w) k)
         sheet.
Proof.
  unfold eld_log_generator.generate_eld_logs, first_odometer.
  destruct stops as [|s stops'].
  - simpl. destruct k; discriminate.
  - set (stops := s :: stops').
    fold (days_of stops).
    intros H.
    assert (E : exists o w',
      (match starting_odometer with
       | None => randint 100000 500000 w
       | Some odometer => (odometer, w)
       end) = (o, w')
      /\ o = match starting_odometer with
             | None => fst (randint 100000 500000 w)
             | Some odometer => odometer
             end).
    { destruct starting_odometer as [o|].
      - exists o, w. split; reflexivity.
      - destruct (randint 100000 500000 w) as [o w'].
        exists o, w'. split; reflexivity. }
    destruct E as (o & w' & E & Eo). rewrite E in H. rewrite <- Eo.
    destruct (days_loop (days_of stops) 0 (List.length (days_of stops)) o w')
      as [daily_logs w''] eqn:Eloop.
    apply present_all_nth in H. destruct H as (log & Hlog & Hsame).
    assert (Hnth : nth_error
                     (fst (days_loop (days_of stops) 0
                             (List.length (days_of stops)) o w')) k
                   = Some log) by (rewrite Eloop; exact Hlog).
    apply days_loop_nth in Hnth.
    destruct Hnth as (d & f & ot & Hg & Hfrom).
    exists d, f, ot. split; [exact Hg|].
    eapply sheet_from_same; [exact Hsame | exact Hfrom].
Qed.

End Assembler.

(** ** The log assembler: odometer, hours and violations *)

Section Sheets.

Import Py eld_log_generator.

Variable world : Type.
Variable randint : Z -> Z -> world -> Z * world.
Variable choice : list string -> world -> string * world.
Variable get_location_name : Coord -> world -> string * world.

Local Abbreviation generate_eld_logs :=
  (eld_log_generator.generate_eld_logs world randint choice get_location_name).
Local Abbreviation first_odometer := (first_odometer world randint).

(** C10: for the empty stop list [generate_eld_logs] returns the empty list
    of sheets, whether the starting odometer is supplied or defaulted, and
    leaves the world (the random generator included) untouched. *)
Theorem C10_no_stops_no_sheets (starting_odometer : option Z) (w : world) :
  generate_eld_logs [] starting_odometer w = ([], w).
Proof. reflexivity. Qed.

(** *** Hours *)

Lemma status_change_hours (st : DayState) (stop : Stop) :
  driving_hours (status_change st stop) = driving_hours st
  /\ on_duty_hours (status_change st stop) = on_duty_hours st
  /\ current_odometer (status_change st stop) = current_odometer st
  /\ current_position (status_change st stop) = current_position st.
Proof.
  unfold status_change.
  destruct (stop_status stop (stop_hour_of stop) (trace_remarks (trace st)))
    as [next_status rs].
  destruct (negb (duty_eqb next_status (current_status st)));
    simpl; repeat split.
Qed.

Lemma driving_segment_hours (st : DayState) (stop next_stop : Stop) :
  driving_hours st = on_duty_hours st ->
  driving_hours (driving_segment st stop next_stop)
  = on_duty_hours (driving_segment st stop next_stop).
Proof.
  intros H. unfold driving_segment.
  destruct (andb _ _); [|exact H].
  destruct (Qlt_bool 0.25 _); [|exact H].
  simpl. rewrite H. reflexivity.
Qed.

Lemma stops_loop_hours (day_stops : list Stop) (st : DayState) :
  driving_hours st = on_duty_hours st ->
  driving_hours (stops_loop day_stops st)
  = on_duty_hours (stops_loop day_stops st).
Proof.
  revert st. induction day_stops as [|stop rest IH]; intros st H.
  - exact H.
  - simpl. apply IH.
    destruct (status_change_hours st stop) as (Hd & Ho & _).
    destruct rest as [|next_stop rest'].
    + rewrite Hd, Ho. exact H.
    + apply driving_segment_hours. rewrite Hd, Ho. exact H.
Qed.

(** The two accumulators of a day are always equal. *)
Lemma day_trace_hours (is_first_day : bool) (first_stop : Stop)
    (others : list Stop) (odometer : Z) :
  driving_hours (day_trace is_first_day first_stop others odometer)
  = on_duty_hours (day_trace is_first_day first_stop others odometer).
Proof. unfold day_trace. apply stops_loop_hours. reflexivity. Qed.

(** *** Violations *)

Definition driving_limit_violation (hours : Q) : Violation :=
  {| violation_type := "driving-limit";
     description :=
       "Exceeded 11-hour driving limit (" ++ format_1f hours ++ " hours)" |}.

Definition on_duty_limit_violation (hours : Q) : Violation :=
  {| violation_type := "on-duty-limit";
     description :=
       "Exceeded 14-hour on-duty limit (" ++ format_1f hours ++ " hours)" |}.

Lemma hos_violations_In (d o : Q) (v : Violation) :
  In v (hos_violations d o)
  <-> (11 < d /\ v = driving_limit_violation d)
      \/ (14 < o /\ v = on_duty_limit_violation o).
Proof.
  unfold hos_violations.
  change (inject_Z MAX_DRIVING_HOURS) with 11.
  change (inject_Z MAX_ON_DUTY_HOURS) with 14.
  rewrite in_app_iff.
  destruct (Qlt_bool 11 d) eqn:Ed; destruct (Qlt_bool 14 o) eqn:Eo; qbool;
    simpl; split; intros H.
  - destruct H as [[H|[]]|[H|[]]]; subst v; [left|right]; split;
      first [assumption | reflexivity].
  - destruct H as [[_ H]|[_ H]]; subst v; [left|right]; left; reflexivity.
  - destruct H as [[H|[]]|[]]; subst v. left. split; [assumption|reflexivity].
  - destruct H as [[_ H]|[H _]]; [subst v; left; left; reflexivity | lra].
  - destruct H as [[]|[H|[]]]; subst v. right. split; [assumption|reflexivity].
  - destruct H as [[H _]|[_ H]]; [lra | subst v; right; left; reflexivity].
  - destruct H as [[]|[]].
  - destruct H as [[H _]|[H _]]; lra.
Qed.

Lemma hos_violations_driving (d o : Q) :
  (exists v, In v (hos_violations d o) /\ violation_type v = "driving-limit")
  <-> 11 < d.
Proof.
  split.
  - intros (v & Hin & Hty). apply hos_violations_In in Hin.
    destruct Hin as [[H _]|[_ H]]; [exact H | subst v; discriminate].
  - intros H. exists (driving_limit_violation d). split; [|reflexivity].
    apply hos_violations_In. left. split; [exact H | reflexivity].
Qed.

Lemma hos_violations_on_duty (d o : Q) :
  (exists v, In v (hos_violations d o) /\ violation_type v = "on-duty-limit")
  <-> 14 < o.
Proof.
  split.
  - intros (v & Hin & Hty). apply hos_violations_In in Hin.
    destruct Hin as [[_ H]|[H _]]; [subst v; discriminate | exact H].
  - intros H. exists (on_duty_limit_violation o). split; [|reflexivity].
    apply hos_violations_In. right. split; [exact H | reflexivity].
Qed.

(** C5: the [k]-th sheet, built from the [k]-th day of the stop list, holds
    a ["driving-limit"] violation exactly when the driving hours accumulated
    over that day exceed 11, and an ["on-duty-limit"] violation exactly when
    the accumulated on-duty hours exceed 14; each description is the fixed
    text with the hour total formatted to one decimal. *)
Theorem C5_violation_flagging (stops : list Stop)
    (starting_odometer : option Z) (w : world) (k : nat)
    (sheet : DailyLogSheet) :
  nth_error (fst (generate_eld_logs stops starting_odometer w)) k
  = Some sheet ->
  exists day first_stop others,
    nth_error (days_of stops) k = Some (day, (first_stop, others))
    /\ let st :=
         day_trace (k =? 0)%nat first_stop others
           (odometer_at (days_of stops) 0
              (first_odometer starting_odometer w) k) in
       ((exists v, In v (violations sheet)
                   /\ violation_type v = "driving-limit")
        <-> 11 < driving_hours st)
       /\ ((exists v, In v (violations sheet)
                      /\ violation_type v = "on-duty-limit")
           <-> 14 < on_duty_hours st)
       /\ (forall v, In v (violations sheet) ->
           violation_type v = "driving-limit" ->
           description v
           = "Exceeded 11-hour driving limit ("
             ++ format_1f (driving_hours st) ++ " hours)")
       /\ (forall v, In v (violations sheet) ->
           violation_type v = "on-duty-limit" ->
           description v
           = "Exceeded 14-hour on-duty limit ("
             ++ format_1f (on_duty_hours st) ++ " hours)").
Proof.
  intros H. apply sheet_origin in H.
  destruct H as (day & first_stop & others & Hday & Hfrom).
  exists day, first_stop, others. split; [exact Hday|].
  destruct Hfrom as (_ & _ & _ & _ & _ & _ & Hv).
  cbv zeta. rewrite Hv.
  split; [apply hos_violations_driving|].
  split; [apply hos_violations_on_duty|].
  split; intros v Hin Hty; apply hos_violations_In in Hin;
    destruct Hin as [[_ E]|[_ E]]; subst v;
    first [reflexivity | discriminate].
Qed.

(** C9: in the [k]-th sheet the driving hours and the on-duty hours
    accumulated over the day are the same number, [totalHours] is that
    number, and an ["on-duty-limit"] violation never comes without a
    ["driving-limit"] violation. *)
Theorem C9_driving_hours_equal_on_duty_hours (stops : list Stop)
    (starting_odometer : option Z) (w : world) (k : nat)
    (sheet : DailyLogSheet) :
  nth_error (fst (generate_eld_logs stops starting_odometer w)) k
  = Some sheet ->
  exists day first_stop others,
    nth_error (days_of stops) k = Some (day, (first_stop, others))
    /\ let st :=
         day_trace (k =? 0)%nat first_stop others
           (odometer_at (days_of stops) 0
              (first_odometer starting_odometer w) k) in
       driving_hours st = on_duty_hours st
       /\ totalHours sheet = on_duty_hours st
       /\ totalHours sheet = driving_hours st
       /\ ((exists v, In v (violations sheet)
                      /\ violation_type v = "on-duty-limit") ->
           (exists v, In v (violations sheet)
                      /\ violation_type v = "driving-limit")).
Proof.
  intros H. apply sheet_origin in H.
  destruct H as (day & first_stop & others & Hday & Hfrom).
  exists day, first_stop, others. split; [exact Hday|].
  destruct Hfrom as (_ & _ & _ & Hh & _ & _ & Hv).
  cbv zeta.
  pose proof (day_trace_hours (k =? 0)%nat first_stop others
                (odometer_at (days_of stops) 0
                   (first_odometer starting_odometer w) k)) as Heq.
  split; [exact Heq|].
  split; [exact Hh|].
  split; [rewrite Heq; exact Hh|].
  rewrite Hv. intros Hon.
  apply hos_violations_on_duty in Hon.
  apply hos_violations_driving. rewrite Heq. lra.
Qed.

(** *** Odometer *)

(** The miles of the driving segments of a day (lines 223-246), in order. *)
Fixpoint segment_miles (day_stops : list Stop) : list Q :=
  match day_stops with
  | [] => []
  | stop :: rest =>
      match rest with
      | [] => []
      | next_stop :: _ =>
          let driving_start :=
            (estimatedArrival stop + DateTime.minutes 30)%Z in
          let time_diff :=
            total_seconds (estimatedArrival next_stop - driving_start)%Z
            / 3600 in
          (if andb (andb (negb (type_in (type next_stop)
                                        ["off-duty"; "overnight"]))
                         (negb (type_in (type stop)
                                        ["off-duty"; "overnight"])))
                   (Qlt_bool 0.25 time_diff)
           then [time_diff * 60] else [])
          ++ segment_miles rest
      end
  end%list.

Definition sum_rounded (miles : list Q) : Z :=
  fold_right (fun m total => (round m + total)%Z) 0%Z miles.

Definition sum_miles (miles : list Q) : Q :=
  fold_right (fun m total => m + total) 0 miles.

Lemma stops_loop_odometer (day_stops : list Stop) (st : DayState) :
  current_odometer (stops_loop day_stops st)
  = (current_odometer st + sum_rounded (segment_miles day_stops))%Z
  /\ current_position (stops_loop day_stops st)
     == current_position st + sum_miles (segment_miles day_stops).
Proof.
  revert st. induction day_stops as [|stop rest IH]; intros st.
  - simpl. split; [lia | ring].
  - cbn [stops_loop segment_miles].
    destruct (status_change_hours st stop) as (_ & _ & Ho & Hp).
    destruct rest as [|next_stop rest'].
    + simpl. rewrite Ho, Hp. split; [lia | ring].
    + specialize (IH (driving_segment (status_change st stop) stop next_stop)).
      destruct IH as [IHo IHp]. rewrite IHo, IHp.
      unfold driving_segment.
      change (int (0.5 * 60)) with 30%Z.
      destruct (negb (type_in (type next_stop) ["off-duty"; "overnight"])
                && negb (type_in (type stop) ["off-duty"; "overnight"]))%bool;
        cbn [andb]; [|rewrite Ho, Hp; cbn [app]; split; [lia | ring]].
      destruct (Qlt_bool 0.25 _); cbn [app].
      * unfold sum_rounded, sum_miles.
        cbn [current_odometer current_position fold_right].
        rewrite Ho, Hp. split; [lia | ring].
      * rewrite Ho, Hp. split; [lia | ring].
Qed.

(** What does hold of the odometer: within a sheet the odometer advances by
    the sum of the rounded segment miles, while [totalMiles] is the rounded
    sum of the segment miles; and the odometer is carried from each sheet to
    the next one. *)
Lemma sheet_odometer (stops : list Stop) (starting_odometer : option Z)
    (w : world) (k : nat) (sheet : DailyLogSheet) :
  nth_error (fst (generate_eld_logs stops starting_odometer w)) k
  = Some sheet ->
  exists day first_stop others,
    nth_error (days_of stops) k = Some (day, (first_stop, others))
    /\ (endOdometer sheet - startOdometer sheet
        = sum_rounded (segment_miles (first_stop :: others)))%Z
    /\ totalMiles sheet
       = round (sum_miles (segment_miles (first_stop :: others))).
Proof.
  intros H. apply sheet_origin in H.
  destruct H as (day & first_stop & others & Hday & Hfrom).
  exists day, first_stop, others. split; [exact Hday|].
  destruct Hfrom as (Hs & He & Ht & _).
  rewrite Hs, He, Ht. unfold day_trace.
  match goal with
  | |- context [stops_loop ?l ?s] =>
      destruct (stops_loop_odometer l s) as [Ho Hp]
  end.
  rewrite Ho. cbn [current_odometer]. split; [lia|].
  cbn [current_position] in Hp.
  apply round_comp. rewrite Hp. ring.
Qed.

Lemma odometer_at_step (groups : list (Z * (Stop * list Stop)))
    (day_index : nat) (odometer : Z) (k : nat) (day : Z) (first_stop : Stop)
    (others : list Stop) :
  nth_error groups k = Some (day, (first_stop, others)) ->
  odometer_at groups day_index odometer (S k)
  = current_odometer
      (day_trace (day_index + k =? 0)%nat first_stop others
         (odometer_at groups day_index odometer k)).
Proof.
  revert day_index odometer k.
  induction groups as [|[d [f o]] rest IH]; intros day_index odometer k H.
  - destruct k; discriminate.
  - destruct k as [|k].
    + simpl in H. inversion H; subst. simpl.
      rewrite Nat.add_0_r. destruct rest as [|[? [? ?]] ?]; reflexivity.
    + simpl in H. cbn [odometer_at].
      rewrite (IH (S day_index) _ k H).
      replace (S day_index + k)%nat with (day_index + S k)%nat by lia.
      reflexivity.
Qed.

Lemma odometer_carried (stops : list Stop) (starting_odometer : option Z)
    (w : world) (k : nat) (sheet next_sheet : DailyLogSheet) :
  nth_error (fst (generate_eld_logs stops starting_odometer w)) k
  = Some sheet ->
  nth_error (fst (generate_eld_logs stops starting_odometer w)) (S k)
  = Some next_sheet ->
  startOdometer next_sheet = endOdometer sheet.
Proof.
  intros H1 H2.
  apply sheet_origin in H1. apply sheet_origin in H2.
  destruct H1 as (d1 & f1 & o1 & Hd1 & Hf1).
  destruct H2 as (d2 & f2 & o2 & Hd2 & Hf2).
  destruct Hf1 as (_ & He & _). destruct Hf2 as (Hs & _).
  rewrite Hs, He.
  rewrite (odometer_at_step _ 0 _ k d1 f1 o1 Hd1). reflexivity.
Qed.

End Sheets.

(** ** The duty-status timeline of a day *)

Section Timeline.

Import Py eld_log_generator.

(** Two hours that [add_duty_status] keeps apart. *)
Definition apart (a b : Q) : Prop := 0.001 <= Qabs (a - b).

(** Is some hour of the list within 0.001 of [h]? *)
Definition written (hs : list Q) (h : Q) : bool :=
  existsb (fun x => Qlt_bool (Qabs (x - h)) 0.001) hs.

(** What [add_duty_status] does to the hours of the list. *)
Definition add_hour (hs : list Q) (h : Q) : list Q :=
  if written hs h then hs else (hs ++ [h])%list.

Lemma add_duty_status_hours (l : list DutyStatus) (h : Q) (s : duty) :
  map hour (add_duty_status l h s) = add_hour (map hour l) h.
Proof.
  unfold add_hour, written.
  induction l as [|e l IH]; [reflexivity|].
  cbn [add_duty_status map existsb].
  destruct (Qlt_bool (Qabs (hour e - h)) 0.001); cbn [orb map hour].
  - reflexivity.
  - rewrite IH.
    destruct (existsb _ (map hour l)); reflexivity.
Qed.

(** A write at an hour that is already there changes no hour and adds no
    record. *)
Lemma add_duty_status_overwrites (l : list DutyStatus) (h : Q) (s : duty) :
  written (map hour l) h = true ->
  map hour (add_duty_status l h s) = map hour l
  /\ List.length (add_duty_status l h s) = List.length l.
Proof.
  intros H.
  assert (E := add_duty_status_hours l h s).
  unfold add_hour in E. rewrite H in E. split; [exact E|].
  rewrite <- (length_map hour), E. apply length_map.
Qed.

(** After a write some record within 0.001 of the hour has the status. *)
Lemma add_duty_status_written (l : list DutyStatus) (h : Q) (s : duty) :
  exists e, In e (add_duty_status l h s)
            /\ Qabs (hour e - h) < 0.001 /\ status e = s.
Proof.
  induction l as [|e l IH]; cbn [add_duty_status].
  - exists {| hour := h; status := s |}. split; [left; reflexivity|].
    split; [|reflexivity]. cbn [hour].
    setoid_replace (h - h) with 0 by ring. reflexivity.
  - destruct (Qlt_bool (Qabs (hour e - h)) 0.001) eqn:E.
    + exists {| hour := hour e; status := s |}.
      split; [left; reflexivity|]. split; [|reflexivity].
      apply Qlt_bool_iff in E. exact E.
    + destruct IH as (x & Hin & Hx). exists x. split; [right; exact Hin|].
      exact Hx.
Qed.



(** The hours of a timeline after some more writes, all within the day. *)
Inductive grows : list Q -> list Q -> Prop :=
| grows_refl (hs : list Q) : grows hs hs
| grows_step (hs : list Q) (h : Q) (hs' : list Q) :
    0 <= h -> h < 24 -> grows (add_hour hs h) hs' -> grows hs hs'.

Lemma grows_trans (a b c : list Q) : grows a b -> grows b c -> grows a c.
Proof.
  intros H. induction H as [|hs h hs' H0 H24 _ IH]; intros Hc; [exact Hc|].
  eapply grows_step; [exact H0 | exact H24 | apply IH; exact Hc].
Qed.

Lemma grows_add (l : list DutyStatus) (h : Q) (s : duty) :
  0 <= h -> h < 24 ->
  grows (map hour l) (map hour (add_duty_status l h s)).
Proof.
  intros H0 H24. rewrite add_duty_status_hours.
  eapply grows_step; [exact H0 | exact H24 | apply grows_refl].
Qed.

Definition hours_of (tr : Trace) : list Q := map hour (duty_statuses tr).

Lemma grows_note (tr : Trace) (h : Q) (s : duty) (text : string) :
  0 <= h -> h < 24 -> grows (hours_of tr) (hours_of (note tr h s text)).
Proof. intros. unfold hours_of, note. simpl. apply grows_add; assumption. Qed.

(** *** The fractional hour of a timestamp *)

Lemma hour_frac_range (t : datetime) : 0 <= hour_frac t /\ hour_frac t < 24.
Proof.
  unfold hour_frac.
  assert (Hh : (0 <= DateTime.hour t < 24)%Z)
    by (unfold DateTime.hour; apply Z.mod_pos_bound; lia).
  assert (Hm : (0 <= DateTime.minute t < 60)%Z)
    by (unfold DateTime.minute; apply Z.mod_pos_bound; lia).
  destruct Hh as [Hh0 Hh1]. destruct Hm as [Hm0 Hm1].
  assert (Hh1' : (DateTime.hour t <= 23)%Z) by lia.
  assert (Hm1' : (DateTime.minute t <= 59)%Z) by lia.
  rewrite Zle_Qle in Hh0, Hm0, Hh1', Hm1'.
  change (inject_Z 0) with 0 in *.
  change (inject_Z 23) with 23 in *. change (inject_Z 59) with 59 in *.
  set (h := inject_Z (DateTime.hour t)) in *.
  set (m := inject_Z (DateTime.minute t)) in *.
  clearbody h m. split; qlra.
Qed.

(** *** Every phase of the day only writes hours of the day *)

Lemma seed_stop_grows (tr : Trace) (stop : Stop) :
  grows (hours_of tr) (hours_of (seed_stop tr stop)).
Proof.
  unfold seed_stop, stop_hour_of.
  destruct (hour_frac_range (estimatedArrival stop)) as [H0 H24].
  repeat match goal with
  | |- context [if ?c then _ else _] => destruct c
  end; first [apply grows_note; assumption | apply grows_refl].
Qed.

Lemma seed_stops_grows (day_stops : list Stop) (tr : Trace) :
  grows (hours_of tr) (hours_of (seed_stops day_stops tr)).
Proof.
  unfold seed_stops. revert tr.
  induction day_stops as [|stop rest IH]; intros tr; [apply grows_refl|].
  simpl. eapply grows_trans; [apply seed_stop_grows | apply IH].
Qed.

Lemma early_morning_grows (is_first_day : bool) (tr : Trace) :
  grows (hours_of tr) (hours_of (early_morning is_first_day tr)).
Proof.
  unfold early_morning.
  destruct (filter _ _); [|destruct (negb _)];
    try destruct is_first_day;
    first [apply grows_note; lra | apply grows_refl].
Qed.

Lemma rest_end_grows (tr : Trace) :
  grows (hours_of tr) (hours_of (rest_end tr)).
Proof.
  unfold rest_end, SLEEPER_END_HOUR.
  destruct (negb _); first [apply grows_note; lra | apply grows_refl].
Qed.

Lemma morning_pattern_grows (is_first_day : bool) (first_stop_time : datetime)
    (tr : Trace) :
  grows (hours_of tr)
        (hours_of (morning_pattern is_first_day first_stop_time tr)).
Proof.
  unfold morning_pattern, PRE_TRIP_START_HOUR, DRIVING_START_HOUR.
  destruct (hour_frac_range first_stop_time) as [H0 H24].
  destruct is_first_day; [destruct (Qle_bool _ _)|]; cbv zeta.
  - eapply grows_trans; apply grows_note; lra.
  - eapply grows_trans; apply grows_note; try assumption.
    + apply Q.min_glb; lra.
    + apply Qle_lt_trans with 23.9; [apply Q.le_min_r | lra].
  - eapply grows_trans; apply grows_note; lra.
Qed.

Lemma status_change_grows (st : DayState) (stop : Stop) :
  grows (hours_of (trace st)) (hours_of (trace (status_change st stop))).
Proof.
  unfold status_change, stop_hour_of.
  destruct (hour_frac_range (estimatedArrival stop)) as [H0 H24].
  destruct (stop_status _ _ _) as [next_status rs].
  destruct (negb _); unfold hours_of; simpl.
  - apply grows_add; assumption.
  - apply grows_refl.
Qed.

Lemma driving_segment_grows (st : DayState) (stop next_stop : Stop) :
  grows (hours_of (trace st))
        (hours_of (trace (driving_segment st stop next_stop))).
Proof.
  unfold driving_segment.
  destruct (andb _ _); [|apply grows_refl].
  cbv zeta.
  destruct (Qlt_bool 0.25 _); [|apply grows_refl].
  unfold hours_of. simpl.
  destruct (negb _); [|apply grows_refl].
  match goal with
  | |- context [hour_frac ?t] => destruct (hour_frac_range t) as [H0 H24]
  end.
  apply grows_add; assumption.
Qed.

Lemma stops_loop_grows (day_stops : list Stop) (st : DayState) :
  grows (hours_of (trace st)) (hours_of (trace (stops_loop day_stops st))).
Proof.
  revert st. induction day_stops as [|stop rest IH]; intros st;
    [apply grows_refl|].
  simpl. eapply grows_trans; [apply status_change_grows|].
  destruct rest as [|next_stop rest'].
  - apply IH.
  - eapply grows_trans; [apply driving_segment_grows | apply IH].
Qed.

Lemma end_of_day_grows (early is_last_day : bool) (tr : Trace) :
  grows (hours_of tr) (hours_of (end_of_day early is_last_day tr)).
Proof.
  unfold end_of_day, DRIVING_END_HOUR, SLEEPER_START_HOUR.
  destruct (negb early); [|apply grows_refl]. cbv zeta.
  repeat match goal with
  | |- context [if ?c then _ else _] => destruct c
  end;
  repeat first [ apply grows_refl
               | eapply grows_trans; [|apply grows_note; lra] ].
Qed.

End Timeline.

(** ** Sorting *)

Section SortingFacts.

Variable A : Type.
Variable leb : A -> A -> bool.
Hypothesis leb_total : forall a b, leb a b = false -> leb b a = true.

Lemma insert_sorted_perm (x : A) (l : list A) :
  Permutation (insert_sorted leb x l) (x :: l).
Proof.
  induction l as [|y l IH]; simpl; [apply Permutation_refl|].
  destruct (leb x y); [apply Permutation_refl|].
  eapply perm_trans; [apply perm_skip; exact IH | apply perm_swap].
Qed.

Lemma stable_sort_perm (l : list A) : Permutation (stable_sort leb l) l.
Proof.
  induction l as [|x l IH]; simpl; [apply perm_nil|].
  eapply perm_trans; [apply insert_sorted_perm | apply perm_skip; exact IH].
Qed.

Lemma insert_sorted_sorted (x : A) (l : list A) :
  Sorted (fun a b => leb a b = true) l ->
  Sorted (fun a b => leb a b = true) (insert_sorted leb x l).
Proof.
  induction l as [|y l IH]; intros Hs; simpl.
  - constructor; constructor.
  - destruct (leb x y) eqn:E.
    + constructor; [exact Hs | constructor; exact E].
    + inversion Hs as [|? ? Hs' Hhd]; subst.
      constructor; [apply IH; exact Hs'|].
      destruct l as [|z l]; simpl.
      * constructor. apply leb_total. exact E.
      * destruct (leb x z); constructor.
        -- apply leb_total. exact E.
        -- inversion Hhd; assumption.
Qed.

Lemma stable_sort_sorted (l : list A) :
  Sorted (fun a b => leb a b = true) (stable_sort leb l).
Proof.
  induction l as [|x l IH]; simpl; [constructor|].
  apply insert_sorted_sorted. exact IH.
Qed.

End SortingFacts.

(** ** C4: the sorted timeline of a sheet *)

Section Coverage.

Import Py eld_log_generator.

Definition in_day (h : Q) : Prop := 0 <= h /\ h < 24.

Lemma apart_sym (a b : Q) : apart a b -> apart b a.
Proof.
  unfold apart. intros H.
  setoid_replace (b - a) with (- (a - b)) by ring.
  rewrite Qabs_opp. exact H.
Qed.

Lemma spaced_app (hs : list Q) (h : Q) :
  ForallOrdPairs apart hs -> Forall (fun x => apart x h) hs ->
  ForallOrdPairs apart (hs ++ [h]).
Proof.
  induction 1 as [|x l Hx Hl IH]; intros Hf; simpl.
  - constructor; constructor.
  - inversion Hf; subst. constructor.
    + apply Forall_app.
      split; [exact Hx | constructor; [assumption|constructor]].
    + apply IH. assumption.
Qed.

Lemma written_false (hs : list Q) (h : Q) :
  written hs h = false -> Forall (fun x => apart x h) hs.
Proof.
  unfold written, apart. induction hs as [|x hs IH]; intros H; [constructor|].
  simpl in H. apply orb_false_iff in H. destruct H as [H1 H2].
  constructor; [|apply IH; exact H2].
  apply Qlt_bool_false_iff in H1. exact H1.
Qed.

Lemma add_hour_spaced (hs : list Q) (h : Q) :
  ForallOrdPairs apart hs -> ForallOrdPairs apart (add_hour hs h).
Proof.
  intros H. unfold add_hour. destruct (written hs h) eqn:E; [exact H|].
  apply spaced_app; [exact H | apply written_false; exact E].
Qed.

Lemma add_hour_in_day (hs : list Q) (h : Q) :
  in_day h -> Forall in_day hs -> Forall in_day (add_hour hs h).
Proof.
  intros Hh H. unfold add_hour. destruct (written hs h); [exact H|].
  apply Forall_app. split; [exact H | constructor; [exact Hh | constructor]].
Qed.

Lemma add_hour_incl (hs : list Q) (h x : Q) :
  In x hs -> In x (add_hour hs h).
Proof.
  intros H. unfold add_hour. destruct (written hs h); [exact H|].
  apply in_or_app. left. exact H.
Qed.

Lemma grows_spaced (hs hs' : list Q) :
  grows hs hs' -> ForallOrdPairs apart hs -> ForallOrdPairs apart hs'.
Proof.
  induction 1 as [|hs h hs' H0 H24 _ IH]; intros H; [exact H|].
  apply IH. apply add_hour_spaced. exact H.
Qed.

Lemma grows_in_day (hs hs' : list Q) :
  grows hs hs' -> Forall in_day hs -> Forall in_day hs'.
Proof.
  induction 1 as [|hs h hs' H0 H24 _ IH]; intros H; [exact H|].
  apply IH. apply add_hour_in_day; [split; assumption | exact H].
Qed.

Lemma grows_incl (hs hs' : list Q) (x : Q) :
  grows hs hs' -> In x hs -> In x hs'.
Proof.
  induction 1 as [|hs h hs' H0 H24 _ IH]; intros H; [exact H|].
  apply IH. apply add_hour_incl. exact H.
Qed.

(** After the early-morning step some hour is within 0.01 of midnight. *)
Lemma early_morning_midnight (is_first_day : bool) (tr : Trace) :
  exists x, In x (hours_of (early_morning is_first_day tr))
            /\ Qabs (x - 0.0) < 0.01.
Proof.
  assert (W : forall s text,
             exists x, In x (hours_of (note tr 0.0 s text))
                       /\ Qabs (x - 0.0) < 0.01).
  { intros s text.
    destruct (add_duty_status_written (duty_statuses tr) 0.0 s)
      as (e & Hin & Hnear & _).
    exists (hour e). split; [apply in_map; exact Hin | lra]. }
  unfold early_morning.
  destruct (filter _ _); [destruct is_first_day; apply W|].
  destruct (negb _) eqn:E; [destruct is_first_day; apply W|].
  apply negb_false_iff in E. apply existsb_exists in E.
  destruct E as (e & Hin & He). apply Qlt_bool_iff in He.
  exists (hour e). split; [apply in_map; exact Hin|].
  setoid_replace (hour e - 0.0) with (hour e) by ring. exact He.
Qed.

(** The trace of a day at the time it is sorted. *)
Definition final_trace (is_first_day is_last_day : bool) (first_stop : Stop)
    (others : list Stop) (odometer : Z) : Trace :=
  end_of_day
    (is_early_completion is_last_day
       (last (first_stop :: others) first_stop))
    is_last_day
    (trace (day_trace is_first_day first_stop others odometer)).

Lemma final_trace_hours (is_first_day is_last_day : bool) (first_stop : Stop)
    (others : list Stop) (odometer : Z) :
  let hs :=
    hours_of (final_trace is_first_day is_last_day first_stop others
                          odometer) in
  ForallOrdPairs apart hs
  /\ Forall in_day hs
  /\ exists x, In x hs /\ Qabs (x - 0.0) < 0.01.
Proof.
  unfold final_trace, day_trace.
  set (tr0 := {| duty_statuses := []; trace_remarks := [] |}).
  set (tr1 := seed_stops (first_stop :: others) tr0).
  set (tr2 := early_morning is_first_day tr1).
  set (tr3 := rest_end tr2).
  set (tr4 := morning_pattern is_first_day (estimatedArrival first_stop) tr3).
  set (st := stops_loop _ _).
  set (tr5 := end_of_day _ _ _).
  assert (G01 : grows (hours_of tr0) (hours_of tr1))
    by apply seed_stops_grows.
  assert (G12 : grows (hours_of tr1) (hours_of tr2))
    by apply early_morning_grows.
  assert (G23 : grows (hours_of tr2) (hours_of tr3)) by apply rest_end_grows.
  assert (G34 : grows (hours_of tr3) (hours_of tr4))
    by apply morning_pattern_grows.
  assert (G45 : grows (hours_of tr4) (hours_of (trace st))).
  { subst st.
    match goal with
    | |- context [stops_loop ?l ?s] =>
        exact (stops_loop_grows l s)
    end. }
  assert (G56 : grows (hours_of (trace st)) (hours_of tr5))
    by apply end_of_day_grows.
  assert (G25 : grows (hours_of tr2) (hours_of tr5)).
  { eapply grows_trans; [exact G23|]. eapply grows_trans; [exact G34|].
    eapply grows_trans; [exact G45 | exact G56]. }
  assert (G05 : grows (hours_of tr0) (hours_of tr5)).
  { eapply grows_trans; [exact G01|]. eapply grows_trans; [exact G12|].
    exact G25. }
  cbv zeta. split; [|split].
  - apply (grows_spaced _ _ G05). constructor.
  - apply (grows_in_day _ _ G05). constructor.
  - destruct (early_morning_midnight is_first_day tr1) as (x & Hin & Hx).
    exists x. split; [|exact Hx].
    apply (grows_incl _ _ x G25). exact Hin.
Qed.

Lemma hour_leb_total (a b : DutyStatus) :
  hour_leb a b = false -> hour_leb b a = true.
Proof.
  unfold hour_leb. intros H. apply Qle_bool_false_iff in H.
  apply Qle_bool_iff. lra.
Qed.

Lemma spaced_perm (l l' : list Q) :
  Permutation l l' -> ForallOrdPairs apart l -> ForallOrdPairs apart l'.
Proof.
  induction 1 as [|x l l' Hp IH|x y l|l l' l'' _ IH1 _ IH2]; intros H.
  - exact H.
  - inversion H; subst. constructor.
    + eapply Permutation_Forall; [exact Hp | assumption].
    + apply IH. assumption.
  - inversion H as [|? ? Hy Hr]; subst.
    inversion Hr as [|? ? Hx Hl]; subst.
    inversion Hy as [|? ? Hyx Hyl]; subst.
    constructor; [constructor; [apply apart_sym; exact Hyx | exact Hx]|].
    constructor; assumption.
  - apply IH2, IH1, H.
Qed.

Lemma spaced_map (l : list DutyStatus) :
  ForallOrdPairs apart (map hour l) ->
  ForallOrdPairs (fun a b => 0.001 <= Qabs (hour a - hour b)) l.
Proof.
  induction l as [|e l IH]; intros H; [constructor|].
  simpl in H. inversion H as [|? ? He Hl]; subst.
  constructor; [|apply IH; exact Hl].
  rewrite Forall_forall in *. intros b Hb.
  apply (He (hour b)). apply in_map. exact Hb.
Qed.

Lemma sorted_strict (l : list DutyStatus) :
  Sorted (fun a b => hour_leb a b = true) l ->
  ForallOrdPairs (fun a b => 0.001 <= Qabs (hour a - hour b)) l ->
  StronglySorted (fun a b => hour a < hour b) l.
Proof.
  intros Hs Hp.
  assert (Hss : StronglySorted (fun a b => hour a <= hour b) l).
  { apply Sorted_StronglySorted.
    - intros a b c Hab Hbc. lra.
    - eapply Sorted_ind with (P := Sorted (fun a b => hour a <= hour b));
        [constructor | | exact Hs].
      intros a l' _ IH Hhd. constructor; [exact IH|].
      destruct Hhd as [|b l'' Hab]; constructor.
      unfold hour_leb in Hab. apply Qle_bool_iff in Hab. exact Hab. }
  clear Hs. induction Hss as [|a l' Hss IH Hle]; [constructor|].
  inversion Hp as [|? ? Ha Hl]; subst.
  constructor; [apply IH; exact Hl|].
  rewrite Forall_forall in *. intros b Hb.
  specialize (Hle b Hb). specialize (Ha b Hb).
  assert (Hneg : Qabs (hour a - hour b) == - (hour a - hour b))
    by (apply Qabs_neg; lra).
  rewrite Hneg in Ha. lra.
Qed.

Variable world : Type.
Variable randint : Z -> Z -> world -> Z * world.
Variable choice : list string -> world -> string * world.
Variable get_location_name : Coord -> world -> string * world.

Local Abbreviation generate_eld_logs :=
  (eld_log_generator.generate_eld_logs world randint choice get_location_name).

(** C4: in every sheet the timeline [hourData] starts within tolerance of
    hour 0.0 (it has an entry within 0.01 of 0.0, and its first entry lies
    in [[0, 0.01)]), only holds hours of [[0, 24)], holds no two entries
    whose hours differ by less than 0.001, and is sorted by ascending hour;
    a write of [add_duty_status] at an hour that is already there (within
    0.001) sets the status of that entry and appends nothing. *)
Theorem C4_hour_coverage (stops : list Stop) (starting_odometer : option Z)
    (w : world) (k : nat) (sheet : DailyLogSheet) :
  nth_error (fst (generate_eld_logs stops starting_odometer w)) k
  = Some sheet ->
  let timeline := hourData (graphData sheet) in
  (exists e, In e timeline /\ Qabs (hour e - 0.0) < 0.01)
  /\ (exists e rest, timeline = e :: rest /\ 0 <= hour e /\ hour e < 0.01)
  /\ Forall (fun e => 0 <= hour e /\ hour e < 24) timeline
  /\ ForallOrdPairs (fun a b => 0.001 <= Qabs (hour a - hour b)) timeline
  /\ StronglySorted (fun a b => hour a < hour b) timeline
  /\ (forall (l : list DutyStatus) (h : Q) (s : duty),
      existsb (fun e => Qlt_bool (Qabs (hour e - h)) 0.001) l = true ->
      map hour (add_duty_status l h s) = map hour l
      /\ List.length (add_duty_status l h s) = List.length l
      /\ exists e, In e (add_duty_status l h s)
                   /\ Qabs (hour e - h) < 0.001 /\ status e = s).
Proof.
  intros H timeline. apply sheet_origin in H.
  destruct H as (day & first_stop & others & _ & Hfrom).
  destruct Hfrom as (_ & _ & _ & _ & Hd & _).
  fold (final_trace (k =? 0)%nat
          (k =? List.length (days_of stops) - 1)%nat first_stop others
          (odometer_at (days_of stops) 0
             (first_odometer world randint starting_odometer w) k)) in Hd.
  set (tr := final_trace _ _ _ _ _) in Hd.
  destruct (final_trace_hours (k =? 0)%nat
              (k =? List.length (days_of stops) - 1)%nat first_stop others
              (odometer_at (days_of stops) 0
                 (first_odometer world randint starting_odometer w) k))
    as (Hsp & Hday & x & Hx & Hnear).
  fold tr in Hsp, Hday, Hx. unfold hours_of in Hsp, Hday, Hx.
  assert (Hperm : Permutation timeline (duty_statuses tr)).
  { subst timeline. rewrite Hd. apply stable_sort_perm. }
  assert (Hpermh : Permutation (map hour (duty_statuses tr))
                     (map hour timeline)).
  { apply Permutation_map. apply Permutation_sym. exact Hperm. }
  assert (Hsorted : Sorted (fun a b => hour_leb a b = true) timeline).
  { subst timeline. rewrite Hd.
    apply stable_sort_sorted. exact hour_leb_total. }
  assert (Hspaced : ForallOrdPairs
                      (fun a b => 0.001 <= Qabs (hour a - hour b)) timeline).
  { apply spaced_map. eapply spaced_perm; [exact Hpermh | exact Hsp]. }
  assert (Hin_day : Forall (fun e => 0 <= hour e /\ hour e < 24) timeline).
  { assert (F : Forall in_day (map hour timeline))
      by (eapply Permutation_Forall; [exact Hpermh | exact Hday]).
    rewrite Forall_forall in *. intros e He.
    apply (F (hour e)). apply in_map. exact He. }
  assert (Hstrict := sorted_strict timeline Hsorted Hspaced).
  assert (Hmid : exists e, In e timeline /\ Qabs (hour e - 0.0) < 0.01).
  { apply (Permutation_in _ Hpermh) in Hx.
    apply in_map_iff in Hx. destruct Hx as (e & He & Hin).
    exists e. split; [exact Hin | rewrite He; exact Hnear]. }
  split; [exact Hmid|].
  split.
  { destruct Hmid as (e & Hin & He).
    destruct timeline as [|e0 rest] eqn:E; [destruct Hin|].
    exists e0, rest. split; [reflexivity|].
    inversion Hin_day as [|? ? [H0 _] _]; subst.
    split; [exact H0|].
    assert (Hlt : hour e < 0.01).
    { apply Qle_lt_trans with (Qabs (hour e - 0.0)); [|exact He].
      setoid_replace (hour e - 0.0) with (hour e) by ring.
      apply Qle_Qabs. }
    destruct Hin as [Heq|Hin]; [subst e0; exact Hlt|].
    inversion Hstrict as [|? ? _ Hall]; subst.
    rewrite Forall_forall in Hall. specialize (Hall e Hin). lra. }
  split; [exact Hin_day|].
  split; [exact Hspaced|].
  split; [exact Hstrict|].
  intros l h s Hw.
  assert (Hw' : written (map hour l) h = true).
  { unfold written. clear - Hw.
    induction l as [|e l IH]; [exact Hw|].
    cbn [map existsb] in *. apply orb_true_iff in Hw.
    apply orb_true_iff. destruct Hw as [Hw|Hw];
      [left; exact Hw | right; apply IH; exact Hw]. }
  destruct (add_duty_status_overwrites l h s Hw') as [E1 E2].
  split; [exact E1|]. split; [exact E2|].
  apply add_duty_status_written.
Qed.

End Coverage.

(** ** C7: early completion and the end-of-day pattern *)

Section EndOfDay.

Import Py eld_log_generator.














Variable world : Type.
Variable randint : Z -> Z -> world -> Z * world.
Variable choice : list string -> world -> string * world.
Variable get_location_name : Coord -> world -> string * world.

Local Abbreviation generate_eld_logs :=
  (eld_log_generator.generate_eld_logs world randint choice get_location_name).


End EndOfDay.

(** ** The planner: time of day *)

Section DrivingHours.

Import Py stop_generator.

Lemma make_fields (d hh mm ss us : Z) :
  (0 <= hh < 24)%Z -> (0 <= mm < 60)%Z -> (0 <= ss < 60)%Z ->
  (0 <= us < 1000000)%Z ->
  DateTime.date (make d hh mm ss us) = d
  /\ DateTime.hour (make d hh mm ss us) = hh
  /\ DateTime.minute (make d hh mm ss us) = mm.
Proof.
  intros Hh Hm Hs Hus.
  unfold DateTime.date, DateTime.hour, DateTime.minute, make,
    US_PER_DAY, US_PER_HOUR, US_PER_MINUTE, US_PER_SECOND.
  set (x := (d * (24 * (60 * (60 * 1000000)))
             + hh * (60 * (60 * 1000000))
             + mm * (60 * 1000000) + ss * 1000000 + us)%Z).
  assert (E1 : (x / (24 * (60 * (60 * 1000000))) = d)%Z).
  { symmetry.
    apply (Z.div_unique_pos _ _ d
             (hh * (60 * (60 * 1000000)) + mm * (60 * 1000000)
              + ss * 1000000 + us)%Z); subst x; lia. }
  assert (E2 : (x / (60 * (60 * 1000000)) = 24 * d + hh)%Z).
  { symmetry.
    apply (Z.div_unique_pos _ _ (24 * d + hh)%Z
             (mm * (60 * 1000000) + ss * 1000000 + us)%Z); subst x; lia. }
  assert (E3 : (x / (60 * 1000000) = 60 * (24 * d + hh) + mm)%Z).
  { symmetry.
    apply (Z.div_unique_pos _ _ (60 * (24 * d + hh) + mm)%Z
             (ss * 1000000 + us)%Z); subst x; lia. }
  rewrite E1, E2, E3. split; [reflexivity|]. split.
  - symmetry. apply (Z.mod_unique_pos _ _ d); lia.
  - symmetry. apply (Z.mod_unique_pos _ _ (24 * d + hh)%Z); lia.
Qed.

(** After [replace(hour=7, minute=0, second=0)] the fractional hour is 7. *)
Lemma at_driving_start (t : datetime) :
  hour_frac (at_hour t DRIVING_START_HOUR) == 7.
Proof.
  change (at_hour t DRIVING_START_HOUR)
    with (make (DateTime.date t) 7 0 0 (DateTime.microsecond t)).
  assert (Hus : (0 <= DateTime.microsecond t < 1000000)%Z)
    by (unfold DateTime.microsecond, US_PER_SECOND;
        apply Z.mod_pos_bound; lia).
  destruct (make_fields (DateTime.date t) 7 0 0 (DateTime.microsecond t))
    as (_ & Hh & Hm); try lia.
  unfold hour_frac. rewrite Hh, Hm. reflexivity.
Qed.

Lemma next_driving_start_time_range (t : datetime) :
  7 <= hour_frac (next_driving_start_time t)
  /\ hour_frac (next_driving_start_time t) < 17.5.
Proof.
  unfold next_driving_start_time.
  destruct (Qlt_bool (hour_frac t) DRIVING_START_HOUR) eqn:E1.
  - rewrite at_driving_start. split; lra.
  - destruct (Qle_bool DRIVING_END_HOUR (hour_frac t)) eqn:E2.
    + rewrite at_driving_start. split; lra.
    + qbool. unfold DRIVING_START_HOUR, DRIVING_END_HOUR in *. split; lra.
Qed.

Lemma next_driving_start_time_fixed (t : datetime) :
  7 <= hour_frac t -> hour_frac t < 17.5 ->
  next_driving_start_time t = t.
Proof.
  intros H7 H17. unfold next_driving_start_time.
  assert (E1 : Qlt_bool (hour_frac t) DRIVING_START_HOUR = false)
    by (apply Qlt_bool_false_iff; unfold DRIVING_START_HOUR; lra).
  assert (E2 : Qle_bool DRIVING_END_HOUR (hour_frac t) = false)
    by (apply Qle_bool_false_iff; unfold DRIVING_END_HOUR; lra).
  rewrite E1, E2. reflexivity.
Qed.

Local Abbreviation hours_until_end :=
  calculate_hours_until_end_of_driving_day.

Lemma hours_until_end_cases (t : datetime) :
  (17.5 <= hour_frac t /\ hours_until_end t = 0)
  \/ (hour_frac t < 17.5 /\ hours_until_end t = 17.5 - hour_frac t).
Proof.
  unfold calculate_hours_until_end_of_driving_day.
  destruct (Qle_bool DRIVING_END_HOUR (hour_frac t)) eqn:E; qbool;
    unfold DRIVING_END_HOUR in *; [left | right]; split;
    first [assumption | reflexivity].
Qed.

Lemma hours_until_end_bounds (t : datetime) :
  0 <= hours_until_end t /\ hours_until_end t <= 17.5.
Proof.
  destruct (hour_frac_range t) as [H0 _].
  destruct (hours_until_end_cases t) as [[H E]|[H E]]; rewrite E; split; lra.
Qed.


Lemma hours_until_end_after_start (t : datetime) :
  0 < hours_until_end (next_driving_start_time t).
Proof.
  destruct (next_driving_start_time_range t) as [H7 H17].
  destruct (hours_until_end_cases (next_driving_start_time t))
    as [[H E]|[H E]]; rewrite E; lra.
Qed.

(** *** [calculate_time_restricted_arrival] terminates *)






End DrivingHours.

(** ** The planner: one iteration of the drive loop *)

Section DriveStep.

Import Py stop_generator.

Local Abbreviation hours_until_end :=
  calculate_hours_until_end_of_driving_day.
Local Abbreviation hours_since_break := hours_of_driving_since_last_break.

Ltac plan_fields :=
  cbn [append set_current_timestamp set_hours_since_break set_days_on_road
       set_miles_to_next_fuel set_remaining_drive set_segment_position
       take_break stops current_timestamp current_position
       miles_since_last_fuel hours_of_driving_since_last_break days_on_road
       miles_to_next_fuel remaining_drive segment_position] in *.

(** What the end of a driving day leaves behind. *)
Lemma early_morning_rest_fields (c : Coord) (p : Plan) :
  let p' := early_morning_rest c p in
  remaining_drive p' = remaining_drive p
  /\ miles_to_next_fuel p' = miles_to_next_fuel p
  /\ segment_position p' = segment_position p
  /\ current_position p' = current_position p
  /\ miles_since_last_fuel p' = miles_since_last_fuel p
  /\ hours_since_break p' = 0
  /\ 0 < hours_until_end (current_timestamp p').
Proof.
  unfold early_morning_rest.
  destruct (Qlt_bool (hour_frac (current_timestamp p)) SLEEPER_END_HOUR);
    plan_fields; repeat split; apply hours_until_end_after_start.
Qed.

(** The five ways an iteration can go, with the new value of each
    variable. *)
Inductive step_kind (p p' : Plan) : Prop :=
| overnight_step :
    hours_until_end (current_timestamp p) <= 0 ->
    remaining_drive p' = remaining_drive p ->
    miles_to_next_fuel p' = miles_to_next_fuel p ->
    segment_position p' = segment_position p ->
    hours_since_break p' = 0 ->
    0 < hours_until_end (current_timestamp p') ->
    step_kind p p'
| break_step :
    0 < hours_until_end (current_timestamp p) ->
    8 <= hours_since_break p ->
    remaining_drive p' = remaining_drive p ->
    miles_to_next_fuel p' = miles_to_next_fuel p ->
    segment_position p' = segment_position p ->
    hours_since_break p' = 0 ->
    step_kind p p'
| fuel_step :
    hours_since_break p < 8 ->
    0 < miles_to_next_fuel p ->
    miles_to_next_fuel p / AVG_SPEED_MPH <= remaining_drive p ->
    remaining_drive p'
    = remaining_drive p - miles_to_next_fuel p / AVG_SPEED_MPH ->
    miles_to_next_fuel p' = FUEL_STOP_INTERVAL ->
    segment_position p' = segment_position p + miles_to_next_fuel p ->
    (hours_since_break p'
     = hours_since_break p + miles_to_next_fuel p / AVG_SPEED_MPH
     \/ hours_since_break p' = 0) ->
    step_kind p p'
| rest_step :
    hours_since_break p < 8 ->
    8 - hours_since_break p <= remaining_drive p ->
    remaining_drive p' = remaining_drive p - (8 - hours_since_break p) ->
    miles_to_next_fuel p'
    = miles_to_next_fuel p - (8 - hours_since_break p) * AVG_SPEED_MPH ->
    segment_position p'
    = segment_position p + (8 - hours_since_break p) * AVG_SPEED_MPH ->
    hours_since_break p' = 0 ->
    step_kind p p'
| drive_step_kind (d : Q) :
    0 < d ->
    d <= remaining_drive p ->
    (d == remaining_drive p \/ 1 / 60 <= d) ->
    hours_since_break p + d < 8 ->
    remaining_drive p' = remaining_drive p - d ->
    miles_to_next_fuel p' = miles_to_next_fuel p - d * AVG_SPEED_MPH ->
    segment_position p' = segment_position p + d * AVG_SPEED_MPH ->
    (hours_since_break p' = hours_since_break p + d
     \/ hours_since_break p' = 0) ->
    step_kind p p'.

Variable route : route_calculator.CombinedRoute.
Hypothesis distance_nonzero : ~ route_calculator.distance route == 0.




(** Between two fuel stops of a leg the sum of the position and of the
    countdown to the next fuel stop does not change; a fuel stop is made
    where the countdown reaches zero and sets it to 500 again. *)
Lemma step_kind_countdown (p p' : Plan) :
  step_kind p p' ->
  segment_position p' + miles_to_next_fuel p'
  == segment_position p + miles_to_next_fuel p
  \/ (segment_position p' == segment_position p + miles_to_next_fuel p
      /\ miles_to_next_fuel p' == 500).
Proof.
  intros [H1 F1 F2 F3 F4 F5
         |H1 H2 F1 F2 F3 F4
         |H1 H2 H3 F1 F2 F3 F4
         |H1 H2 F1 F2 F3 F4
         |d H1 H2 H3 H4 F1 F2 F3 F4];
    rewrite ?F2, ?F3; unfold FUEL_STOP_INTERVAL;
    first [left; ring | right; split; reflexivity].
Qed.


(** *** A measure that every iteration decreases *)









(** *** The loop terminates *)



End DriveStep.

(** ** The planner: legs and the whole plan *)

Section Legs.

Import Py stop_generator.

Variable world : Type.
Variable get_location_name : Coord -> world -> outcome string * world.
Variable route : route_calculator.CombinedRoute.
Hypothesis distance_nonneg : 0 <= route_calculator.distance route.
Variable number_of_locations : Z.
Hypothesis two_locations : (2 <= number_of_locations)%Z.

Local Abbreviation leg := (stop_generator.leg world get_location_name).
Local Abbreviation legs := (stop_generator.legs world get_location_name).

Ltac plan_fields :=
  cbn [append set_current_timestamp set_hours_since_break set_days_on_road
       set_miles_to_next_fuel set_remaining_drive set_segment_position
       take_break stops current_timestamp current_position
       miles_since_last_fuel hours_of_driving_since_last_break days_on_road
       miles_to_next_fuel remaining_drive segment_position] in *.





End Legs.

Section Plan.

Import Py stop_generator.

Variable world : Type.
Variable get_location_name : Coord -> world -> outcome string * world.

Local Abbreviation generate_stops :=
  (stop_generator.generate_stops world get_location_name).

Lemma start_of_trip_fields (origin : Location) (start_time : datetime)
    (current_cycle_used : Q) :
  current_position (start_of_trip origin start_time current_cycle_used) = 0
  /\ miles_since_last_fuel
       (start_of_trip origin start_time current_cycle_used) = 0.
Proof.
  unfold start_of_trip. cbv zeta.
  repeat match goal with
  | |- context [if ?c then _ else _] => destruct c
  end; split; reflexivity.
Qed.


End Plan.

(** ** A concrete world and concrete trips *)

(** A world without state: [randint] returns its lower bound, [choice] the
    first element, and the geocoder always answers ["Somewhere"]. *)
Definition first_randint (a b : Z) (w : unit) : Z * unit := (a, w).
Definition first_choice (l : list string) (w : unit) : string * unit :=
  (hd "" l, w).
Definition somewhere (c : Coord) (w : unit) : string * unit :=
  ("Somewhere", w).
Definition somewhere_found (c : Coord) (w : unit)
  : Py.outcome string * unit := (Py.Ok "Somewhere", w).

Definition assemble (stops : list Stop) (starting_odometer : option Z)
  : list eld_log_generator.DailyLogSheet :=
  fst (eld_log_generator.generate_eld_logs unit first_randint first_choice
         somewhere stops starting_odometer tt).

Definition three_locations : list stop_generator.Location :=
  [ {| stop_generator.lat := 34.05; stop_generator.lng := -118.25 |};
    {| stop_generator.lat := 34.15; stop_generator.lng := -118.30 |};
    {| stop_generator.lat := 34.20; stop_generator.lng := -118.35 |} ].

Definition route_of_miles (miles : Q) : route_calculator.CombinedRoute :=
  {| route_calculator.distance := miles;
     route_calculator.duration := 0;
     route_calculator.coordinates := [(-118.25, 34.05); (-118.35, 34.20)];
     route_calculator.pickup_coordinates := Some (-118.30, 34.15);
     route_calculator.dropoff_coordinates := Some (-118.35, 34.20) |}.

(** The stops planned for a trip of 40.8 miles that starts at 06:00 of
    day 0: two drives of 20.4 miles (20 minutes 24 seconds) each. *)
Definition short_trip : list Stop :=
  [ {| type := "start"; name := "Starting Location";
       coordinates := (-118.25, 34.05); duration := "0 hours";
       estimatedArrival := DateTime.make 0 6 0 0 0 |};
    {| type := "off-duty"; name := "Early Morning Rest (Off-Duty)";
       coordinates := (-118.25, 34.05); duration := "30 minutes";
       estimatedArrival := DateTime.make 0 6 0 0 0 |};
    {| type := "pretrip"; name := "Pre-trip Inspection";
       coordinates := (-118.25, 34.05); duration := "30 minutes";
       estimatedArrival := DateTime.make 0 6 30 0 0 |};
    {| type := "pickup"; name := "Pickup at Somewhere";
       coordinates := (-118.30, 34.15); duration := "30 minutes";
       estimatedArrival := DateTime.make 0 7 20 24 0 |};
    {| type := "dropoff"; name := "Dropoff at Somewhere";
       coordinates := (-118.35, 34.20); duration := "30 minutes";
       estimatedArrival := DateTime.make 0 8 10 48 0 |} ].

Lemma short_trip_planned :
  exists stops,
    stop_generator.generate_stops unit somewhere_found 10
      (route_of_miles 40.8) three_locations (DateTime.make 0 6 0 0 0) 0 tt
    = (Py.Ok stops, tt)
    /\ map type stops = map type short_trip
    /\ map estimatedArrival stops = map estimatedArrival short_trip
    /\ map name stops = map name short_trip.
Proof.
  eexists. split; [vm_compute; reflexivity|].
  repeat split.
Qed.

(** C1: on the stops planned for the 40.8-mile trip the only sheet has
    [startOdometer] 100000 and [endOdometer] 100040, an advance of
    20 + 20 miles (each segment of 20.4 miles is rounded before it is added
    to the odometer), while [totalMiles] is 41 (the sum 40.8 is rounded):
    [endOdometer - startOdometer] differs from [totalMiles]. *)
Theorem C1_odometer_advance_differs_from_total_miles :
  exists sheet,
    assemble short_trip (Some 100000%Z) = [sheet]
    /\ eld_log_generator.startOdometer sheet = 100000%Z
    /\ eld_log_generator.endOdometer sheet = 100040%Z
    /\ eld_log_generator.totalMiles sheet = 41%Z
    /\ (eld_log_generator.endOdometer sheet
        - eld_log_generator.startOdometer sheet
        <> eld_log_generator.totalMiles sheet)%Z.
Proof.
  eexists. split; [vm_compute; reflexivity|].
  repeat split. discriminate.
Qed.

(** A day of 12 hours of driving between two stops. *)
Definition long_day : list Stop :=
  [ {| type := "pickup"; name := "Pickup at Somewhere";
       coordinates := (-118.30, 34.15); duration := "30 minutes";
       estimatedArrival := DateTime.make 0 5 0 0 0 |};
    {| type := "dropoff"; name := "Dropoff at Somewhere";
       coordinates := (-118.35, 34.20); duration := "30 minutes";
       estimatedArrival := DateTime.make 0 17 30 0 0 |} ].

Definition long_day_sheet : eld_log_generator.DailyLogSheet :=
  nth 0 (assemble long_day (Some 100000%Z))
      (fst (eld_log_generator.create_daily_log_sheet unit first_randint 0 tt)).

Lemma long_day_sheet_nth :
  nth_error (assemble long_day (Some 100000%Z)) 0 = Some long_day_sheet.
Proof. vm_compute. reflexivity. Qed.

Lemma C5_violation_flagging_witness :
  nth_error (assemble long_day (Some 100000%Z)) 0 = Some long_day_sheet
  /\ exists v,
       In v (eld_log_generator.violations long_day_sheet)
       /\ eld_log_generator.violation_type v = "driving-limit"
       /\ eld_log_generator.description v
          = "Exceeded 11-hour driving limit (12.0 hours)".
Proof.
  split; [exact long_day_sheet_nth|].
  destruct (C5_violation_flagging unit first_randint first_choice somewhere
              long_day (Some 100000%Z) tt 0 long_day_sheet
              long_day_sheet_nth)
    as (day & first_stop & others & Hday & Hd & _ & Hdesc & _).
  vm_compute in Hday. inversion Hday; subst day first_stop others. clear Hday.
  destruct Hd as [_ Hd].
  destruct Hd as (v & Hin & Hty); [vm_compute; reflexivity|].
  exists v. split; [exact Hin|]. split; [exact Hty|].
  rewrite (Hdesc v Hin Hty). vm_compute. reflexivity.
Defined.

Lemma C9_driving_hours_equal_on_duty_hours_witness :
  nth_error (assemble long_day (Some 100000%Z)) 0 = Some long_day_sheet
  /\ eld_log_generator.totalHours long_day_sheet == 12.
Proof.
  split; [exact long_day_sheet_nth|].
  destruct (C9_driving_hours_equal_on_duty_hours unit first_randint
              first_choice somewhere long_day (Some 100000%Z) tt 0
              long_day_sheet long_day_sheet_nth)
    as (day & first_stop & others & Hday & _ & _ & Hh & _).
  vm_compute in Hday. inversion Hday; subst day first_stop others. clear Hday.
  rewrite Hh. vm_compute. reflexivity.
Defined.

(** A trip of 420 miles that starts at 10:00 of day 0: the dropoff is
    reached at 17:30 sharp. *)
Definition late_dropoff : list Stop :=
  [ {| type := "start"; name := "Starting Location";
       coordinates := (-118.25, 34.05); duration := "0 hours";
       estimatedArrival := DateTime.make 0 10 0 0 0 |};
    {| type := "pickup"; name := "Pickup at Somewhere";
       coordinates := (-118.30, 34.15); duration := "30 minutes";
       estimatedArrival := DateTime.make 0 13 30 0 0 |};
    {| type := "dropoff"; name := "Dropoff at Somewhere";
       coordinates := (-118.35, 34.20); duration := "30 minutes";
       estimatedArrival := DateTime.make 0 17 30 0 0 |} ].

Lemma late_dropoff_planned :
  stop_generator.generate_stops unit somewhere_found 10
    (route_of_miles 420) three_locations (DateTime.make 0 10 0 0 0) 0 tt
  = (Py.Ok late_dropoff, tt).
Proof. vm_compute. reflexivity. Qed.


Lemma C4_hour_coverage_witness :
  nth_error (assemble long_day (Some 100000%Z)) 0 = Some long_day_sheet
  /\ StronglySorted
       (fun a b => eld_log_generator.hour a < eld_log_generator.hour b)
       (eld_log_generator.hourData
          (eld_log_generator.graphData long_day_sheet)).
Proof.
  split; [exact long_day_sheet_nth|].
  apply (C4_hour_coverage unit first_randint first_choice somewhere
           long_day (Some 100000%Z) tt 0 long_day_sheet long_day_sheet_nth).
Defined.



(** A trip of 1200 miles: two legs of 600 miles. *)
Definition is_fuel (s : Stop) : bool := String.eqb (type s) "fuel".

Definition origin : stop_generator.Location :=
  {| stop_generator.lat := 34.05; stop_generator.lng := -118.25 |}.
Definition pickup : stop_generator.Location :=
  {| stop_generator.lat := 34.15; stop_generator.lng := -118.30 |}.
Definition dropoff : stop_generator.Location :=
  {| stop_generator.lat := 34.20; stop_generator.lng := -118.35 |}.


(** * Further properties of the code *)

(** ** The log assembler: the days of a stop list *)

Section Days.

Import Py eld_log_generator.

Definition stop_date (stop : Stop) : Z := DateTime.date (estimatedArrival stop).

Definition on_date (day : Z) (stop : Stop) : bool := (stop_date stop =? day)%Z.

(** What holds of the groups built by lines 54-64: one group per date, each
    holding the stops of that date in the order of the list. *)
Definition grouped (stops : list Stop)
    (groups : list (Z * (Stop * list Stop))) : Prop :=
  NoDup (map fst groups)
  /\ (forall day first_stop others,
        In (day, (first_stop, others)) groups ->
        first_stop :: others = filter (on_date day) stops)
  /\ (forall stop, In stop stops -> In (stop_date stop) (map fst groups)).

Lemma group_add_keys (day : Z) (stop : Stop)
    (groups : list (Z * (Stop * list Stop))) :
  map fst (group_add day stop groups)
  = if existsb (Z.eqb day) (map fst groups) then map fst groups
    else (map fst groups ++ [day])%list.
Proof.
  induction groups as [|[d [f o]] rest IH]; [reflexivity|].
  cbn [group_add map fst existsb].
  destruct (day =? d)%Z eqn:E; cbn [orb map fst]; [reflexivity|].
  rewrite IH. destruct (existsb _ _); reflexivity.
Qed.

Lemma group_add_In (day : Z) (stop : Stop)
    (groups : list (Z * (Stop * list Stop))) (d : Z) (f : Stop)
    (o : list Stop) :
  NoDup (map fst groups) ->
  In (d, (f, o)) (group_add day stop groups) ->
  (d <> day /\ In (d, (f, o)) groups)
  \/ (d = day /\ exists o', o = (o' ++ [stop])%list /\ In (d, (f, o')) groups)
  \/ (d = day /\ f = stop /\ o = [] /\ ~ In day (map fst groups)).
Proof.
  induction groups as [|[d0 [f0 o0]] rest IH]; intros Hnd Hin.
  - cbn in Hin. destruct Hin as [Hin|[]]. inversion Hin; subst.
    right. right. repeat split; auto.
  - cbn [group_add] in Hin. cbn [map fst] in Hnd.
    inversion Hnd as [|? ? Hnotin Hnd']; subst.
    destruct (day =? d0)%Z eqn:E.
    + apply Z.eqb_eq in E. subst d0.
      destruct Hin as [Hin|Hin].
      * inversion Hin; subst. right. left. split; [reflexivity|].
        exists o0. split; [reflexivity | left; reflexivity].
      * left. split; [|right; exact Hin].
        intros ->. apply Hnotin. apply (in_map fst) in Hin. exact Hin.
    + apply Z.eqb_neq in E.
      destruct Hin as [Hin|Hin].
      * inversion Hin; subst. left. split; [congruence | left; reflexivity].
      * destruct (IH Hnd' Hin) as [[H1 H2]|[(H1 & o' & H2 & H3)|(H1 & H2 & H3 & H4)]].
        -- left. split; [exact H1 | right; exact H2].
        -- right. left. split; [exact H1|]. exists o'.
           split; [exact H2 | right; exact H3].
        -- right. right. repeat split; try assumption.
           cbn [map fst]. intros [Hc|Hc]; [congruence | contradiction].
Qed.

Lemma existsb_eqb_In (day : Z) (keys : list Z) :
  existsb (Z.eqb day) keys = true <-> In day keys.
Proof.
  rewrite existsb_exists. split.
  - intros (x & Hin & E). apply Z.eqb_eq in E. subst. exact Hin.
  - intros H. exists day. split; [exact H | apply Z.eqb_refl].
Qed.

Lemma grouped_snoc (stops : list Stop) (stop : Stop)
    (groups : list (Z * (Stop * list Stop))) :
  grouped stops groups ->
  grouped (stops ++ [stop]) (group_add (stop_date stop) stop groups).
Proof.
  intros (Hnd & Hgroups & Hall).
  assert (Hkeys := group_add_keys (stop_date stop) stop groups).
  split; [|split].
  - rewrite Hkeys. destruct (existsb _ _) eqn:E; [exact Hnd|].
    assert (Hn : ~ In (stop_date stop) (map fst groups)).
    { intros Hc. apply existsb_eqb_In in Hc. congruence. }
    clear - Hnd Hn. induction (map fst groups) as [|k ks IH]; cbn.
    + constructor; [intros []|constructor].
    + inversion Hnd; subst. constructor.
      * rewrite in_app_iff. intros [Hc|[Hc|[]]]; [contradiction|].
        apply Hn. left. symmetry. exact Hc.
      * apply IH; [assumption|]. intros Hc. apply Hn. right. exact Hc.
  - intros day f o Hin. rewrite filter_app. cbn [filter].
    destruct (group_add_In _ _ _ _ _ _ Hnd Hin)
      as [[H1 H2]|[(H1 & o' & H2 & H3)|(H1 & H2 & H3 & H4)]].
    + assert (E : on_date day stop = false).
      { unfold on_date. apply Z.eqb_neq. congruence. }
      rewrite E, app_nil_r. apply Hgroups. exact H2.
    + subst day o.
      assert (E : on_date (stop_date stop) stop = true)
        by (unfold on_date; apply Z.eqb_refl).
      rewrite E. rewrite <- (Hgroups _ _ _ H3). reflexivity.
    + subst day f o.
      assert (E : on_date (stop_date stop) stop = true)
        by (unfold on_date; apply Z.eqb_refl).
      rewrite E.
      assert (Hnone : filter (on_date (stop_date stop)) stops = []).
      { clear - Hall H4. induction stops as [|s l IH]; [reflexivity|].
        cbn [filter]. destruct (on_date (stop_date stop) s) eqn:E.
        - exfalso. apply H4. unfold on_date in E. apply Z.eqb_eq in E.
          rewrite <- E. apply Hall. left. reflexivity.
        - apply IH. intros x Hx. apply Hall. right. exact Hx. }
      rewrite Hnone. reflexivity.
  - intros s Hin. rewrite Hkeys. apply in_app_or in Hin.
    destruct (existsb _ _) eqn:E.
    + destruct Hin as [Hin|[Hin|[]]]; [apply Hall; exact Hin|].
      subst s. apply existsb_eqb_In. exact E.
    + apply in_or_app. destruct Hin as [Hin|[Hin|[]]].
      * left. apply Hall. exact Hin.
      * subst s. right. left. reflexivity.
Qed.

Lemma stops_by_day_grouped (stops : list Stop) :
  grouped stops (stops_by_day stops).
Proof.
  unfold stops_by_day.
  induction stops as [|stop stops IH] using rev_ind.
  - repeat split; cbn; [constructor | intros ? ? ? [] | intros ? []].
  - rewrite fold_left_app. cbn [fold_left].
    apply (grouped_snoc stops stop). exact IH.
Qed.

End Days.

(** ** The log assembler: one sheet per date *)

Section SheetDates.

Import Py eld_log_generator.

Variable world : Type.
Variable randint : Z -> Z -> world -> Z * world.
Variable choice : list string -> world -> string * world.
Variable get_location_name : Coord -> world -> string * world.

Local Abbreviation process_day :=
  (eld_log_generator.process_day world randint get_location_name).
Local Abbreviation days_loop :=
  (eld_log_generator.days_loop world randint get_location_name).
Local Abbreviation present := (eld_log_generator.present world randint choice).
Local Abbreviation present_all :=
  (eld_log_generator.present_all world randint choice).
Local Abbreviation generate_eld_logs :=
  (eld_log_generator.generate_eld_logs world randint choice get_location_name).

Lemma process_day_date (day_index number_of_days : nat) (day : Z)
    (first_stop : Stop) (others : list Stop) (odometer : Z) (w : world) :
  date (fst (fst (process_day day_index number_of_days day first_stop others
                              odometer w))) = day.
Proof.
  unfold eld_log_generator.process_day, create_daily_log_sheet.
  destruct (randint 10000000 99999999 w) as [driver w1].
  destruct (randint 100 999 w1) as [truck w2].
  destruct (randint 100 999 w2) as [trailer w3].
  destruct (randint 100000 999999 w3) as [bol w4].
  destruct (get_location_name (coordinates first_stop) w4) as [l1 w5].
  destruct (get_location_name _ w5) as [l2 w6].
  reflexivity.
Qed.

Lemma days_loop_dates (groups : list (Z * (Stop * list Stop)))
    (day_index number_of_days : nat) (odometer : Z) (w : world) :
  map date (fst (days_loop groups day_index number_of_days odometer w))
  = map fst groups.
Proof.
  revert day_index odometer w.
  induction groups as [|[day [first_stop others]] rest IH];
    intros day_index odometer w; [reflexivity|].
  cbn [eld_log_generator.days_loop].
  pose proof (process_day_date day_index number_of_days day first_stop others
                odometer w) as Hdate.
  destruct (process_day day_index number_of_days day first_stop others
                        odometer w) as [[daily_log odometer'] w1].
  specialize (IH (S day_index) odometer' w1).
  destruct (days_loop rest (S day_index) number_of_days odometer' w1)
    as [daily_logs w2].
  cbn [fst map] in *. rewrite Hdate, IH. reflexivity.
Qed.

Lemma present_all_dates (daily_logs : list DailyLogSheet) (w : world) :
  map date (fst (present_all daily_logs w)) = map date daily_logs.
Proof.
  revert w. induction daily_logs as [|log rest IH]; intros w; [reflexivity|].
  cbn [eld_log_generator.present_all].
  pose proof (present_same world randint choice log w) as (Hdate & _).
  destruct (present log w) as [log' w1].
  specialize (IH w1). destruct (present_all rest w1) as [rest' w2].
  cbn [fst map] in *. rewrite Hdate, IH. reflexivity.
Qed.

Lemma sheet_dates (stops : list Stop) (starting_odometer : option Z)
    (w : world) :
  map date (fst (generate_eld_logs stops starting_odometer w))
  = map fst (days_of stops).
Proof.
  unfold eld_log_generator.generate_eld_logs.
  destruct stops as [|s stops']; [reflexivity|].
  set (stops := s :: stops'). fold (days_of stops).
  destruct (match starting_odometer with
            | None => randint 100000 500000 w
            | Some odometer => (odometer, w)
            end) as [o w'].
  pose proof (days_loop_dates (days_of stops) 0 (List.length (days_of stops))
                o w') as H.
  destruct (days_loop (days_of stops) 0 (List.length (days_of stops)) o w')
    as [daily_logs w''].
  rewrite present_all_dates. exact H.
Qed.

Lemma day_leb_total (a b : Z * (Stop * list Stop)) :
  day_leb a b = false -> day_leb b a = true.
Proof. unfold day_leb. intros H. apply Z.leb_gt in H. apply Z.leb_le. lia. Qed.

(** The days are in strictly ascending order of date. *)
Lemma days_of_ascending (stops : list Stop) :
  StronglySorted Z.lt (map fst (days_of stops)).
Proof.
  unfold days_of.
  assert (Hnd : NoDup (map fst (stable_sort day_leb (stops_by_day stops)))).
  { eapply Permutation_NoDup.
    - apply Permutation_map. apply Permutation_sym. apply stable_sort_perm.
    - apply stops_by_day_grouped. }
  assert (Hs : StronglySorted (fun a b => day_leb a b = true)
                 (stable_sort day_leb (stops_by_day stops))).
  { apply Sorted_StronglySorted.
    - intros a b c. unfold day_leb. rewrite !Z.leb_le. lia.
    - apply stable_sort_sorted. exact day_leb_total. }
  induction Hs as [|a l Hs IH Ha]; cbn [map]; [constructor|].
  inversion Hnd as [|? ? Hnotin Hnd']; subst.
  constructor; [apply IH; exact Hnd'|].
  rewrite Forall_forall in *. intros d Hd.
  apply in_map_iff in Hd. destruct Hd as (b & <- & Hb).
  specialize (Ha b Hb). unfold day_leb in Ha. apply Z.leb_le in Ha.
  assert (fst a <> fst b).
  { intros E. apply Hnotin. rewrite E. apply in_map. exact Hb. }
  lia.
Qed.

(** The dates of the days are the dates of the stops. *)
Lemma days_of_dates (stops : list Stop) (day : Z) :
  In day (map fst (days_of stops))
  <-> exists stop, In stop stops /\ stop_date stop = day.
Proof.
  destruct (stops_by_day_grouped stops) as (_ & Hgroups & Hall).
  assert (Hperm : Permutation (days_of stops) (stops_by_day stops))
    by apply stable_sort_perm.
  split.
  - intros Hin. apply in_map_iff in Hin.
    destruct Hin as ([d [f o]] & Hd & Hin). cbn in Hd. subst d.
    apply (Permutation_in _ Hperm) in Hin.
    specialize (Hgroups _ _ _ Hin).
    assert (Hf : In f (filter (on_date day) stops))
      by (rewrite <- Hgroups; left; reflexivity).
    apply filter_In in Hf. destruct Hf as [Hf E].
    exists f. split; [exact Hf|]. apply Z.eqb_eq. exact E.
  - intros (stop & Hin & <-).
    apply (Permutation_in _ (Permutation_map fst (Permutation_sym Hperm))).
    apply Hall. exact Hin.
Qed.

(** The stops of a day are the stops of its date, in the order of the list. *)
Lemma days_of_stops (stops : list Stop) (k : nat) (day : Z)
    (first_stop : Stop) (others : list Stop) :
  nth_error (days_of stops) k = Some (day, (first_stop, others)) ->
  first_stop :: others = filter (on_date day) stops.
Proof.
  intros H. apply nth_error_In in H.
  apply (Permutation_in _ (stable_sort_perm _ day_leb (stops_by_day stops)))
    in H.
  destruct (stops_by_day_grouped stops) as (_ & Hgroups & _).
  apply Hgroups. exact H.
Qed.

(** X1. [generate_eld_logs] returns one sheet per calendar date on which a
    stop falls, in strictly ascending order of date: the dates of the sheets
    are strictly increasing and are exactly the dates of the stops. *)
Theorem sheets_one_per_date (stops : list Stop) (starting_odometer : option Z)
    (w : world) :
  let sheets := fst (generate_eld_logs stops starting_odometer w) in
  StronglySorted Z.lt (map date sheets)
  /\ forall day,
       In day (map date sheets)
       <-> exists stop, In stop stops /\ stop_date stop = day.
Proof.
  cbv zeta. rewrite sheet_dates. split.
  - apply days_of_ascending.
  - apply days_of_dates.
Qed.

End SheetDates.

(** ** The log assembler: how a sheet is built *)

Section SheetBuilt.

Import Py eld_log_generator.

Variable world : Type.
Variable randint : Z -> Z -> world -> Z * world.
Variable choice : list string -> world -> string * world.
Variable get_location_name : Coord -> world -> string * world.

Local Abbreviation process_day :=
  (eld_log_generator.process_day world randint get_location_name).
Local Abbreviation days_loop :=
  (eld_log_generator.days_loop world randint get_location_name).
Local Abbreviation present := (eld_log_generator.present world randint choice).
Local Abbreviation present_all :=
  (eld_log_generator.present_all world randint choice).
Local Abbreviation generate_eld_logs :=
  (eld_log_generator.generate_eld_logs world randint choice get_location_name).


Lemma days_loop_built (groups : list (Z * (Stop * list Stop)))
    (day_index number_of_days : nat) (odometer : Z) (w : world) (k : nat)
    (log : DailyLogSheet) :
  nth_error (fst (days_loop groups day_index number_of_days odometer w)) k
  = Some log ->
  exists day first_stop others w1,
    nth_error groups k = Some (day, (first_stop, others))
    /\ log = fst (fst (process_day (day_index + k) number_of_days day
                         first_stop others
                         (odometer_at groups day_index odometer k) w1)).
Proof.
  revert day_index odometer w k.
  induction groups as [|[day [first_stop others]] rest IH];
    intros day_index odometer w k H.
  - simpl in H. destruct k; discriminate.
  - simpl in H.
    pose proof (process_day_sheet world randint get_location_name day_index
                  number_of_days day first_stop others odometer w)
      as [_ Hodo].
    destruct (process_day day_index number_of_days day first_stop others
                          odometer w) as [[daily_log odometer'] w1] eqn:E.
    simpl in Hodo.
    specialize (IH (S day_index) odometer' w1).
    destruct (days_loop rest (S day_index) number_of_days odometer' w1)
      as [daily_logs w2].
    destruct k as [|k]; simpl in H.
    + inversion H; subst log.
      exists day, first_stop, others, w. split; [reflexivity|].
      rewrite Nat.add_0_r. simpl odometer_at. rewrite E. reflexivity.
    + apply IH in H. destruct H as (d & f & o & w' & Hnth & Hlog).
      exists d, f, o, w'. split; [exact Hnth|].
      simpl odometer_at. rewrite <- Hodo.
      replace (day_index + S k)%nat with (S day_index + k)%nat by lia.
      exact Hlog.
Qed.

Lemma present_all_built (daily_logs : list DailyLogSheet) (w : world)
    (k : nat) (sheet : DailyLogSheet) :
  nth_error (fst (present_all daily_logs w)) k = Some sheet ->
  exists log w1, nth_error daily_logs k = Some log
                 /\ sheet = fst (present log w1).
Proof.
  revert w k. induction daily_logs as [|log rest IH]; intros w k H.
  - simpl in H. destruct k; discriminate.
  - simpl in H.
    destruct (present log w) as [log' w1] eqn:E.
    specialize (IH w1).
    destruct (present_all rest w1) as [rest' w2].
    destruct k as [|k]; simpl in *.
    + inversion H; subst. exists log, w. rewrite E. split; reflexivity.
    + apply IH in H. exact H.
Qed.

(** The [k]-th sheet is the sheet of the [k]-th day after the presentation
    loop. *)
Lemma sheet_built (stops : list Stop) (starting_odometer : option Z)
    (w : world) (k : nat) (sheet : DailyLogSheet) :
  nth_error (fst (generate_eld_logs stops starting_odometer w)) k
  = Some sheet ->
  exists day first_stop others w1 w2,
    nth_error (days_of stops) k = Some (day, (first_stop, others))
    /\ sheet
       = fst (present
                (fst (fst (process_day k (List.length (days_of stops)) day
                             first_stop others
                             (odometer_at (days_of stops) 0
                                (first_odometer world randint starting_odometer w) k)
                             w1)))
                w2).
Proof.
  unfold eld_log_generator.generate_eld_logs, first_odometer.
  destruct stops as [|s stops'].
  - simpl. destruct k; discriminate.
  - set (stops := s :: stops').
    fold (days_of stops).
    intros H.
    assert (E : exists o w',
      (match starting_odometer with
       | None => randint 100000 500000 w
       | Some odometer => (odometer, w)
       end) = (o, w')
      /\ o = match starting_odometer with
             | None => fst (randint 100000 500000 w)
             | Some odometer => odometer
             end).
    { destruct starting_odometer as [o|].
      - exists o, w. split; reflexivity.
      - destruct (randint 100000 500000 w) as [o w'].
        exists o, w'. split; reflexivity. }
    destruct E as (o & w' & E & Eo). rewrite E in H. rewrite <- Eo.
    destruct (days_loop (days_of stops) 0 (List.length (days_of stops)) o w')
      as [daily_logs w''] eqn:Eloop.
    apply present_all_built in H. destruct H as (log & w2 & Hlog & Hsheet).
    assert (Hnth : nth_error
                     (fst (days_loop (days_of stops) 0
                             (List.length (days_of stops)) o w')) k
                   = Some log) by (rewrite Eloop; exact Hlog).
    apply days_loop_built in Hnth.
    destruct Hnth as (d & f & ot & w1 & Hg & Hfrom).
    exists d, f, ot, w1, w2. split; [exact Hg|].
    rewrite Hsheet, Hfrom. reflexivity.
Qed.

(** The sheet of a day as [process_day] leaves it. *)
Lemma process_day_record (day_index number_of_days : nat) (day : Z)
    (first_stop : Stop) (others : list Stop) (odometer : Z) (w : world) :
  let last_stop := last (first_stop :: others) first_stop in
  let st := day_trace (day_index =? 0)%nat first_stop others odometer in
  let tr :=
    end_of_day (is_early_completion (day_index =? number_of_days - 1)%nat
                  last_stop)
      (day_index =? number_of_days - 1)%nat (trace st) in
  exists log,
    fst (fst (process_day day_index number_of_days day first_stop others
                odometer w)) = log
    /\ date log = day
    /\ startTime log = Some (estimatedArrival first_stop)
    /\ endTime log = Some (estimatedArrival last_stop)
    /\ endOdometer log = current_odometer st
    /\ graphData log
       = {| hourData := stable_sort hour_leb (duty_statuses tr);
            remarks := stable_sort time_leb (trace_remarks tr) |}
    /\ logs log
       = generate_log_entries (stable_sort hour_leb (duty_statuses tr))
           (stable_sort time_leb (trace_remarks tr))
           (estimatedArrival first_stop) (estimatedArrival last_stop)
           (current_odometer st).
Proof.
  unfold eld_log_generator.process_day, create_daily_log_sheet.
  destruct (randint 10000000 99999999 w) as [driver w3].
  destruct (randint 100 999 w3) as [truck w4].
  destruct (randint 100 999 w4) as [trailer w5].
  destruct (randint 100000 999999 w5) as [bol w6].
  destruct (get_location_name (coordinates first_stop) w6) as [l1 w7].
  destruct (get_location_name _ w7) as [l2 w8].
  cbv zeta. eexists. split; [reflexivity|]. repeat split.
Qed.

(** What the presentation loop does to a sheet. *)
Lemma present_record (log : DailyLogSheet) (w : world) :
  exists sheet,
    fst (present log w) = sheet
    /\ date sheet = date log
    /\ startTime sheet = startTime log
    /\ endTime sheet = endTime log
    /\ endOdometer sheet = endOdometer log
    /\ graphData sheet = graphData log
    /\ logs sheet = logs log
    /\ totalMilesDrivingToday sheet
       = Some (str_of_Z (totalMiles sheet) ++ " miles")
    /\ totalMileageToday sheet = totalMilesDrivingToday sheet.
Proof.
  unfold eld_log_generator.present.
  destruct (randint 1000 9999 w) as [plate w1].
  destruct (choice _ w1) as [state w2].
  destruct (choice _ w2) as [shipper w3].
  destruct (choice _ w3) as [commodity w4].
  eexists. split; [reflexivity|]. repeat split.
Qed.

(** The fields of a sheet read off [process_day] and [present]. *)
Lemma built_fields (day_index number_of_days : nat) (day : Z)
    (first_stop : Stop) (others : list Stop) (odometer : Z) (w1 w2 : world) :
  let sheet :=
    fst (present (fst (fst (process_day day_index number_of_days day
                              first_stop others odometer w1))) w2) in
  date sheet = day
  /\ startTime sheet = Some (estimatedArrival first_stop)
  /\ endTime sheet
     = Some (estimatedArrival (last (first_stop :: others) first_stop))
  /\ logs sheet
     = generate_log_entries (hourData (graphData sheet))
         (remarks (graphData sheet)) (estimatedArrival first_stop)
         (estimatedArrival (last (first_stop :: others) first_stop))
         (endOdometer sheet)
  /\ totalMilesDrivingToday sheet
     = Some (str_of_Z (totalMiles sheet) ++ " miles")
  /\ totalMileageToday sheet = totalMilesDrivingToday sheet.
Proof.
  intros sheet.
  destruct (process_day_record day_index number_of_days day first_stop others
              odometer w1)
    as (log & Elog & L1 & L2 & L3 & L4 & L5 & L6).
  destruct (present_record log w2)
    as (sheet' & Esheet & P1 & P2 & P3 & P4 & P5 & P6 & P7 & P8).
  assert (E : sheet = sheet') by (subst sheet; rewrite Elog; exact Esheet).
  clearbody sheet. subst sheet.
  rewrite P1, P2, P3, P4, P5, P6, L1, L2, L3, L4, L5, L6.
  cbn [hourData remarks]. repeat split; assumption.
Qed.

End SheetBuilt.

(** ** Rounding *)

Section Rounding.

Import Py.

Lemma round_error (x : Q) :
  x - (1 # 2) <= inject_Z (round x) /\ inject_Z (round x) <= x + (1 # 2).
Proof.
  unfold round.
  pose proof (Qfloor_le x) as Hlo.
  pose proof (Qlt_floor x) as Hhi.
  rewrite inject_Z_plus in Hhi. change (inject_Z 1) with 1 in Hhi.
  destruct (Qcompare (x - inject_Z (Qfloor x)) (1 # 2)) eqn:E.
  - apply Qeq_alt in E.
    destruct (Z.even (Qfloor x)); [|rewrite inject_Z_plus;
                                     change (inject_Z 1) with 1]; lra.
  - apply Qlt_alt in E. lra.
  - apply Qgt_alt in E. rewrite inject_Z_plus. change (inject_Z 1) with 1.
    lra.
Qed.

Lemma round_le (x : Q) (n : Z) : x <= inject_Z n -> (round x <= n)%Z.
Proof.
  intros H. destruct (round_error x) as [_ Hhi].
  assert (Hlt : inject_Z (round x) < inject_Z (n + 1)).
  { rewrite inject_Z_plus. change (inject_Z 1) with 1. lra. }
  rewrite <- Zlt_Qlt in Hlt. lia.
Qed.

Lemma round_ge (x : Q) (n : Z) : inject_Z n <= x -> (n <= round x)%Z.
Proof.
  intros H. destruct (round_error x) as [Hlo _].
  assert (Hlt : inject_Z (n - 1) < inject_Z (round x)).
  { unfold Z.sub. rewrite inject_Z_plus, inject_Z_opp.
    change (inject_Z 1) with 1. lra. }
  rewrite <- Zlt_Qlt in Hlt. lia.
Qed.

Lemma round_inject (n : Z) : round (inject_Z n) = n.
Proof.
  apply Z.le_antisymm; [apply round_le | apply round_ge]; lra.
Qed.

End Rounding.

(** ** Sorting a sorted list *)

Section SortedFixed.

Variable A : Type.
Variable leb : A -> A -> bool.

Lemma stable_sort_fixed (l : list A) :
  Sorted (fun a b => leb a b = true) l -> stable_sort leb l = l.
Proof.
  induction 1 as [|x l Hs IH Hhd]; [reflexivity|].
  cbn [stable_sort fold_right] in *. unfold stable_sort in IH. rewrite IH.
  destruct Hhd as [|y l' Hxy]; [reflexivity|].
  cbn [insert_sorted]. rewrite Hxy. reflexivity.
Qed.

End SortedFixed.

(** ** The log assembler: odometer, miles and hours of a sheet *)

Section SheetTotals.

Import Py eld_log_generator.

Variable world : Type.
Variable randint : Z -> Z -> world -> Z * world.
Variable choice : list string -> world -> string * world.
Variable get_location_name : Coord -> world -> string * world.

Local Abbreviation generate_eld_logs :=
  (eld_log_generator.generate_eld_logs world randint choice get_location_name).

(** X2. The odometer is threaded through the sheets: the first sheet starts
    at the starting odometer (the one supplied, or the one drawn), and every
    later sheet starts at the end odometer of the sheet before it. *)
Theorem odometer_chain (stops : list Stop) (starting_odometer : option Z)
    (w : world) (k : nat) (sheet : DailyLogSheet) :
  nth_error (fst (generate_eld_logs stops starting_odometer w)) k
  = Some sheet ->
  match k with
  | O => startOdometer sheet = first_odometer world randint starting_odometer w
  | S j =>
      exists previous,
        nth_error (fst (generate_eld_logs stops starting_odometer w)) j
        = Some previous
        /\ startOdometer sheet = endOdometer previous
  end.
Proof.
  intros H. destruct k as [|j].
  - apply sheet_origin in H. destruct H as (d & f & o & _ & Hs & _).
    rewrite Hs. destruct (days_of stops) as [|[? [? ?]] ?]; reflexivity.
  - destruct (nth_error (fst (generate_eld_logs stops starting_odometer w)) j)
      as [previous|] eqn:E.
    + exists previous. split; [reflexivity|].
      exact (odometer_carried world randint choice get_location_name stops
               starting_odometer w j previous sheet E H).
    + exfalso. apply nth_error_None in E.
      assert (Hlt : (S j < List.length
                             (fst (generate_eld_logs stops starting_odometer
                                     w)))%nat).
      { apply nth_error_Some. rewrite H. discriminate. }
      lia.
Qed.

(** Every counted driving segment is longer than 15 miles. *)
Lemma segment_miles_long (day_stops : list Stop) :
  Forall (fun m => 15 < m) (segment_miles day_stops).
Proof.
  induction day_stops as [|stop rest IH]; [constructor|].
  cbn [segment_miles]. destruct rest as [|next_stop rest']; [constructor|].
  apply Forall_app. split; [|exact IH].
  destruct (andb _ _) eqn:E; [|constructor].
  apply andb_true_iff in E. destruct E as [_ E]. qbool.
  constructor; [lra | constructor].
Qed.

Lemma sum_rounded_bounds (miles : list Q) :
  Forall (fun m => 15 < m) miles ->
  (15 * Z.of_nat (List.length miles) <= sum_rounded miles)%Z
  /\ 0 <= sum_miles miles
  /\ inject_Z (sum_rounded miles) - sum_miles miles
     <= inject_Z (Z.of_nat (List.length miles)) / 2
  /\ sum_miles miles - inject_Z (sum_rounded miles)
     <= inject_Z (Z.of_nat (List.length miles)) / 2.
Proof.
  induction 1 as [|m l Hm Hl IH].
  - split; [cbn; lia|]. repeat split; unfold Qle; cbn; lia.
  - destruct IH as (I1 & I2 & I3 & I4).
    unfold sum_rounded, sum_miles in *. cbn [fold_right List.length].
    rewrite Nat2Z.inj_succ. unfold Z.succ.
    rewrite !inject_Z_plus. change (inject_Z 1) with 1.
    destruct (round_error m) as [Rlo Rhi].
    assert (R15 : (15 <= round m)%Z) by (apply round_ge; change (inject_Z 15) with 15; lra).
    split; [lia|].
    set (n := inject_Z (Z.of_nat (List.length l))) in *.
    set (r := inject_Z (round m)) in *.
    set (sr := inject_Z (fold_right (fun m total => (round m + total)%Z)
                           0%Z l)) in *.
    set (sm := fold_right (fun m total => m + total) 0 l) in *.
    clearbody n r sr sm.
    repeat split; qlra.
Qed.

(** X3. On every sheet the odometer does not run backwards and advances by
    at least 15 miles per counted driving segment; [totalMiles] is not
    negative; and the odometer advance differs from [totalMiles] by at most
    half a mile per segment plus one half, the two being rounded apart. *)
Theorem odometer_advance (stops : list Stop) (starting_odometer : option Z)
    (w : world) (k : nat) (sheet : DailyLogSheet) :
  nth_error (fst (generate_eld_logs stops starting_odometer w)) k
  = Some sheet ->
  exists day first_stop others,
    nth_error (days_of stops) k = Some (day, (first_stop, others))
    /\ let segments :=
         Z.of_nat (List.length (segment_miles (first_stop :: others))) in
       (startOdometer sheet + 15 * segments <= endOdometer sheet)%Z
       /\ (startOdometer sheet <= endOdometer sheet)%Z
       /\ (0 <= totalMiles sheet)%Z
       /\ (2 * Z.abs (endOdometer sheet - startOdometer sheet
                      - totalMiles sheet) <= segments + 1)%Z.
Proof.
  intros H.
  destruct (sheet_odometer world randint choice get_location_name stops
              starting_odometer w k sheet H)
    as (day & first_stop & others & Hday & Hadv & Htotal).
  exists day, first_stop, others. split; [exact Hday|]. cbv zeta.
  destruct (sum_rounded_bounds _ (segment_miles_long (first_stop :: others)))
    as (B1 & B2 & B3 & B4).
  set (miles := segment_miles (first_stop :: others)) in *.
  set (n := Z.of_nat (List.length miles)) in *.
  assert (Hn : (0 <= n)%Z) by (subst n; lia).
  rewrite Htotal.
  destruct (round_error (sum_miles miles)) as [Rlo Rhi].
  assert (T0 : (0 <= round (sum_miles miles))%Z)
    by (apply round_ge; change (inject_Z 0) with 0; lra).
  split; [lia|]. split; [lia|]. split; [exact T0|].
  replace (endOdometer sheet - startOdometer sheet - round (sum_miles miles))%Z
    with (sum_rounded miles - round (sum_miles miles))%Z by lia.
  assert (Hq : inject_Z (2 * Z.abs (sum_rounded miles
                                    - round (sum_miles miles)))
               <= inject_Z (n + 1)).
  { rewrite inject_Z_mult, inject_Z_plus.
    change (inject_Z 2) with 2. change (inject_Z 1) with 1.
    assert (Habs : inject_Z (Z.abs (sum_rounded miles
                                    - round (sum_miles miles)))
                   == Qabs (inject_Z (sum_rounded miles)
                            - inject_Z (round (sum_miles miles)))).
    { assert (Hsub : inject_Z (sum_rounded miles - round (sum_miles miles))
                     == inject_Z (sum_rounded miles)
                        - inject_Z (round (sum_miles miles))).
      { unfold Z.sub. rewrite inject_Z_plus, inject_Z_opp. reflexivity. }
      rewrite <- Hsub. reflexivity. }
    rewrite Habs.
    assert (Hb : Qabs (inject_Z (sum_rounded miles)
                       - inject_Z (round (sum_miles miles)))
                 <= (inject_Z n + 1) / 2).
    { apply Qabs_case; intros _; qlra. }
    qlra. }
  rewrite <- Zle_Qle in Hq. exact Hq.
Qed.




End SheetTotals.

(** ** The remarks of a day *)

Section Remarks.

Import Py eld_log_generator.

Lemma add_remark_times (l : list Remark) (h : Q) (text : string) :
  map time (add_remark l h text) = add_hour (map time l) h.
Proof.
  unfold add_hour, written.
  induction l as [|e l IH]; [reflexivity|].
  cbn [add_remark map existsb].
  destruct (Qlt_bool (Qabs (time e - h)) 0.001); cbn [orb map time].
  - reflexivity.
  - rewrite IH.
    destruct (existsb _ (map time l)); reflexivity.
Qed.

(** X5. [add_remark] as a map keyed by the hour, with a tolerance of 0.001:
    after a write some remark within 0.001 of the hour carries the text;
    remarks at least 0.001 away from the hour are kept as they are; the list
    grows by one remark when no remark was within 0.001 of the hour, and
    keeps its length and its times otherwise. *)
Theorem add_remark_lookup (l : list Remark) (h : Q) (text : string) :
  (exists r, In r (add_remark l h text)
             /\ Qabs (time r - h) < 0.001 /\ location r = text)
  /\ (forall r, In r l -> apart (time r) h -> In r (add_remark l h text))
  /\ (written (map time l) h = false ->
      add_remark l h text = (l ++ [ {| time := h; location := text |} ])%list)
  /\ (written (map time l) h = true ->
      map time (add_remark l h text) = map time l).
Proof.
  split; [|split; [|split]].
  - induction l as [|e l IH]; cbn [add_remark].
    + exists {| time := h; location := text |}. split; [left; reflexivity|].
      split; [|reflexivity]. cbn [time].
      setoid_replace (h - h) with 0 by ring. reflexivity.
    + destruct (Qlt_bool (Qabs (time e - h)) 0.001) eqn:E.
      * exists {| time := time e; location := text |}.
        split; [left; reflexivity|]. split; [|reflexivity].
        apply Qlt_bool_iff in E. exact E.
      * destruct IH as (x & Hin & Hx). exists x.
        split; [right; exact Hin | exact Hx].
  - unfold apart. intros r Hin Hfar.
    induction l as [|x l IH]; [destruct Hin|].
    cbn [add_remark]. destruct (Qlt_bool (Qabs (time x - h)) 0.001) eqn:E.
    + destruct Hin as [Hx|Hin]; [|right; exact Hin].
      subst x. apply Qlt_bool_iff in E. lra.
    + destruct Hin as [Hx|Hin]; [left; exact Hx | right; apply IH; exact Hin].
  - unfold written. induction l as [|x l IH]; intros H; [reflexivity|].
    cbn [map existsb add_remark app] in *.
    apply orb_false_iff in H. destruct H as [H1 H2].
    rewrite H1, (IH H2). reflexivity.
  - intros H. rewrite add_remark_times. unfold add_hour. rewrite H.
    reflexivity.
Qed.

Definition times_of (tr : Trace) : list Q := map time (trace_remarks tr).

Lemma grows_remark (l : list Remark) (h : Q) (text : string) :
  0 <= h -> h < 24 -> grows (map time l) (map time (add_remark l h text)).
Proof.
  intros H0 H24. rewrite add_remark_times.
  eapply grows_step; [exact H0 | exact H24 | apply grows_refl].
Qed.

Lemma grows_note_times (tr : Trace) (h : Q) (s : duty) (text : string) :
  0 <= h -> h < 24 -> grows (times_of tr) (times_of (note tr h s text)).
Proof.
  intros. unfold times_of, note. simpl. apply grows_remark; assumption.
Qed.

Lemma seed_stop_times (tr : Trace) (stop : Stop) :
  grows (times_of tr) (times_of (seed_stop tr stop)).
Proof.
  unfold seed_stop, stop_hour_of.
  destruct (hour_frac_range (estimatedArrival stop)) as [H0 H24].
  repeat match goal with
  | |- context [if ?c then _ else _] => destruct c
  end; first [apply grows_note_times; assumption | apply grows_refl].
Qed.

Lemma seed_stops_times (day_stops : list Stop) (tr : Trace) :
  grows (times_of tr) (times_of (seed_stops day_stops tr)).
Proof.
  unfold seed_stops. revert tr.
  induction day_stops as [|stop rest IH]; intros tr; [apply grows_refl|].
  simpl. eapply grows_trans; [apply seed_stop_times | apply IH].
Qed.

Lemma early_morning_times (is_first_day : bool) (tr : Trace) :
  grows (times_of tr) (times_of (early_morning is_first_day tr)).
Proof.
  unfold early_morning.
  destruct (filter _ _); [|destruct (negb _)];
    try destruct is_first_day;
    first [apply grows_note_times; lra | apply grows_refl].
Qed.

Lemma rest_end_times (tr : Trace) :
  grows (times_of tr) (times_of (rest_end tr)).
Proof.
  unfold rest_end, SLEEPER_END_HOUR.
  destruct (negb _); first [apply grows_note_times; lra | apply grows_refl].
Qed.

Lemma morning_pattern_times (is_first_day : bool) (first_stop_time : datetime)
    (tr : Trace) :
  grows (times_of tr)
        (times_of (morning_pattern is_first_day first_stop_time tr)).
Proof.
  unfold morning_pattern, PRE_TRIP_START_HOUR, DRIVING_START_HOUR.
  destruct (hour_frac_range first_stop_time) as [H0 H24].
  destruct is_first_day; [destruct (Qle_bool _ _)|]; cbv zeta.
  - eapply grows_trans; apply grows_note_times; lra.
  - eapply grows_trans; apply grows_note_times; try assumption.
    + apply Q.min_glb; lra.
    + apply Qle_lt_trans with 23.9; [apply Q.le_min_r | lra].
  - eapply grows_trans; apply grows_note_times; lra.
Qed.

Lemma stop_status_times (stop : Stop) (rs : list Remark) :
  grows (map time rs)
        (map time (snd (stop_status stop (stop_hour_of stop) rs))).
Proof.
  unfold stop_status, stop_hour_of.
  destruct (hour_frac_range (estimatedArrival stop)) as [H0 H24].
  repeat match goal with
  | |- context [if ?c then _ else _] => destruct c
  end; cbn [snd]; first [apply grows_remark; assumption | apply grows_refl].
Qed.

Lemma status_change_times (st : DayState) (stop : Stop) :
  grows (times_of (trace st)) (times_of (trace (status_change st stop))).
Proof.
  unfold status_change.
  pose proof (stop_status_times stop (trace_remarks (trace st))) as H.
  destruct (stop_status _ _ _) as [next_status rs].
  destruct (negb _); unfold times_of; simpl; exact H.
Qed.

Lemma driving_segment_times (st : DayState) (stop next_stop : Stop) :
  times_of (trace (driving_segment st stop next_stop)) = times_of (trace st).
Proof.
  unfold driving_segment.
  destruct (andb _ _); [|reflexivity].
  cbv zeta. destruct (Qlt_bool 0.25 _); reflexivity.
Qed.

Lemma stops_loop_times (day_stops : list Stop) (st : DayState) :
  grows (times_of (trace st)) (times_of (trace (stops_loop day_stops st))).
Proof.
  revert st. induction day_stops as [|stop rest IH]; intros st;
    [apply grows_refl|].
  simpl. eapply grows_trans; [apply status_change_times|].
  destruct rest as [|next_stop rest'].
  - apply IH.
  - rewrite <- (driving_segment_times (status_change st stop) stop next_stop).
    apply IH.
Qed.

Lemma end_of_day_times (early is_last_day : bool) (tr : Trace) :
  grows (times_of tr) (times_of (end_of_day early is_last_day tr)).
Proof.
  unfold end_of_day, DRIVING_END_HOUR, SLEEPER_START_HOUR.
  destruct (negb early); [|apply grows_refl]. cbv zeta.
  repeat match goal with
  | |- context [if ?c then _ else _] => destruct c
  end;
  repeat first [ apply grows_refl
               | eapply grows_trans; [|apply grows_note_times; lra] ].
Qed.

End Remarks.

(** ** The log assembler: stops, remarks and log entries of a sheet *)

Section SheetEntries.

Import Py eld_log_generator.

(** The stop types that lines 101-124 know. *)
Definition logged_type (t : string) : bool :=
  type_in t ["overnight"; "off-duty"; "rest"; "pretrip"; "pickup"; "dropoff";
             "waypoint"; "fuel"; "start"].

Lemma seed_stop_note (tr : Trace) (stop : Stop) :
  logged_type (type stop) = true ->
  exists s, seed_stop tr stop = note tr (stop_hour_of stop) s (name stop).
Proof.
  unfold logged_type, seed_stop, type_in. cbn [existsb]. intros H.
  destruct (String.eqb (type stop) "overnight"); [eexists; reflexivity|].
  destruct (String.eqb (type stop) "off-duty"); [eexists; reflexivity|].
  destruct (String.eqb (type stop) "rest"); [eexists; reflexivity|].
  destruct (String.eqb (type stop) "pretrip"); [eexists; reflexivity|].
  destruct (String.eqb (type stop) "pickup"); [eexists; reflexivity|].
  destruct (String.eqb (type stop) "dropoff"); [eexists; reflexivity|].
  destruct (String.eqb (type stop) "waypoint"); [eexists; reflexivity|].
  destruct (String.eqb (type stop) "fuel"); [eexists; reflexivity|].
  destruct (String.eqb (type stop) "start"); [eexists; reflexivity|].
  cbn [orb] in H. discriminate H.
Qed.

(** Some hour of the list is within 0.001 of [h]. *)
Definition near (hs : list Q) (h : Q) : Prop :=
  exists x, In x hs /\ Qabs (x - h) < 0.001.

Lemma near_add_hour (hs : list Q) (h : Q) : near (add_hour hs h) h.
Proof.
  unfold add_hour, written. destruct (existsb _ hs) eqn:E.
  - apply existsb_exists in E. destruct E as (x & Hin & Hx).
    apply Qlt_bool_iff in Hx. exists x. split; assumption.
  - exists h. split; [apply in_or_app; right; left; reflexivity|].
    setoid_replace (h - h) with 0 by ring. reflexivity.
Qed.

Lemma near_grows (hs hs' : list Q) (h : Q) :
  grows hs hs' -> near hs h -> near hs' h.
Proof.
  intros Hg (x & Hin & Hx). exists x. split; [|exact Hx].
  apply (grows_incl _ _ x Hg). exact Hin.
Qed.

Lemma seed_stops_logged (day_stops : list Stop) (tr : Trace) (stop : Stop) :
  In stop day_stops -> logged_type (type stop) = true ->
  near (hours_of (seed_stops day_stops tr)) (stop_hour_of stop)
  /\ near (times_of (seed_stops day_stops tr)) (stop_hour_of stop).
Proof.
  unfold seed_stops. revert tr.
  induction day_stops as [|s rest IH]; intros tr Hin Hty; [destruct Hin|].
  cbn [fold_left]. destruct Hin as [->|Hin]; [|apply IH; assumption].
  destruct (seed_stop_note tr stop Hty) as (st & E). rewrite E.
  split.
  - apply (near_grows _ _ _ (seed_stops_grows rest _)).
    unfold hours_of, note. cbn [duty_statuses].
    rewrite add_duty_status_hours. apply near_add_hour.
  - apply (near_grows _ _ _ (seed_stops_times rest _)).
    unfold times_of, note. cbn [trace_remarks].
    rewrite add_remark_times. apply near_add_hour.
Qed.

Lemma final_trace_logged (is_first_day is_last_day : bool) (first_stop : Stop)
    (others : list Stop) (odometer : Z) :
  let tr := final_trace is_first_day is_last_day first_stop others odometer in
  ForallOrdPairs apart (times_of tr)
  /\ Forall in_day (times_of tr)
  /\ forall stop, In stop (first_stop :: others) ->
       logged_type (type stop) = true ->
       near (hours_of tr) (stop_hour_of stop)
       /\ near (times_of tr) (stop_hour_of stop).
Proof.
  unfold final_trace, day_trace.
  set (tr0 := {| duty_statuses := []; trace_remarks := [] |}).
  set (tr1 := seed_stops (first_stop :: others) tr0).
  set (tr2 := early_morning is_first_day tr1).
  set (tr3 := rest_end tr2).
  set (tr4 := morning_pattern is_first_day (estimatedArrival first_stop) tr3).
  set (st := stops_loop _ _).
  set (tr5 := end_of_day _ _ _).
  assert (T01 : grows (times_of tr0) (times_of tr1))
    by apply seed_stops_times.
  assert (T15 : grows (times_of tr1) (times_of tr5)).
  { eapply grows_trans; [apply early_morning_times|].
    eapply grows_trans; [apply rest_end_times|].
    eapply grows_trans; [apply morning_pattern_times|].
    eapply grows_trans; [|apply end_of_day_times].
    subst st.
    match goal with
    | |- context [stops_loop ?l ?s] => exact (stops_loop_times l s)
    end. }
  assert (H15 : grows (hours_of tr1) (hours_of tr5)).
  { eapply grows_trans; [apply early_morning_grows|].
    eapply grows_trans; [apply rest_end_grows|].
    eapply grows_trans; [apply morning_pattern_grows|].
    eapply grows_trans; [|apply end_of_day_grows].
    subst st.
    match goal with
    | |- context [stops_loop ?l ?s] => exact (stops_loop_grows l s)
    end. }
  cbv zeta. split; [|split].
  - apply (grows_spaced _ _ (grows_trans _ _ _ T01 T15)). constructor.
  - apply (grows_in_day _ _ (grows_trans _ _ _ T01 T15)). constructor.
  - intros stop Hin Hty.
    destruct (seed_stops_logged (first_stop :: others) tr0 stop Hin Hty)
      as [Hh Ht].
    split; [exact (near_grows _ _ _ H15 Hh) | exact (near_grows _ _ _ T15 Ht)].
Qed.

Lemma time_leb_total (a b : Remark) :
  time_leb a b = false -> time_leb b a = true.
Proof.
  unfold time_leb. intros H. apply Qle_bool_false_iff in H.
  apply Qle_bool_iff. lra.
Qed.

Lemma sorted_strict_times (l : list Remark) :
  Sorted (fun a b => time_leb a b = true) l ->
  ForallOrdPairs apart (map time l) ->
  StronglySorted (fun a b => time a < time b) l.
Proof.
  intros Hs Hp.
  assert (Hss : StronglySorted (fun a b => time a <= time b) l).
  { apply Sorted_StronglySorted.
    - intros a b c Hab Hbc. lra.
    - eapply Sorted_ind with (P := Sorted (fun a b => time a <= time b));
        [constructor | | exact Hs].
      intros a l' _ IH Hhd. constructor; [exact IH|].
      destruct Hhd as [|b l'' Hab]; constructor.
      unfold time_leb in Hab. apply Qle_bool_iff in Hab. exact Hab. }
  clear Hs. induction Hss as [|a l' Hss IH Hle]; [constructor|].
  cbn [map] in Hp. inversion Hp as [|? ? Ha Hl]; subst.
  constructor; [apply IH; exact Hl|].
  rewrite Forall_forall in *. intros b Hb.
  specialize (Hle b Hb).
  specialize (Ha (time b) (in_map time _ _ Hb)). unfold apart in Ha.
  assert (Hneg : Qabs (time a - time b) == - (time a - time b))
    by (apply Qabs_neg; lra).
  rewrite Hneg in Ha. lra.
Qed.

Variable world : Type.
Variable randint : Z -> Z -> world -> Z * world.
Variable choice : list string -> world -> string * world.
Variable get_location_name : Coord -> world -> string * world.

Local Abbreviation generate_eld_logs :=
  (eld_log_generator.generate_eld_logs world randint choice get_location_name).

(** X6. The sheet of a date is built from the stops of that date, taken in
    the order of the stop list: there is at least one such stop, [startTime]
    is the arrival of the first of them and [endTime] the arrival of the
    last one. *)
Theorem sheet_covers_its_date (stops : list Stop)
    (starting_odometer : option Z) (w : world) (k : nat)
    (sheet : DailyLogSheet) :
  nth_error (fst (generate_eld_logs stops starting_odometer w)) k
  = Some sheet ->
  exists first_stop others,
    filter (on_date (date sheet)) stops = first_stop :: others
    /\ startTime sheet = Some (estimatedArrival first_stop)
    /\ endTime sheet = Some (estimatedArrival (last others first_stop)).
Proof.
  intros H. apply sheet_built in H.
  destruct H as (day & first_stop & others & w1 & w2 & Hday & ->).
  destruct (built_fields world randint choice get_location_name k
              (List.length (days_of stops)) day first_stop others
              (odometer_at (days_of stops) 0
                 (first_odometer world randint starting_odometer w) k) w1 w2)
    as (Hdate & Hstart & Hend & _).
  exists first_stop, others. rewrite Hdate, Hstart, Hend.
  split; [symmetry; exact (days_of_stops stops k day first_stop others Hday)|].
  split; [reflexivity|].
  destruct others; reflexivity.
Qed.

(** X7. The remarks of a sheet are in strictly ascending order of time,
    their times lie in [0, 24) and are pairwise at least 0.001 apart. *)
Theorem remarks_sorted (stops : list Stop) (starting_odometer : option Z)
    (w : world) (k : nat) (sheet : DailyLogSheet) :
  nth_error (fst (generate_eld_logs stops starting_odometer w)) k
  = Some sheet ->
  StronglySorted (fun a b => time a < time b) (remarks (graphData sheet))
  /\ Forall (fun r => 0 <= time r /\ time r < 24) (remarks (graphData sheet))
  /\ ForallOrdPairs (fun a b => 0.001 <= Qabs (time a - time b))
       (remarks (graphData sheet)).
Proof.
  intros H. apply sheet_origin in H.
  destruct H as (day & first_stop & others & Hday & Hfrom).
  destruct Hfrom as (_ & _ & _ & _ & _ & Hr & _). rewrite Hr.
  match goal with
  | |- context [stable_sort time_leb (trace_remarks ?t)] => set (tr := t)
  end.
  destruct (final_trace_logged (k =? 0)%nat
              (k =? List.length (days_of stops) - 1)%nat first_stop others
              (odometer_at (days_of stops) 0
                 (first_odometer world randint starting_odometer w) k))
    as (Hspaced & Hday' & _).
  unfold final_trace in Hspaced, Hday'. fold tr in Hspaced, Hday'.
  assert (Hperm : Permutation (stable_sort time_leb (trace_remarks tr))
                    (trace_remarks tr)) by apply stable_sort_perm.
  assert (Hsp : ForallOrdPairs apart
                  (map time (stable_sort time_leb (trace_remarks tr)))).
  { eapply spaced_perm; [|exact Hspaced].
    apply Permutation_map. apply Permutation_sym. exact Hperm. }
  split; [|split].
  - apply sorted_strict_times; [|exact Hsp].
    apply stable_sort_sorted. exact time_leb_total.
  - apply Forall_forall. intros r Hr'.
    apply (Permutation_in _ Hperm) in Hr'.
    unfold times_of in Hday'. rewrite Forall_forall in Hday'.
    apply (Hday' (time r)). apply in_map. exact Hr'.
  - clear - Hsp.
    induction (stable_sort time_leb (trace_remarks tr)) as [|e l IH];
      [constructor|].
    cbn [map] in Hsp. inversion Hsp as [|? ? He Hl]; subst.
    constructor; [|apply IH; exact Hl].
    rewrite Forall_forall in *. intros b Hb.
    apply (He (time b)). apply in_map. exact Hb.
Qed.

(** The mark of a stop on the sheet of its date, in the timeline and in
    the remarks. *)
Lemma stop_mark (stops : list Stop) (starting_odometer : option Z)
    (w : world) (k : nat) (sheet : DailyLogSheet) (stop : Stop) :
  nth_error (fst (generate_eld_logs stops starting_odometer w)) k
  = Some sheet ->
  In stop stops -> stop_date stop = date sheet ->
  logged_type (type stop) = true ->
  (exists e, In e (hourData (graphData sheet))
             /\ Qabs (hour e - hour_frac (estimatedArrival stop)) < 0.001)
  /\ (exists r, In r (remarks (graphData sheet))
                /\ Qabs (time r - hour_frac (estimatedArrival stop)) < 0.001).
Proof.
  intros H Hin Hdate Hty.
  pose proof (sheet_dates world randint choice get_location_name stops
                starting_odometer w) as Hdates.
  assert (Hk : nth_error (map date (fst (generate_eld_logs stops
                                           starting_odometer w))) k
               = Some (date sheet)) by (rewrite nth_error_map, H; reflexivity).
  rewrite Hdates, nth_error_map in Hk.
  apply sheet_origin in H.
  destruct H as (day & first_stop & others & Hday & Hfrom).
  rewrite Hday in Hk. cbn in Hk. inversion Hk as [Eday].
  pose proof (days_of_stops stops k day first_stop others Hday) as Hstops.
  assert (Hin' : In stop (first_stop :: others)).
  { rewrite Hstops. apply filter_In. split; [exact Hin|].
    unfold on_date. apply Z.eqb_eq. congruence. }
  destruct Hfrom as (_ & _ & _ & _ & Hh & Hr & _). rewrite Hh, Hr.
  destruct (final_trace_logged (k =? 0)%nat
              (k =? List.length (days_of stops) - 1)%nat first_stop others
              (odometer_at (days_of stops) 0
                 (first_odometer world randint starting_odometer w) k))
    as (_ & _ & Hlogged).
  destruct (Hlogged stop Hin' Hty) as [(x & Hx & Hnear) (y & Hy & Hnear')].
  unfold final_trace, hours_of, times_of in Hx, Hy.
  apply in_map_iff in Hx. destruct Hx as (e & <- & He).
  apply in_map_iff in Hy. destruct Hy as (r & <- & Hr').
  split.
  - exists e. split; [|exact Hnear].
    apply (Permutation_in _ (Permutation_sym (stable_sort_perm _ _ _))).
    exact He.
  - exists r. split; [|exact Hnear'].
    apply (Permutation_in _ (Permutation_sym (stable_sort_perm _ _ _))).
    exact Hr'.
Qed.

(** X8. Every stop of a known type leaves its mark on the sheet of its
    date: the duty-status timeline and the remarks of that sheet both hold
    an entry within 0.001 of the fractional hour of the stop. *)
Theorem stops_are_logged (stops : list Stop) (starting_odometer : option Z)
    (w : world) (k : nat) (sheet : DailyLogSheet) (stop : Stop) :
  nth_error (fst (generate_eld_logs stops starting_odometer w)) k
  = Some sheet ->
  In stop stops -> stop_date stop = date sheet ->
  logged_type (type stop) = true ->
  (exists e, In e (hourData (graphData sheet))
             /\ Qabs (hour e - hour_frac (estimatedArrival stop)) < 0.001)
  /\ (exists r, In r (remarks (graphData sheet))
                /\ Qabs (time r - hour_frac (estimatedArrival stop)) < 0.001).
Proof.
  intros H Hin Hdate Hty.
  exact (stop_mark stops starting_odometer w k sheet stop H Hin Hdate Hty).
Qed.

End SheetEntries.

(** ** The log entries of a sheet *)

Section LogEntries.

Import Py eld_log_generator.

Lemma closest_remark_from (rs : list Remark) (h d : Q) (text : string) :
  (closest_remark rs h (Some d) text = text
   /\ forall r, In r rs -> d <= Qabs (time r - h))
  \/ exists before r after,
       rs = (before ++ r :: after)%list
       /\ closest_remark rs h (Some d) text = location r
       /\ Qabs (time r - h) < d
       /\ (forall r', In r' before -> Qabs (time r - h) < Qabs (time r' - h))
       /\ (forall r', In r' after -> Qabs (time r - h) <= Qabs (time r' - h)).
Proof.
  revert d text. induction rs as [|x rs IH]; intros d text.
  - left. split; [reflexivity | intros r []].
  - cbn [closest_remark].
    destruct (Qlt_bool (Qabs (time x - h)) d) eqn:E; qbool.
    + destruct (IH (Qabs (time x - h)) (location x))
        as [[Hres Hall]|(before & r & after & Hrs & Hres & Hlt & Hb & Ha)].
      * right. exists [], x, rs. split; [reflexivity|].
        split; [exact Hres|]. split; [exact E|].
        split; [intros r' []|exact Hall].
      * right. exists (x :: before), r, after.
        split; [rewrite Hrs; reflexivity|]. split; [exact Hres|].
        split; [lra|]. split; [|exact Ha].
        intros r' [<-|Hin]; [exact Hlt | apply Hb; exact Hin].
    + destruct (IH d text)
        as [[Hres Hall]|(before & r & after & Hrs & Hres & Hlt & Hb & Ha)].
      * left. split; [exact Hres|].
        intros r [<-|Hin]; [exact E | apply Hall; exact Hin].
      * right. exists (x :: before), r, after.
        split; [rewrite Hrs; reflexivity|]. split; [exact Hres|].
        split; [exact Hlt|]. split; [|exact Ha].
        intros r' [<-|Hin]; [lra | apply Hb; exact Hin].
Qed.

(** X9. The location of a log entry is that of the remark nearest in time
    to the status change, the first such remark when several are equally
    near; with no remark at all it is ["Unknown Location"]. *)
Theorem closest_remark_nearest (rs : list Remark) (h : Q) :
  match rs with
  | [] => closest_remark rs h None "Unknown Location" = "Unknown Location"
  | _ :: _ =>
      exists before r after,
        rs = (before ++ r :: after)%list
        /\ closest_remark rs h None "Unknown Location" = location r
        /\ (forall r', In r' before ->
            Qabs (time r - h) < Qabs (time r' - h))
        /\ (forall r', In r' after ->
            Qabs (time r - h) <= Qabs (time r' - h))
  end.
Proof.
  destruct rs as [|x rs]; [reflexivity|].
  cbn [closest_remark].
  destruct (closest_remark_from rs h (Qabs (time x - h)) (location x))
    as [[Hres Hall]|(before & r & after & Hrs & Hres & Hlt & Hb & Ha)].
  - exists [], x, rs. split; [reflexivity|]. split; [exact Hres|].
    split; [intros r' []|exact Hall].
  - exists (x :: before), r, after.
    split; [rewrite Hrs; reflexivity|]. split; [exact Hres|].
    split; [|exact Ha].
    intros r' [<-|Hin]; [exact Hlt | apply Hb; exact Hin].
Qed.

Lemma log_entries_fields (l : list DutyStatus) (rs : list Remark)
    (day_start' day_end : datetime) :
  let entries := log_entries l rs day_start' day_end in
  map log_status entries = map status l
  /\ map log_location entries
     = map (fun s => closest_remark rs (hour s) None "Unknown Location") l
  /\ map log_startTime entries
     = map (fun s => status_time day_start' day_start' (hour s)) l
  /\ Forall (fun e => log_date e = DateTime.date day_start') entries
  /\ Forall (fun e => log_status e <> driving -> miles e = 0%Z) entries
  /\ (l <> [] -> forall e, log_endTime (last entries e) = day_end).
Proof.
  cbv zeta. induction l as [|s l IH].
  - cbn. repeat split; try constructor. intros H. congruence.
  - destruct IH as (I1 & I2 & I3 & I4 & I5 & I6).
    cbn [log_entries map log_status log_location log_startTime].
    rewrite I1, I2, I3.
    split; [reflexivity|]. split; [reflexivity|]. split; [reflexivity|].
    split; [constructor; [reflexivity | exact I4]|].
    split.
    + constructor; [|exact I5]. cbn [log_status miles].
      destruct (status s); intros H; congruence.
    + intros _ e. destruct l as [|s' l'].
      * reflexivity.
      * cbn [log_entries last] in *.
        apply I6. discriminate.
Qed.

Variable world : Type.
Variable randint : Z -> Z -> world -> Z * world.
Variable choice : list string -> world -> string * world.
Variable get_location_name : Coord -> world -> string * world.

Local Abbreviation generate_eld_logs :=
  (eld_log_generator.generate_eld_logs world randint choice get_location_name).

(** X10. The log entries of a sheet follow its duty-status timeline: there
    is one entry per timeline entry, in the same order and with the same
    status; every entry carries the date of the sheet; its location is the
    one of the remark of the sheet nearest to the hour of the status change;
    an entry that is not driving has 0 miles; and the last entry ends at the
    [endTime] of the sheet. *)
Theorem sheet_logs (stops : list Stop) (starting_odometer : option Z)
    (w : world) (k : nat) (sheet : DailyLogSheet) :
  nth_error (fst (generate_eld_logs stops starting_odometer w)) k
  = Some sheet ->
  map log_status (logs sheet) = map status (hourData (graphData sheet))
  /\ map log_location (logs sheet)
     = map (fun s => closest_remark (remarks (graphData sheet)) (hour s) None
                       "Unknown Location")
           (hourData (graphData sheet))
  /\ Forall (fun e => log_date e = date sheet) (logs sheet)
  /\ Forall (fun e => log_status e <> driving -> miles e = 0%Z) (logs sheet)
  /\ logs sheet <> []
  /\ forall e, Some (log_endTime (last (logs sheet) e)) = endTime sheet.
Proof.
  intros H.
  pose proof (sheet_origin world randint choice get_location_name stops
                starting_odometer w k sheet H)
    as (day0 & f0 & o0 & Hday0 & Hfrom).
  apply sheet_built in H.
  destruct H as (day & first_stop & others & w1 & w2 & Hday & Hsheet).
  rewrite Hday in Hday0. inversion Hday0; subst day0 f0 o0. clear Hday0.
  destruct (built_fields world randint choice get_location_name k
              (List.length (days_of stops)) day first_stop others
              (odometer_at (days_of stops) 0
                 (first_odometer world randint starting_odometer w) k) w1 w2)
    as (Hdate & _ & Hend & Hlogs & _).
  rewrite <- Hsheet in Hdate, Hend, Hlogs.
  destruct Hfrom as (_ & _ & _ & _ & Hh & _).
  assert (Hfixed : stable_sort hour_leb (hourData (graphData sheet))
                   = hourData (graphData sheet)).
  { apply stable_sort_fixed. rewrite Hh.
    apply stable_sort_sorted. exact hour_leb_total. }
  assert (Hne : hourData (graphData sheet) <> []).
  { destruct (final_trace_hours (k =? 0)%nat
                (k =? List.length (days_of stops) - 1)%nat first_stop others
                (odometer_at (days_of stops) 0
                   (first_odometer world randint starting_odometer w) k))
      as (_ & _ & x & Hx & _).
    unfold final_trace, hours_of in Hx. apply in_map_iff in Hx.
    destruct Hx as (e & _ & He).
    apply (Permutation_in _ (Permutation_sym
                               (stable_sort_perm _ hour_leb _))) in He.
    rewrite <- Hh in He. intros E. rewrite E in He. destruct He. }
  assert (Hfirst : DateTime.date (estimatedArrival first_stop) = day).
  { pose proof (days_of_stops stops k day first_stop others Hday) as Hs.
    assert (Hin : In first_stop (filter (on_date day) stops))
      by (rewrite <- Hs; left; reflexivity).
    apply filter_In in Hin. destruct Hin as [_ E].
    apply Z.eqb_eq. exact E. }
  unfold generate_log_entries in Hlogs.
  destruct (hourData (graphData sheet)) as [|s l] eqn:Ehd; [congruence|].
  rewrite Hfixed in Hlogs.
  destruct (log_entries_fields (s :: l) (remarks (graphData sheet))
              (estimatedArrival first_stop)
              (estimatedArrival (last (first_stop :: others) first_stop)))
    as (L1 & L2 & _ & L4 & L5 & L6).
  rewrite <- Hlogs in L1, L2, L4, L5, L6.
  split; [exact L1|]. split; [exact L2|].
  split; [rewrite Hdate, <- Hfirst; exact L4|].
  split; [exact L5|].
  split; [rewrite Hlogs; discriminate|].
  intros e. rewrite Hend, L6; [reflexivity | discriminate].
Qed.

End LogEntries.

(** ** The time of day of a timestamp *)

Section TimeOfDay.

Local Open Scope Z_scope.

(** The minutes elapsed since midnight. *)
Definition minute_of_day (t : datetime) : Z :=
  (t mod US_PER_DAY) / US_PER_MINUTE.

(** A timestamp is a date, a minute of the day and what is left of the
    minute. *)
Lemma datetime_split (t : datetime) :
  exists s,
    t = DateTime.date t * US_PER_DAY + minute_of_day t * US_PER_MINUTE + s
    /\ 0 <= s < US_PER_MINUTE
    /\ 0 <= minute_of_day t < 1440
    /\ DateTime.microsecond t <= s.
Proof.
  unfold minute_of_day, DateTime.date, DateTime.microsecond.
  unfold US_PER_DAY, US_PER_HOUR, US_PER_MINUTE, US_PER_SECOND.
  change (24 * (60 * (60 * 1000000))) with 86400000000.
  change (60 * 1000000) with 60000000.
  pose proof (Z.div_mod t 86400000000 ltac:(lia)) as Ht.
  pose proof (Z.mod_pos_bound t 86400000000 ltac:(lia)) as Hr.
  set (d := t / 86400000000) in *. set (r := t mod 86400000000) in *.
  pose proof (Z.div_mod r 60000000 ltac:(lia)) as Hq.
  pose proof (Z.mod_pos_bound r 60000000 ltac:(lia)) as Hs.
  set (q := r / 60000000) in *. set (s := r mod 60000000) in *.
  pose proof (Z.mod_pos_bound t 1000000 ltac:(lia)) as Hus.
  assert (Eus : t mod 1000000 = s mod 1000000).
  { replace t with (s + (d * 86400 + q * 60) * 1000000) by lia.
    apply Z.mod_add. lia. }
  pose proof (Z.mod_le s 1000000 ltac:(lia) ltac:(lia)) as Hle.
  exists s. clearbody d r q s. repeat split; lia.
Qed.

(** Conversely, the date and the minute of the day of a timestamp built from
    its parts. *)
Lemma datetime_join (d q s : Z) :
  0 <= q < 1440 -> 0 <= s < US_PER_MINUTE ->
  DateTime.date (d * US_PER_DAY + q * US_PER_MINUTE + s) = d
  /\ minute_of_day (d * US_PER_DAY + q * US_PER_MINUTE + s) = q.
Proof.
  unfold minute_of_day, DateTime.date.
  unfold US_PER_DAY, US_PER_HOUR, US_PER_MINUTE, US_PER_SECOND.
  change (24 * (60 * (60 * 1000000))) with 86400000000.
  change (60 * 1000000) with 60000000.
  intros Hq Hs.
  assert (E1 : (d * 86400000000 + q * 60000000 + s) / 86400000000 = d).
  { symmetry. apply (Z.div_unique_pos _ _ d (q * 60000000 + s)); lia. }
  assert (E2 : (d * 86400000000 + q * 60000000 + s) mod 86400000000
               = q * 60000000 + s).
  { symmetry. apply (Z.mod_unique_pos _ _ d); lia. }
  rewrite E1, E2. split; [reflexivity|].
  symmetry. apply (Z.div_unique_pos _ _ q s); lia.
Qed.

Lemma minute_of_day_fields (t : datetime) :
  60 * DateTime.hour t + DateTime.minute t = minute_of_day t.
Proof.
  destruct (datetime_split t) as (s & Ht & Hs & Hq & _).
  unfold US_PER_MINUTE, US_PER_SECOND in Hs.
  set (q := minute_of_day t) in *.
  pose proof (Z.div_mod q 60 ltac:(lia)) as Hq60.
  pose proof (Z.mod_pos_bound q 60 ltac:(lia)) as Hmi.
  pose proof (Z.div_mod s 1000000 ltac:(lia)) as Hs6.
  pose proof (Z.mod_pos_bound s 1000000 ltac:(lia)) as Hus.
  set (h := q / 60) in *. set (mi := q mod 60) in *.
  set (ss := s / 1000000) in *. set (us := s mod 1000000) in *.
  assert (Ht' : t = make (DateTime.date t) h mi ss us).
  { unfold make, US_PER_DAY, US_PER_HOUR, US_PER_MINUTE, US_PER_SECOND in *.
    clearbody q h mi ss us. lia. }
  destruct (make_fields (DateTime.date t) h mi ss us) as (_ & Hh & Hm);
    try (clearbody q h mi ss us; lia).
  rewrite Ht' at 1 2. rewrite Hh, Hm. clearbody q h mi. lia.
Qed.

End TimeOfDay.

Lemma hour_frac_minutes (t : datetime) :
  hour_frac t == inject_Z (minute_of_day t) / 60.
Proof.
  rewrite <- minute_of_day_fields. unfold hour_frac.
  rewrite inject_Z_plus, inject_Z_mult. change (inject_Z 60) with 60.
  field.
Qed.

Lemma hour_frac_lt (t : datetime) (n : Z) :
  hour_frac t < inject_Z n / 60 <-> (minute_of_day t < n)%Z.
Proof.
  rewrite hour_frac_minutes, Zlt_Qlt.
  set (a := inject_Z (minute_of_day t)). set (b := inject_Z n).
  clearbody a b. split; intros H; qlra.
Qed.

Lemma hour_frac_le (t : datetime) (n : Z) :
  inject_Z n / 60 <= hour_frac t <-> (n <= minute_of_day t)%Z.
Proof.
  rewrite hour_frac_minutes, Zle_Qle.
  set (a := inject_Z (minute_of_day t)). set (b := inject_Z n).
  clearbody a b. split; intros H; qlra.
Qed.

Lemma hour_frac_ge (t : datetime) (n : Z) :
  hour_frac t <= inject_Z n / 60 <-> (minute_of_day t <= n)%Z.
Proof.
  rewrite hour_frac_minutes, Zle_Qle.
  set (a := inject_Z (minute_of_day t)). set (b := inject_Z n).
  clearbody a b. split; intros H; qlra.
Qed.

Lemma hour_frac_gt (t : datetime) (n : Z) :
  inject_Z n / 60 < hour_frac t <-> (n < minute_of_day t)%Z.
Proof.
  rewrite hour_frac_minutes, Zlt_Qlt.
  set (a := inject_Z (minute_of_day t)). set (b := inject_Z n).
  clearbody a b. split; intros H; qlra.
Qed.

(** ** The planner: the driving window *)

Section DrivingWindow.

Import Py stop_generator.

Lemma within_minutes (t : datetime) :
  is_within_driving_hours t = true
  <-> (420 <= minute_of_day t <= 1050)%Z.
Proof.
  unfold is_within_driving_hours, DRIVING_START_HOUR, DRIVING_END_HOUR.
  rewrite andb_true_iff, !Qle_bool_iff.
  rewrite <- (hour_frac_le t 420), <- (hour_frac_ge t 1050).
  change (inject_Z 420 / 60) with (420 / 60).
  change (inject_Z 1050 / 60) with (1050 / 60).
  split; intros [H1 H2]; split; qlra.
Qed.

Lemma day_later (t : datetime) :
  DateTime.date (t + DateTime.days 1)%Z = (DateTime.date t + 1)%Z
  /\ DateTime.microsecond (t + DateTime.days 1)%Z = DateTime.microsecond t.
Proof.
  unfold DateTime.date, DateTime.microsecond, DateTime.days.
  split.
  - rewrite Z.div_add by (unfold US_PER_DAY, US_PER_HOUR, US_PER_MINUTE,
                            US_PER_SECOND; lia).
    reflexivity.
  - unfold US_PER_DAY, US_PER_HOUR, US_PER_MINUTE.
    replace (t + 1 * (24 * (60 * (60 * US_PER_SECOND))))%Z
      with (t + 86400 * US_PER_SECOND)%Z by lia.
    apply Z.mod_add. unfold US_PER_SECOND. lia.
Qed.

Lemma microsecond_range (t : datetime) :
  (0 <= DateTime.microsecond t < 1000000)%Z.
Proof.
  unfold DateTime.microsecond, US_PER_SECOND. apply Z.mod_pos_bound. lia.
Qed.

(** The three cases of [next_driving_start_time], by the minute of the
    day. *)
Lemma next_driving_start_time_cases (t : datetime) :
  ((minute_of_day t < 420)%Z
   /\ next_driving_start_time t
      = make (DateTime.date t) 7 0 0 (DateTime.microsecond t))
  \/ ((1050 <= minute_of_day t)%Z
      /\ next_driving_start_time t
         = make (DateTime.date t + 1) 7 0 0 (DateTime.microsecond t))
  \/ ((420 <= minute_of_day t < 1050)%Z /\ next_driving_start_time t = t).
Proof.
  unfold next_driving_start_time, DRIVING_START_HOUR, DRIVING_END_HOUR.
  destruct (Qlt_bool (hour_frac t) 7.0) eqn:E1; qbool.
  - left. split; [|reflexivity].
    apply (hour_frac_lt t 420). change (inject_Z 420 / 60) with (420 / 60).
    qlra.
  - destruct (Qle_bool 17.5 (hour_frac t)) eqn:E2; qbool.
    + right. left. split.
      * apply (hour_frac_le t 1050).
        change (inject_Z 1050 / 60) with (1050 / 60). qlra.
      * destruct (day_later t) as [Hd Hus].
        change (at_hour (t + DateTime.days 1)%Z 7.0)
          with (make (DateTime.date (t + DateTime.days 1)%Z) 7 0 0
                  (DateTime.microsecond (t + DateTime.days 1)%Z)).
        rewrite Hd, Hus. reflexivity.
    + right. right. split; [|reflexivity]. split.
      * apply (hour_frac_le t 420).
        change (inject_Z 420 / 60) with (420 / 60). qlra.
      * apply (hour_frac_lt t 1050).
        change (inject_Z 1050 / 60) with (1050 / 60). qlra.
Qed.

Lemma make_minutes (d hh mm us : Z) :
  (0 <= hh < 24)%Z -> (0 <= mm < 60)%Z -> (0 <= us < 1000000)%Z ->
  DateTime.date (make d hh mm 0 us) = d
  /\ minute_of_day (make d hh mm 0 us) = (60 * hh + mm)%Z.
Proof.
  intros Hh Hm Hus.
  replace (make d hh mm 0 us)
    with (d * US_PER_DAY + (60 * hh + mm) * US_PER_MINUTE + us)%Z
    by (unfold make, US_PER_DAY, US_PER_HOUR, US_PER_MINUTE, US_PER_SECOND;
        lia).
  apply datetime_join; [lia|].
  unfold US_PER_MINUTE, US_PER_SECOND. lia.
Qed.

(** [next_driving_start_time] never goes back in time. *)
Lemma next_driving_start_time_not_before (t : datetime) :
  (t <= next_driving_start_time t)%Z.
Proof.
  destruct (datetime_split t) as (s & Ht & Hs & Hq & Hus).
  pose proof (microsecond_range t) as Hus0.
  destruct (next_driving_start_time_cases t)
    as [[Hc E]|[[Hc E]|[Hc E]]]; rewrite E;
    unfold make, US_PER_DAY, US_PER_HOUR, US_PER_MINUTE, US_PER_SECOND in *;
    set (q := minute_of_day t) in *; set (d := DateTime.date t) in *;
    set (us := DateTime.microsecond t) in *; clearbody q d us; lia.
Qed.

(** X11. [next_driving_start_time] moves a timestamp into the driving
    window and never back in time: the result has its fractional hour in
    [7, 17.5), is the timestamp itself exactly when that one already is in
    this range, is never earlier than the timestamp and at most 13.5 hours
    later; applying the function twice changes nothing more. *)
Theorem next_driving_start_time_window (t : datetime) :
  let t' := next_driving_start_time t in
  7 <= hour_frac t' /\ hour_frac t' < 17.5
  /\ is_within_driving_hours t' = true
  /\ (t <= t' <= t + DateTime.hours 13.5)%Z
  /\ (t' = t <-> 7 <= hour_frac t /\ hour_frac t < 17.5)
  /\ next_driving_start_time t' = t'.
Proof.
  cbv zeta.
  destruct (next_driving_start_time_range t) as [R1 R2].
  split; [exact R1|]. split; [exact R2|].
  split.
  { unfold is_within_driving_hours, DRIVING_START_HOUR, DRIVING_END_HOUR.
    apply andb_true_iff. split; apply Qle_bool_iff; lra. }
  assert (Hhours : DateTime.hours 13.5 = 48600000000%Z)
    by (vm_compute; reflexivity).
  rewrite Hhours.
  destruct (datetime_split t) as (s & Ht & Hs & Hq & Hus).
  pose proof (microsecond_range t) as Hus0.
  assert (Hwin : 7 <= hour_frac t /\ hour_frac t < 17.5
                 <-> (420 <= minute_of_day t < 1050)%Z).
  { rewrite <- (hour_frac_le t 420), <- (hour_frac_lt t 1050).
    change (inject_Z 420 / 60) with (420 / 60).
    change (inject_Z 1050 / 60) with (1050 / 60).
    split; intros [H1 H2]; split; qlra. }
  split; [|split].
  - destruct (next_driving_start_time_cases t)
      as [[Hc E]|[[Hc E]|[Hc E]]]; rewrite E;
      unfold make, US_PER_DAY, US_PER_HOUR, US_PER_MINUTE, US_PER_SECOND in *;
      set (q := minute_of_day t) in *; set (d := DateTime.date t) in *;
      set (us := DateTime.microsecond t) in *; clearbody q d us; lia.
  - rewrite Hwin.
    destruct (next_driving_start_time_cases t)
      as [[Hc E]|[[Hc E]|[Hc E]]]; rewrite E.
    + split; [|lia]. intros Habs. exfalso.
      unfold make, US_PER_DAY, US_PER_HOUR, US_PER_MINUTE, US_PER_SECOND in *.
      set (q := minute_of_day t) in *. set (d := DateTime.date t) in *.
      set (us := DateTime.microsecond t) in *. clearbody q d us. lia.
    + split; [|lia]. intros Habs. exfalso.
      unfold make, US_PER_DAY, US_PER_HOUR, US_PER_MINUTE, US_PER_SECOND in *.
      set (q := minute_of_day t) in *. set (d := DateTime.date t) in *.
      set (us := DateTime.microsecond t) in *. clearbody q d us. lia.
    + split; [intros _; exact Hc | reflexivity].
  - apply next_driving_start_time_fixed; assumption.
Qed.

End DrivingWindow.

(** ** The planner: arrival times and breaks *)

Section Arrival.

Import Py stop_generator.

Lemma hours_nonneg (x : Q) : 0 <= x -> (0 <= DateTime.hours x)%Z.
Proof.
  intros H. unfold DateTime.hours. apply round_ge.
  change (inject_Z 0) with 0.
  apply Qmult_le_0_compat; [exact H|].
  change (inject_Z US_PER_HOUR) with 3600000000. lra.
Qed.

Lemma hours_minutes_le (x : Q) (n : Z) :
  x <= inject_Z n / 60 -> (DateTime.hours x <= n * US_PER_MINUTE)%Z.
Proof.
  intros H. unfold DateTime.hours. apply round_le.
  rewrite inject_Z_mult.
  change (inject_Z US_PER_HOUR) with 3600000000.
  change (inject_Z US_PER_MINUTE) with 60000000.
  set (m := inject_Z n) in *. clearbody m. qlra.
Qed.

(** A drive that fits in what is left of the driving day ends within the
    driving hours of the same day. *)
Lemma arrival_same_day (current_time : datetime) (driving_hours : Q) :
  (420 <= minute_of_day current_time < 1050)%Z ->
  0 < driving_hours ->
  driving_hours
  <= calculate_hours_until_end_of_driving_day current_time ->
  let arrival := (current_time + DateTime.hours driving_hours)%Z in
  is_within_driving_hours arrival = true
  /\ (current_time <= arrival)%Z
  /\ DateTime.date arrival = DateTime.date current_time.
Proof.
  intros Hq Hpos Hfit. cbv zeta.
  assert (Hue : calculate_hours_until_end_of_driving_day current_time
                == inject_Z (1050 - minute_of_day current_time) / 60).
  { destruct (hours_until_end_cases current_time) as [[H E]|[H E]].
    - exfalso.
      assert (H' : inject_Z 1050 / 60 <= hour_frac current_time)
        by (change (inject_Z 1050) with 1050; qlra).
      apply hour_frac_le in H'. lia.
    - rewrite E, hour_frac_minutes. unfold Z.sub.
      rewrite inject_Z_plus, inject_Z_opp.
      change (inject_Z 1050) with 1050. field. }
  assert (H0 : (0 <= DateTime.hours driving_hours)%Z)
    by (apply hours_nonneg; lra).
  assert (H1 : (DateTime.hours driving_hours
                <= (1050 - minute_of_day current_time) * US_PER_MINUTE)%Z)
    by (apply hours_minutes_le; rewrite <- Hue; exact Hfit).
  destruct (datetime_split current_time) as (s & Ht & Hs & _ & _).
  set (q := minute_of_day current_time) in *.
  set (d := DateTime.date current_time) in *.
  set (delta := DateTime.hours driving_hours) in *.
  unfold US_PER_MINUTE, US_PER_SECOND in Hs, H1.
  pose proof (Z.div_mod (s + delta) 60000000 ltac:(lia)) as Hdm.
  pose proof (Z.mod_pos_bound (s + delta) 60000000 ltac:(lia)) as Hr.
  set (k := ((s + delta) / 60000000)%Z) in *.
  set (r := ((s + delta) mod 60000000)%Z) in *.
  assert (Hk : (0 <= k /\ q + k <= 1050)%Z) by (clearbody q d delta k r; lia).
  assert (Ea : (current_time + delta
                = d * US_PER_DAY + (q + k) * US_PER_MINUTE + r)%Z).
  { rewrite Ht. unfold US_PER_DAY, US_PER_HOUR, US_PER_MINUTE, US_PER_SECOND.
    clearbody q d delta k r. lia. }
  destruct (datetime_join d (q + k) r) as [Jd Jq];
    [clearbody q d delta k r; lia
    |unfold US_PER_MINUTE, US_PER_SECOND; exact Hr|].
  rewrite Ea, Jd. split; [|split; [|reflexivity]].
  - apply within_minutes. rewrite Jq. clearbody q d delta k r. lia.
  - rewrite <- Ea. clearbody q d delta k r. lia.
Qed.

(** The next driving day starts after the current time. *)
Lemma next_start_later (current_time : datetime) :
  (current_time
   < at_hour (at_hour current_time DRIVING_END_HOUR + DateTime.days 1)
             DRIVING_START_HOUR)%Z.
Proof.
  set (end_of_day := at_hour current_time DRIVING_END_HOUR).
  change (at_hour (end_of_day + DateTime.days 1)%Z DRIVING_START_HOUR)
    with (make (DateTime.date (end_of_day + DateTime.days 1)%Z) 7 0 0
            (DateTime.microsecond (end_of_day + DateTime.days 1)%Z)).
  destruct (day_later end_of_day) as [Hd _]. rewrite Hd.
  pose proof (microsecond_range (end_of_day + DateTime.days 1)%Z) as Hus.
  subst end_of_day.
  change (at_hour current_time DRIVING_END_HOUR)
    with (make (DateTime.date current_time) 17 30 0
            (DateTime.microsecond current_time)).
  destruct (make_fields (DateTime.date current_time) 17 30 0
              (DateTime.microsecond current_time)) as (Hdate & _);
    try lia; [apply microsecond_range|].
  rewrite Hdate.
  destruct (datetime_split current_time) as (s & Ht & Hs & Hq & _).
  set (us := DateTime.microsecond _) in *.
  set (q := minute_of_day current_time) in *.
  set (d := DateTime.date current_time) in *.
  unfold make, US_PER_DAY, US_PER_HOUR, US_PER_MINUTE, US_PER_SECOND in *.
  clearbody us q d. lia.
Qed.

(** X12. [calculate_time_restricted_arrival] respects the driving hours:
    for a positive number of driving hours, the arrival it returns has its
    fractional hour in [7, 17.5] and is not earlier than the start; for no
    driving hours (or fewer) it returns the start unchanged, wherever in the
    day that is. *)
Theorem arrival_in_driving_hours (depth : nat) (start_time : datetime)
    (driving_hours : Q) (arrival : datetime) :
  calculate_time_restricted_arrival depth start_time driving_hours
  = Ok arrival ->
  (driving_hours <= 0 /\ arrival = start_time)
  \/ (0 < driving_hours
      /\ is_within_driving_hours arrival = true
      /\ (start_time <= arrival)%Z).
Proof.
  revert start_time driving_hours.
  induction depth as [|depth IH]; intros start_time driving_hours Ha;
    [discriminate Ha|].
  cbn [calculate_time_restricted_arrival] in Ha.
  destruct (Qle_bool driving_hours 0) eqn:E0; qbool.
  - left. inversion Ha. split; [exact E0 | reflexivity].
  - right. split; [exact E0|].
    destruct (next_driving_start_time_range start_time) as [R1 R2].
    pose proof (next_driving_start_time_not_before start_time) as Hle.
    set (current_time := next_driving_start_time start_time) in *.
    assert (Hq : (420 <= minute_of_day current_time < 1050)%Z).
    { split.
      - apply (hour_frac_le current_time 420).
        change (inject_Z 420 / 60) with (420 / 60). qlra.
      - apply (hour_frac_lt current_time 1050).
        change (inject_Z 1050 / 60) with (1050 / 60). qlra. }
    destruct (Qle_bool driving_hours
                (calculate_hours_until_end_of_driving_day current_time))
      eqn:E1; qbool.
    + inversion Ha as [Ea].
      destruct (arrival_same_day current_time driving_hours Hq E0 E1)
        as (Hw & Hlater & _).
      split; [exact Hw | lia].
    + apply IH in Ha.
      pose proof (next_start_later current_time) as Hnext.
      destruct Ha as [[Hneg _]|(_ & Hw & Hlater)]; [lra|].
      split; [exact Hw | lia].
Qed.

(** X13. [align_break_time] only ever pushes a break later: a break whose
    fractional hour is in [12, 14) is moved to 14:00 of the same day, any
    other break is left where it is; so the result is never earlier than
    the break, at most two hours later, and on the same date. *)
Theorem align_break_time_later (break_time : datetime) :
  let aligned := align_break_time break_time in
  ((12 <= hour_frac break_time /\ hour_frac break_time < 14
    /\ aligned = make (DateTime.date break_time) 14 0 0 0)
   \/ ((hour_frac break_time < 12 \/ 14 <= hour_frac break_time)
       /\ aligned = break_time))
  /\ (break_time <= aligned <= break_time + DateTime.hours 2)%Z
  /\ DateTime.date aligned = DateTime.date break_time.
Proof.
  cbv zeta.
  assert (Htarget : (DateTime.day_start break_time
                     + DateTime.hours PREFERRED_BREAK_HOUR)%Z
                    = make (DateTime.date break_time) 14 0 0 0).
  { assert (E : DateTime.hours PREFERRED_BREAK_HOUR = 50400000000%Z)
      by (vm_compute; reflexivity).
    rewrite E. unfold DateTime.day_start, make, US_PER_DAY, US_PER_HOUR,
                 US_PER_MINUTE, US_PER_SECOND. lia. }
  destruct (make_minutes (DateTime.date break_time) 14 0 0) as [Hd Hm];
    try lia.
  assert (Hw : is_within_driving_hours
                 (make (DateTime.date break_time) 14 0 0 0) = true)
    by (apply within_minutes; rewrite Hm; lia).
  assert (Hcases :
    (12 <= hour_frac break_time /\ hour_frac break_time < 14
     /\ align_break_time break_time
        = make (DateTime.date break_time) 14 0 0 0)
    \/ ((hour_frac break_time < 12 \/ 14 <= hour_frac break_time)
        /\ align_break_time break_time = break_time)).
  { unfold align_break_time. rewrite Htarget, Hw.
    unfold PREFERRED_BREAK_HOUR.
    destruct (Qlt_bool 14.0 (hour_frac break_time)) eqn:E1; qbool.
    - right. split; [right; lra | reflexivity].
    - destruct (Qle_bool 12.0 (hour_frac break_time)) eqn:E2;
        destruct (Qlt_bool (hour_frac break_time) 14.0) eqn:E3;
        cbn [andb]; qbool.
      + left. repeat split; first [lra | reflexivity].
      + right. split; [right; lra | reflexivity].
      + right. split; [left; lra | reflexivity].
      + right. split; [left; lra | reflexivity]. }
  split; [exact Hcases|].
  assert (Hhours : DateTime.hours 2 = 7200000000%Z)
    by (vm_compute; reflexivity).
  rewrite Hhours.
  destruct Hcases as [(H12 & H14 & E)|[_ E]]; rewrite E;
    [|split; [lia | reflexivity]].
  rewrite Hd. split; [|reflexivity].
  assert (H12' : inject_Z 720 / 60 <= hour_frac break_time)
    by (change (inject_Z 720) with 720; qlra).
  assert (H14' : hour_frac break_time < inject_Z 840 / 60)
    by (change (inject_Z 840) with 840; qlra).
  apply hour_frac_le in H12'. apply hour_frac_lt in H14'.
  destruct (datetime_split break_time) as (s & Ht & Hs & _ & _).
  set (q := minute_of_day break_time) in *.
  set (d := DateTime.date break_time) in *.
  unfold make, US_PER_DAY, US_PER_HOUR, US_PER_MINUTE, US_PER_SECOND in *.
  clearbody q d. lia.
Qed.

End Arrival.

(** ** The planner: the stops and the fuel countdown of a leg *)

Section Ledger.

Import Py stop_generator.

Local Abbreviation hours_until_end :=
  calculate_hours_until_end_of_driving_day.
Local Abbreviation hours_since_break := hours_of_driving_since_last_break.

Ltac plan_fields :=
  cbn [append set_current_timestamp set_hours_since_break set_days_on_road
       set_miles_to_next_fuel set_remaining_drive set_segment_position
       take_break stops current_timestamp current_position
       miles_since_last_fuel hours_of_driving_since_last_break days_on_road
       miles_to_next_fuel remaining_drive segment_position] in *.

(** The stops that the drive loop plans on its own. *)
Definition passive (s : Stop) : bool :=
  existsb (String.eqb (type s)) ["off-duty"; "overnight"; "rest"; "fuel"].

(** The number of fuel stops of a list. *)
Definition fuel_stops (l : list Stop) : Z :=
  Z.of_nat (List.length (filter is_fuel l)).

(** What one or more iterations of the drive loop do to the stop list, to
    the position in the leg and to the countdown to the next fuel stop. *)
Record ledger (p p' : Plan) (added : list Stop) : Prop := {
  ledger_stops : stops p' = (stops p ++ added)%list;
  ledger_passive : Forall (fun s => passive s = true) added;
  ledger_position :
    segment_position p' + 60 * remaining_drive p'
    == segment_position p + 60 * remaining_drive p;
  ledger_countdown :
    miles_to_next_fuel p' - 60 * remaining_drive p'
    == miles_to_next_fuel p - 60 * remaining_drive p
       + 500 * inject_Z (fuel_stops added);
  ledger_positive : 0 < miles_to_next_fuel p -> 0 < miles_to_next_fuel p';
  ledger_spent :
    miles_to_next_fuel p <= 0 ->
    miles_to_next_fuel p' <= 0 /\ fuel_stops added = 0%Z;
  ledger_capped : miles_to_next_fuel p <= 500 -> miles_to_next_fuel p' <= 500;
  ledger_remaining : 0 <= remaining_drive p -> 0 <= remaining_drive p';
  ledger_leg :
    current_position p' = current_position p
    /\ miles_since_last_fuel p' = miles_since_last_fuel p
}.

Lemma ledger_refl (p : Plan) : ledger p p [].
Proof.
  constructor.
  - symmetry. apply app_nil_r.
  - constructor.
  - reflexivity.
  - change (fuel_stops []) with 0%Z. change (inject_Z 0) with 0. ring.
  - intros H. exact H.
  - intros H. split; [exact H | reflexivity].
  - intros H. exact H.
  - intros H. exact H.
  - split; reflexivity.
Qed.

Lemma fuel_stops_app (a b : list Stop) :
  fuel_stops (a ++ b) = (fuel_stops a + fuel_stops b)%Z.
Proof.
  unfold fuel_stops. rewrite filter_app, length_app. lia.
Qed.

Lemma ledger_trans (p q r : Plan) (a b : list Stop) :
  ledger p q a -> ledger q r b -> ledger p r (a ++ b).
Proof.
  intros [A1 A2 A3 A4 A5 A6 A7 A8 [A9 A10]] [B1 B2 B3 B4 B5 B6 B7 B8 [B9 B10]].
  constructor.
  - rewrite B1, A1. symmetry. apply app_assoc.
  - apply Forall_app. split; assumption.
  - rewrite B3. exact A3.
  - rewrite B4, A4, fuel_stops_app, inject_Z_plus. ring.
  - auto.
  - intros H. destruct (A6 H) as [H1 H2]. destruct (B6 H1) as [H3 H4].
    split; [exact H3|]. rewrite fuel_stops_app. lia.
  - auto.
  - auto.
  - split; congruence.
Qed.

End Ledger.

Section LedgerStep.

Import Py stop_generator.

Local Abbreviation hours_until_end :=
  calculate_hours_until_end_of_driving_day.
Local Abbreviation hours_since_break := hours_of_driving_since_last_break.

Ltac plan_fields :=
  cbn [append set_current_timestamp set_hours_since_break set_days_on_road
       set_miles_to_next_fuel set_remaining_drive set_segment_position
       take_break stops current_timestamp current_position
       miles_since_last_fuel hours_of_driving_since_last_break days_on_road
       miles_to_next_fuel remaining_drive segment_position] in *.

(** An iteration, or a part of one, that neither drives nor refuels. *)
Lemma ledger_idle (p p' : Plan) (added : list Stop) :
  stops p' = (stops p ++ added)%list ->
  Forall (fun s => passive s = true) added ->
  fuel_stops added = 0%Z ->
  remaining_drive p' = remaining_drive p ->
  miles_to_next_fuel p' = miles_to_next_fuel p ->
  segment_position p' = segment_position p ->
  current_position p' = current_position p ->
  miles_since_last_fuel p' = miles_since_last_fuel p ->
  ledger p p' added.
Proof.
  intros H1 H2 H3 H4 H5 H6 H7 H8.
  constructor; rewrite ?H3, ?H4, ?H5, ?H6; try assumption.
  - reflexivity.
  - change (inject_Z 0) with 0. ring.
  - intros H. exact H.
  - intros H. split; [exact H | reflexivity].
  - intros H. exact H.
  - intros H. exact H.
  - split; assumption.
Qed.

Lemma early_morning_rest_ledger (c : Coord) (p : Plan) :
  exists added, ledger p (early_morning_rest c p) added.
Proof.
  destruct (early_morning_rest_fields c p) as (F1 & F2 & F3 & F4 & F5 & _).
  unfold early_morning_rest in *.
  destruct (Qlt_bool (hour_frac (current_timestamp p)) SLEEPER_END_HOUR);
    plan_fields.
  - eexists. apply ledger_idle; plan_fields;
      first [reflexivity | (repeat constructor)].
  - exists []. apply ledger_idle; plan_fields;
      first [symmetry; apply app_nil_r | reflexivity | constructor].
Qed.

Lemma take_break_ledger (text : string) (c : Coord) (t : datetime) (p : Plan) :
  exists added, ledger p (take_break text c t p) added.
Proof.
  eexists. apply ledger_idle; plan_fields;
    first [reflexivity | (repeat constructor)].
Qed.


(** What an iteration that returns has done. *)
Definition step_ledger (p : Plan) (r : outcome Plan) : Prop :=
  match r with
  | Ok p' => exists added, ledger p p' added
  | _ => True
  end.

Lemma step_ledger_bind (A : Type) (p : Plan) (m : outcome A)
    (k : A -> outcome Plan) :
  (forall a, step_ledger p (k a)) -> step_ledger p (bind m k).
Proof.
  intros H. destruct m as [a| |]; [apply H | exact I | exact I].
Qed.

Lemma drive_step_ledger_of (route : route_calculator.CombinedRoute)
    (p : Plan) :
  step_ledger p (drive_step route p).
Proof.
  unfold drive_step. cbv zeta.
  destruct (hours_until_end_bounds (current_timestamp p)) as [Hue0 _].
  set (hue := hours_until_end (current_timestamp p)) in *.
  destruct (Qle_bool hue 0) eqn:E1.
  { (* overnight *)
    apply step_ledger_bind. intros percent. unfold step_ledger.
    match goal with
    | |- exists added, ledger p (early_morning_rest ?c ?q) added =>
        destruct (early_morning_rest_ledger c q) as [added2 L2];
        assert (L1 : exists added1, ledger p q added1)
    end.
    { destruct (andb _ _); eexists; apply ledger_idle; plan_fields;
        first [reflexivity | rewrite <- app_assoc; reflexivity
              | (repeat constructor)]. }
    destruct L1 as [added1 L1]. eexists.
    exact (ledger_trans _ _ _ _ _ L1 L2). }
  destruct (Qle_bool 8 (hours_since_break p)) eqn:E2.
  { apply step_ledger_bind. intros percent. apply take_break_ledger. }
  qbool.
  set (hlb := Qmax 0 (8 - hours_since_break p)) in *.
  set (d := Qmin (Qmin (remaining_drive p) hue) hlb) in *.
  assert (Hhlb : hlb == 8 - hours_since_break p)
    by (apply Q.max_r; lra).
  assert (Hd_rem : d <= remaining_drive p).
  { subst d. eapply Qle_trans; [apply Q.le_min_l | apply Q.le_min_l]. }
  assert (Hd_hlb : d <= 8 - hours_since_break p).
  { rewrite <- Hhlb. subst d. apply Q.le_min_r. }
  clearbody d hlb hue.
  destruct (Qle_bool d 0) eqn:E3.
  { apply step_ledger_bind. intros percent. apply take_break_ledger. }
  qbool. unfold AVG_SPEED_MPH, FUEL_STOP_INTERVAL.
  destruct (andb (Qle_bool (miles_to_next_fuel p) (d * 60))
                 (Qlt_bool 0 (miles_to_next_fuel p))) eqn:E4.
  { (* fuel *)
    qbool.
    apply step_ledger_bind. intros percent.
    apply step_ledger_bind. intros coordinates'.
    apply step_ledger_bind. intros arrival.
    plan_fields.
    destruct (Qle_bool 7 (hours_since_break p + miles_to_next_fuel p / 60));
      unfold step_ledger; eexists;
      (constructor; plan_fields;
       [ first [reflexivity | rewrite <- app_assoc; reflexivity]
       | repeat constructor
       | qlra
       | match goal with
         | |- context [fuel_stops ?l] =>
             change (fuel_stops l) with 1%Z; change (inject_Z 1) with 1
         end; qlra
       | intros _; lra
       | intros Hc; lra
       | intros _; lra
       | intros Hc; qlra
       | split; reflexivity ]). }
  assert (Hfuel : miles_to_next_fuel p <= 0
                  \/ d * 60 < miles_to_next_fuel p).
  { apply andb_false_iff in E4. destruct E4 as [E4|E4]; qbool;
      [right | left]; assumption. }
  clear E4.
  destruct (andb (Qle_bool 8 (hours_since_break p + d))
                 (Qlt_bool 0 (8 - hours_since_break p))) eqn:E5.
  { (* break during the segment *)
    qbool.
    apply step_ledger_bind. intros percent.
    apply step_ledger_bind. intros coordinates'.
    apply step_ledger_bind. intros arrival.
    unfold step_ledger. eexists.
    constructor; plan_fields.
    - reflexivity.
    - repeat constructor.
    - ring.
    - match goal with
      | |- context [fuel_stops ?l] =>
          change (fuel_stops l) with 0%Z; change (inject_Z 0) with 0
      end. ring.
    - intros Hc. lra.
    - intros Hc. split; [lra | reflexivity].
    - intros Hc. lra.
    - intros Hc. lra.
    - split; reflexivity. }
  (* drive *)
  clear E5.
  apply step_ledger_bind. intros arrival.
  plan_fields.
  assert (L1 : ledger p
                 (set_hours_since_break (hours_since_break p + d)
                    (set_miles_to_next_fuel (miles_to_next_fuel p - d * 60)
                       (set_remaining_drive (remaining_drive p - d)
                          (set_current_timestamp arrival
                             (set_segment_position
                                (segment_position p + d * 60) p)))))
                 []).
  { constructor; plan_fields.
    - symmetry. apply app_nil_r.
    - constructor.
    - ring.
    - change (fuel_stops []) with 0%Z. change (inject_Z 0) with 0. ring.
    - intros Hc. lra.
    - intros Hc. split; [lra | reflexivity].
    - intros Hc. lra.
    - intros Hc. lra.
    - split; reflexivity. }
  destruct (andb (Qle_bool (hours_until_end arrival) 0)
                 (Qlt_bool 0 (remaining_drive p - d))).
  - apply step_ledger_bind. intros coordinates'. unfold step_ledger.
    match goal with
    | |- exists added, ledger p (early_morning_rest ?c ?q) added =>
        destruct (early_morning_rest_ledger c q) as [added2 L2];
        assert (L3 : exists added3,
                       ledger (set_hours_since_break (hours_since_break p + d)
                    (set_miles_to_next_fuel (miles_to_next_fuel p - d * 60)
                       (set_remaining_drive (remaining_drive p - d)
                          (set_current_timestamp arrival
                             (set_segment_position
                                (segment_position p + d * 60) p))))) q added3)
    end.
    { eexists. apply ledger_idle; plan_fields;
        first [reflexivity | rewrite <- app_assoc; reflexivity
              | (repeat constructor)]. }
    destruct L3 as [added3 L3]. eexists.
    exact (ledger_trans _ _ _ _ _ (ledger_trans _ _ _ _ _ L1 L3) L2).
  - exists []. exact L1.
Qed.

Lemma drive_step_ledger (route : route_calculator.CombinedRoute)
    (p p' : Plan) :
  drive_step route p = Ok p' -> exists added, ledger p p' added.
Proof.
  intros H. pose proof (drive_step_ledger_of route p) as L.
  rewrite H in L. exact L.
Qed.

End LedgerStep.

Section LedgerLoop.

Import Py stop_generator.

Ltac plan_fields :=
  cbn [append set_current_timestamp set_hours_since_break set_days_on_road
       set_miles_to_next_fuel set_remaining_drive set_segment_position
       take_break stops current_timestamp current_position
       miles_since_last_fuel hours_of_driving_since_last_break days_on_road
       miles_to_next_fuel remaining_drive segment_position] in *.

Lemma drive_loop_ledger (fuel : nat) (route : route_calculator.CombinedRoute) :
  forall p p' : Plan,
    drive_loop fuel route p = Ok p' ->
    exists added, ledger p p' added /\ remaining_drive p' <= 0.
Proof.
  induction fuel as [|fuel IH]; intros p p' H; [discriminate H|].
  cbn [drive_loop] in H.
  destruct (Qlt_bool 0 (remaining_drive p)) eqn:E; qbool.
  - destruct (drive_step route p) as [q| |] eqn:Estep; cbn [bind] in H;
      try discriminate H.
    destruct (drive_step_ledger route p q Estep) as [added1 L1].
    destruct (IH q p' H) as (added2 & L2 & Hrem).
    exists (added1 ++ added2)%list.
    split; [exact (ledger_trans _ _ _ _ _ L1 L2) | exact Hrem].
  - inversion H; subst p'. exists []. split; [apply ledger_refl | exact E].
Qed.

Lemma Qfloor_unique (x : Q) (n : Z) :
  inject_Z n <= x -> x < inject_Z (n + 1) -> Qfloor x = n.
Proof.
  intros Hlo Hhi.
  pose proof (Qfloor_le x) as Flo. pose proof (Qlt_floor x) as Fhi.
  assert (H1 : inject_Z (Qfloor x) < inject_Z (n + 1)) by lra.
  assert (H2 : inject_Z n < inject_Z (Qfloor x + 1)) by lra.
  rewrite <- Zlt_Qlt in H1, H2. lia.
Qed.

(** The fuel stops of a whole leg, from the countdown it starts with. *)
Lemma ledger_fuel_count (p p' : Plan) (added : list Stop) :
  ledger p p' added ->
  remaining_drive p' <= 0 ->
  0 <= remaining_drive p ->
  miles_to_next_fuel p <= 500 ->
  fuel_stops added
  = if Qle_bool (miles_to_next_fuel p) 0 then 0%Z
    else Qfloor ((60 * remaining_drive p + 500 - miles_to_next_fuel p) / 500).
Proof.
  intros L Hend Hrem Hcap.
  destruct L as [_ _ _ L4 L5 L6 L7 L8 _].
  specialize (L8 Hrem). specialize (L7 Hcap).
  destruct (Qle_bool (miles_to_next_fuel p) 0) eqn:E; qbool.
  - apply L6. exact E.
  - specialize (L5 E). symmetry. apply Qfloor_unique.
    + set (n := inject_Z (fuel_stops added)) in *. clearbody n.
      apply Qle_shift_div_l; lra.
    + rewrite inject_Z_plus. change (inject_Z 1) with 1.
      set (n := inject_Z (fuel_stops added)) in *. clearbody n.
      apply Qlt_shift_div_r; lra.
Qed.

(** The stops that end a leg. *)
Definition is_destination (s : Stop) : bool :=
  existsb (String.eqb (type s)) ["pickup"; "dropoff"; "waypoint"].

(** The type of the stop that ends the leg to [locations[i]]. *)
Definition destination_type (number_of_locations i : Z) : string :=
  if (i =? 1)%Z then "pickup"
  else if (i =? number_of_locations - 1)%Z then "dropoff" else "waypoint".

Section World.

Variable world : Type.
Variable get_location_name : Coord -> world -> outcome string * world.

Local Abbreviation leg := (stop_generator.leg world get_location_name).

(** What a leg adds to the plan. *)
Lemma leg_ledger (fuel : nat) (route : route_calculator.CombinedRoute)
    (number_of_locations i : Z) (location : Location) (p p' : Plan)
    (w w' : world) :
  leg fuel route number_of_locations i location p w = (Ok p', w') ->
  exists next_position added terminal,
    next_position
    = route_calculator.distance route
      * (inject_Z i / inject_Z (number_of_locations - 1))
    /\ stops p' = (stops p ++ added ++ [terminal])%list
    /\ Forall (fun s => passive s = true) added
    /\ type terminal = destination_type number_of_locations i
    /\ coordinates terminal = (lng location, lat location)
    /\ current_position p' = next_position
    /\ miles_since_last_fuel p'
       = miles_since_last_fuel p + (next_position - current_position p)
    /\ (current_position p <= next_position ->
        0 <= miles_since_last_fuel p ->
        fuel_stops added
        = if Qle_bool 500 (miles_since_last_fuel p) then 0%Z
          else Qfloor ((miles_since_last_fuel p
                        + (next_position - current_position p)) / 500)).
Proof.
  intros H. unfold stop_generator.leg in H.
  unfold div in H.
  destruct (Qeq_bool (inject_Z (number_of_locations - 1)) 0);
    [inversion H|].
  cbv zeta in H.
  set (next_position :=
         route_calculator.distance route
         * (inject_Z i / inject_Z (number_of_locations - 1))) in *.
  set (q := set_segment_position _ _) in H.
  destruct (drive_loop fuel route q) as [q'| |] eqn:Eloop;
    try (inversion H; fail).
  destruct (drive_loop_ledger fuel route q q' Eloop) as (added & L & Hend).
  pose proof (ledger_fuel_count q q' added L Hend) as Hcount.
  destruct L as [L1 L2 _ _ _ _ _ _ [L9 L10]].
  subst q. plan_fields.
  unfold destination_type.
  exists next_position, added.
  assert (Hfuel : current_position p <= next_position ->
                  0 <= miles_since_last_fuel p ->
                  fuel_stops added
                  = if Qle_bool 500 (miles_since_last_fuel p) then 0%Z
                    else Qfloor ((miles_since_last_fuel p
                                  + (next_position - current_position p))
                                 / 500)).
  { intros Hpos Hmsf. rewrite Hcount.
    - unfold FUEL_STOP_INTERVAL, AVG_SPEED_MPH.
      destruct (Qle_bool (500 - miles_since_last_fuel p) 0) eqn:E1;
        destruct (Qle_bool 500 (miles_since_last_fuel p)) eqn:E2; qbool;
        try reflexivity; try lra.
      apply Qfloor_comp. field.
    - unfold AVG_SPEED_MPH. apply Qle_shift_div_l; lra.
    - unfold FUEL_STOP_INTERVAL. lra. }
  destruct (i =? 1)%Z; [|destruct (i =? number_of_locations - 1)%Z];
    destruct (get_location_name (lng location, lat location) w)
      as [looked_up w''];
    inversion H; subst p'; clear H; plan_fields;
    (eexists; split; [reflexivity|];
     split; [rewrite L1, <- app_assoc; reflexivity|];
     split; [exact L2|];
     split; [reflexivity|]; split; [reflexivity|];
     split; [reflexivity|];
     split; [rewrite L10; reflexivity | exact Hfuel]).
Qed.

End World.

End LedgerLoop.

(** ** The planner: the stops of a trip *)

Section PlannedStops.

Import Py stop_generator.

Ltac plan_fields :=
  cbn [append set_current_timestamp set_hours_since_break set_days_on_road
       set_miles_to_next_fuel set_remaining_drive set_segment_position
       take_break stops current_timestamp current_position
       miles_since_last_fuel hours_of_driving_since_last_break days_on_road
       miles_to_next_fuel remaining_drive segment_position] in *.

(** The destinations of a trip with the type of their stops, in the order
    of the legs. *)
Fixpoint destination_stops (number_of_locations i : Z)
    (destinations : list Location) : list (string * Coord) :=
  match destinations with
  | [] => []
  | location :: rest =>
      (destination_type number_of_locations i, (lng location, lat location))
      :: destination_stops number_of_locations (i + 1) rest
  end.

Definition type_and_place (s : Stop) : string * Coord :=
  (type s, coordinates s).

(** The stops planned before the first leg, after the start itself. *)
Definition preparation (s : Stop) : bool :=
  existsb (String.eqb (type s)) ["off-duty"; "pretrip"].

Lemma passive_types (s : Stop) :
  passive s = true ->
  is_destination s = false /\ String.eqb (type s) "start" = false
  /\ eld_log_generator.type_in (type s)
       ["overnight"; "off-duty"; "rest"; "pretrip"; "pickup"; "dropoff";
        "waypoint"; "fuel"; "start"] = true.
Proof.
  unfold passive, is_destination, eld_log_generator.type_in.
  cbn [existsb]. intros H.
  repeat (apply orb_true_iff in H; destruct H as [H|H]);
    try discriminate H;
    apply String.eqb_eq in H; rewrite H; repeat split.
Qed.

Lemma destination_types (number_of_locations i : Z) (s : Stop) :
  type s = destination_type number_of_locations i ->
  is_destination s = true /\ String.eqb (type s) "start" = false
  /\ passive s = false
  /\ eld_log_generator.type_in (type s)
       ["overnight"; "off-duty"; "rest"; "pretrip"; "pickup"; "dropoff";
        "waypoint"; "fuel"; "start"] = true.
Proof.
  unfold destination_type, is_destination, passive,
    eld_log_generator.type_in. intros H. rewrite H.
  destruct (i =? 1)%Z; [|destruct (i =? number_of_locations - 1)%Z];
    repeat split.
Qed.

Lemma preparation_types (s : Stop) :
  preparation s = true ->
  is_destination s = false /\ String.eqb (type s) "start" = false
  /\ is_fuel s = false
  /\ eld_log_generator.type_in (type s)
       ["overnight"; "off-duty"; "rest"; "pretrip"; "pickup"; "dropoff";
        "waypoint"; "fuel"; "start"] = true.
Proof.
  unfold preparation, is_destination, is_fuel, eld_log_generator.type_in.
  cbn [existsb]. intros H.
  repeat (apply orb_true_iff in H; destruct H as [H|H]);
    try discriminate H;
    apply String.eqb_eq in H; rewrite H; repeat split.
Qed.

(** The stops of a plan after its first one: stops of the drive loop and
    destinations, the destinations being those of the list. *)
Record itinerary (number_of_locations i : Z) (destinations : list Location)
    (added : list Stop) : Prop := {
  itinerary_types :
    Forall (fun s => passive s = true \/ is_destination s = true) added;
  itinerary_destinations :
    map type_and_place (filter is_destination added)
    = destination_stops number_of_locations i destinations
}.

Lemma filter_passive (added : list Stop) :
  Forall (fun s => passive s = true) added ->
  filter is_destination added = [].
Proof.
  induction 1 as [|s l Hs _ IH]; [reflexivity|].
  cbn [filter]. destruct (passive_types s Hs) as [E _]. rewrite E. exact IH.
Qed.

Section World.

Variable world : Type.
Variable get_location_name : Coord -> world -> outcome string * world.

Local Abbreviation legs := (stop_generator.legs world get_location_name).
Local Abbreviation plan_trip :=
  (stop_generator.plan_trip world get_location_name).
Local Abbreviation generate_stops :=
  (stop_generator.generate_stops world get_location_name).

Lemma legs_itinerary (fuel : nat) (route : route_calculator.CombinedRoute)
    (number_of_locations : Z) (destinations : list Location) :
  forall (i : Z) (p p' : Plan) (w w' : world),
    legs fuel route number_of_locations i destinations p w = (Ok p', w') ->
    exists added,
      stops p' = (stops p ++ added)%list
      /\ itinerary number_of_locations i destinations added.
Proof.
  induction destinations as [|location rest IH]; intros i p p' w w' H.
  - inversion H; subst. exists []. split; [symmetry; apply app_nil_r|].
    constructor; [constructor | reflexivity].
  - cbn [stop_generator.legs] in H.
    destruct (stop_generator.leg world get_location_name fuel route
                number_of_locations i location p w) as [[q| |] w1] eqn:Eleg;
      try (inversion H; fail).
    destruct (leg_ledger world get_location_name fuel route
                number_of_locations i location p q w w1 Eleg)
      as (next_position & added1 & terminal & _ & Hstops & Hpassive & Hty
          & Hco & _).
    destruct (IH (i + 1)%Z q p' w1 w' H) as (added2 & Hstops2 & [T2 D2]).
    destruct (destination_types number_of_locations i terminal Hty)
      as (Hdest & _).
    exists ((added1 ++ [terminal]) ++ added2)%list. split.
    + rewrite Hstops2, Hstops. rewrite <- !app_assoc. reflexivity.
    + constructor.
      * apply Forall_app. split; [|exact T2].
        apply Forall_app. split.
        -- eapply Forall_impl; [|exact Hpassive]. intros s Hs. left. exact Hs.
        -- constructor; [right; exact Hdest | constructor].
      * rewrite !filter_app, (filter_passive added1 Hpassive).
        cbn [filter app]. rewrite Hdest. cbn [map app].
        unfold type_and_place at 1. rewrite Hty, Hco, D2. reflexivity.
Qed.

(** The stops before the first leg: the start, then at most an off-duty
    stop and a pre-trip inspection. *)
Lemma start_of_trip_stops (origin : Location) (start_time : datetime)
    (current_cycle_used : Q) :
  exists rest,
    stops (start_of_trip origin start_time current_cycle_used)
    = {| type := "start";
         name := "Starting Location";
         coordinates := (lng origin, lat origin);
         duration := "0 hours";
         estimatedArrival := start_time |} :: rest
    /\ Forall (fun s => preparation s = true) rest.
Proof.
  unfold start_of_trip. cbv zeta.
  repeat match goal with
  | |- context [if ?c then _ else _] => destruct c
  end; plan_fields; eexists; (split; [reflexivity|]); repeat constructor.
Qed.

End World.

End PlannedStops.

Section TripTheorems.

Import Py stop_generator.

Ltac plan_fields :=
  cbn [append set_current_timestamp set_hours_since_break set_days_on_road
       set_miles_to_next_fuel set_remaining_drive set_segment_position
       take_break stops current_timestamp current_position
       miles_since_last_fuel hours_of_driving_since_last_break days_on_road
       miles_to_next_fuel remaining_drive segment_position] in *.

Lemma stop_leb_total (a b : Stop) :
  stop_leb a b = false -> stop_leb b a = true.
Proof. unfold stop_leb. intros H. apply Z.leb_gt in H. apply Z.leb_le. lia. Qed.

Lemma fuel_stops_perm (l l' : list Stop) :
  Permutation l l' -> fuel_stops l = fuel_stops l'.
Proof.
  unfold fuel_stops.
  induction 1 as [|x l l' _ IH|x y l|l l' l'' _ IH1 _ IH2];
    cbn [filter]; try reflexivity.
  - destruct (is_fuel x); cbn [List.length]; lia.
  - destruct (is_fuel x); destruct (is_fuel y); reflexivity.
  - lia.
Qed.

Lemma fuel_stops_none (l : list Stop) :
  Forall (fun s => is_fuel s = false) l -> fuel_stops l = 0%Z.
Proof.
  unfold fuel_stops. induction 1 as [|s l Hs _ IH]; [reflexivity|].
  cbn [filter]. rewrite Hs. exact IH.
Qed.

Variable world : Type.
Variable get_location_name : Coord -> world -> outcome string * world.

Local Abbreviation leg := (stop_generator.leg world get_location_name).
Local Abbreviation generate_stops :=
  (stop_generator.generate_stops world get_location_name).

(** Every stop of a planned trip has a type that the log generator
    knows. *)
Lemma planned_types (fuel : nat) (route : route_calculator.CombinedRoute)
    (locations : list Location) (start_time : datetime)
    (current_cycle_used : Q) (w w' : world) (result : list Stop) :
  generate_stops fuel route locations start_time current_cycle_used w
  = (Ok result, w') ->
  Forall (fun s => logged_type (type s) = true) result.
Proof.
  intros H. unfold stop_generator.generate_stops in H.
  destruct (stop_generator.plan_trip world get_location_name fuel route
              locations start_time current_cycle_used w)
    as [[p| |] w1] eqn:Eplan; inversion H; subst result w1; clear H.
  unfold stop_generator.plan_trip in Eplan.
  destruct locations as [|origin destinations]; [inversion Eplan|].
  destruct (legs_itinerary world get_location_name fuel route _ destinations
              1 _ p w w' Eplan) as (added & Hstops & [T D]).
  destruct (start_of_trip_stops origin start_time current_cycle_used)
    as (prep & Hstart & Hprep).
  rewrite Hstart in Hstops. cbn [app] in Hstops.
  assert (Hperm : Permutation (stable_sort stop_leb (stops p)) (stops p))
    by apply stable_sort_perm.
  apply Forall_forall. intros s Hs.
  apply (Permutation_in _ Hperm) in Hs. rewrite Hstops in Hs.
  destruct Hs as [<-|Hs]; [reflexivity|].
  apply in_app_or in Hs. destruct Hs as [Hs|Hs].
  - rewrite Forall_forall in Hprep.
    apply (preparation_types s (Hprep s Hs)).
  - rewrite Forall_forall in T. destruct (T s Hs) as [Hp|Hd].
    + apply (passive_types s Hp).
    + unfold is_destination in Hd. cbn [existsb] in Hd.
      repeat (apply orb_true_iff in Hd; destruct Hd as [Hd|Hd]);
        try discriminate Hd;
        apply String.eqb_eq in Hd; unfold logged_type; rewrite Hd;
        reflexivity.
Qed.

(** X14. The stop list of a trip.  Whenever [generate_stops] returns, the
    list is in ascending order of [estimatedArrival] and is a rearrangement
    of the stops in the order they were planned: first the one ["start"]
    stop, at the start time and at the first location; then stops of the
    drive loop (off-duty, overnight, rest, fuel), the preparation stops
    (off-duty, pretrip) and, for each further location in order, exactly one
    stop at its coordinates: a pickup for the second location, a dropoff for
    the last one when there are three or more, a waypoint for the others.
    Every stop has a type that [generate_eld_logs] knows. *)
Theorem planned_stops (fuel : nat) (route : route_calculator.CombinedRoute)
    (locations : list Location) (start_time : datetime)
    (current_cycle_used : Q) (w w' : world) (result : list Stop) :
  generate_stops fuel route locations start_time current_cycle_used w
  = (Ok result, w') ->
  exists origin destinations rest,
    locations = origin :: destinations
    /\ Permutation result
         ({| type := "start";
             name := "Starting Location";
             coordinates := (lng origin, lat origin);
             duration := "0 hours";
             estimatedArrival := start_time |} :: rest)
    /\ StronglySorted
         (fun a b => (estimatedArrival a <= estimatedArrival b)%Z) result
    /\ Forall (fun s => String.eqb (type s) "start" = false) rest
    /\ map type_and_place (filter is_destination rest)
       = destination_stops (Z.of_nat (List.length locations)) 1 destinations
    /\ Forall (fun s => logged_type (type s) = true) result.
Proof.
  intros H.
  pose proof (planned_types fuel route locations start_time
                current_cycle_used w w' result H) as Hknown.
  unfold stop_generator.generate_stops in H.
  destruct (stop_generator.plan_trip world get_location_name fuel route
              locations start_time current_cycle_used w)
    as [[p| |] w1] eqn:Eplan; inversion H; subst result w1; clear H.
  unfold stop_generator.plan_trip in Eplan.
  destruct locations as [|origin destinations]; [inversion Eplan|].
  destruct (legs_itinerary world get_location_name fuel route _ destinations
              1 _ p w w' Eplan) as (added & Hstops & [T D]).
  destruct (start_of_trip_stops origin start_time current_cycle_used)
    as (prep & Hstart & Hprep).
  rewrite Hstart in Hstops. cbn [app] in Hstops.
  exists origin, destinations, (prep ++ added)%list.
  assert (Hperm : Permutation (stable_sort stop_leb (stops p)) (stops p))
    by apply stable_sort_perm.
  split; [reflexivity|].
  split; [rewrite <- Hstops; exact Hperm|].
  split.
  { apply Sorted_StronglySorted; [intros a b c; lia|].
    pose proof (stable_sort_sorted _ stop_leb stop_leb_total (stops p)) as Hs.
    eapply Sorted_ind
      with (P := Sorted (fun a b => (estimatedArrival a
                                     <= estimatedArrival b)%Z));
      [constructor | | exact Hs].
    intros a l _ IH Hhd. constructor; [exact IH|].
    destruct Hhd as [|b l' Hab]; constructor.
    unfold stop_leb in Hab. apply Z.leb_le. exact Hab. }
  split.
  { apply Forall_app. split.
    - eapply Forall_impl; [|exact Hprep]. intros s Hs.
      apply (preparation_types s Hs).
    - eapply Forall_impl; [|exact T]. intros s [Hs|Hs].
      + apply (passive_types s Hs).
      + unfold is_destination in Hs. cbn [existsb] in Hs.
        repeat (apply orb_true_iff in Hs; destruct Hs as [Hs|Hs]);
          try discriminate Hs;
          apply String.eqb_eq in Hs; rewrite Hs; reflexivity. }
  split.
  { rewrite filter_app.
    assert (E : filter is_destination prep = []).
    { clear - Hprep. induction Hprep as [|s l Hs _ IH]; [reflexivity|].
      cbn [filter]. destruct (preparation_types s Hs) as [E _].
      rewrite E. exact IH. }
    rewrite E. exact D. }
  exact Hknown.
Qed.

(** X15. The fuel stops of a leg, and the counter that is never reset.
    A leg adds its length to [miles_since_last_fuel], whatever fuel stops it
    makes.  A leg that starts with [miles_since_last_fuel] at 500 or more
    makes no fuel stop; one that starts below 500 makes
    floor((miles_since_last_fuel + leg miles) / 500) of them. *)
Theorem leg_fuel_stops (fuel : nat) (route : route_calculator.CombinedRoute)
    (number_of_locations i : Z) (location : Location) (p p' : Plan)
    (w w' : world) :
  let leg_miles :=
    route_calculator.distance route
    * (inject_Z i / inject_Z (number_of_locations - 1))
    - current_position p in
  leg fuel route number_of_locations i location p w = (Ok p', w') ->
  0 <= leg_miles ->
  0 <= miles_since_last_fuel p ->
  miles_since_last_fuel p' = miles_since_last_fuel p + leg_miles
  /\ fuel_stops (stops p')
     = (fuel_stops (stops p)
        + if Qle_bool 500 (miles_since_last_fuel p) then 0
          else Qfloor ((miles_since_last_fuel p + leg_miles) / 500))%Z.
Proof.
  intros leg_miles H Hmiles Hmsf.
  destruct (leg_ledger world get_location_name fuel route number_of_locations
              i location p p' w w' H)
    as (next_position & added & terminal & Hnext & Hstops & _ & Hty & _ & _
        & Hmsf' & Hfuel).
  subst next_position. split; [exact Hmsf'|].
  rewrite Hstops, !fuel_stops_app, Hfuel; [|subst leg_miles; lra|exact Hmsf].
  assert (E : fuel_stops [terminal] = 0%Z).
  { unfold fuel_stops, is_fuel. cbn [filter]. rewrite Hty.
    unfold destination_type.
    destruct (i =? 1)%Z; [|destruct (i =? number_of_locations - 1)%Z];
      reflexivity. }
  rewrite E. fold leg_miles. lia.
Qed.


(** X16. The fuel stops of a three-location trip, the only kind the view
    plans.  Because [miles_since_last_fuel] is never reset, fuel stops are
    planned in one leg only: a trip of 1000 miles or more gets
    floor(distance / 1000) of them, all in its first leg, and a shorter
    trip gets floor(distance / 500), that is one from 500 miles on and none
    below. *)
Theorem fuel_stops_three_locations (fuel : nat)
    (route : route_calculator.CombinedRoute) (a b c : Location)
    (start_time : datetime) (current_cycle_used : Q) (w w' : world)
    (result : list Stop) :
  generate_stops fuel route [a; b; c] start_time current_cycle_used w
  = (Ok result, w') ->
  0 <= route_calculator.distance route ->
  fuel_stops result
  = if Qle_bool 1000 (route_calculator.distance route)
    then Qfloor (route_calculator.distance route / 1000)
    else Qfloor (route_calculator.distance route / 500).
Proof.
  intros H Hdist. unfold stop_generator.generate_stops in H.
  destruct (stop_generator.plan_trip world get_location_name fuel route
              [a; b; c] start_time current_cycle_used w)
    as [[p2| |] w2] eqn:Eplan; inversion H; subst result w2; clear H.
  rewrite (fuel_stops_perm _ _ (stable_sort_perm _ stop_leb (stops p2))).
  unfold stop_generator.plan_trip in Eplan.
  change (Z.of_nat (List.length [a; b; c])) with 3%Z in Eplan.
  cbn [stop_generator.legs] in Eplan.
  set (p0 := start_of_trip a start_time current_cycle_used) in *.
  destruct (leg fuel route 3 1 b p0 w) as [[p1| |] w1] eqn:Eleg1;
    try (inversion Eplan; fail).
  change (1 + 1)%Z with 2%Z in Eplan.
  destruct (leg fuel route 3 2 c p1 w1) as [[p2'| |] w2] eqn:Eleg2;
    inversion Eplan; subst p2' w2; clear Eplan.
  destruct (start_of_trip_fields a start_time current_cycle_used)
    as [Hcur0 Hmsf0].
  destruct (start_of_trip_stops a start_time current_cycle_used)
    as (prep & Hstart & Hprep).
  fold p0 in Hcur0, Hmsf0, Hstart.
  destruct (leg_ledger world get_location_name fuel route 3 1 b p0 p1 w w1
              Eleg1)
    as (next1 & added1 & t1 & Hn1 & Hs1 & _ & Hty1 & _ & Hc1 & Hm1 & Hf1).
  destruct (leg_ledger world get_location_name fuel route 3 2 c p1 p2 w1 w'
              Eleg2)
    as (next2 & added2 & t2 & Hn2 & Hs2 & _ & Hty2 & _ & Hc2 & Hm2 & Hf2).
  change (inject_Z (3 - 1)) with 2 in Hn1, Hn2.
  change (inject_Z 1) with 1 in Hn1. change (inject_Z 2) with 2 in Hn2.
  set (total := route_calculator.distance route) in *.
  assert (E1 : next1 == total / 2) by (rewrite Hn1; field).
  assert (E2 : next2 == total) by (rewrite Hn2; field).
  rewrite Hcur0, Hmsf0 in *.
  rewrite Hc1, Hm1 in *.
  assert (F1 : fuel_stops added1 = Qfloor (total / 1000)).
  { rewrite Hf1 by qlra.
    change (Qle_bool 500 0) with false. cbv iota.
    apply Qfloor_comp. rewrite E1. field. }
  assert (F2 : fuel_stops added2
               = if Qle_bool 1000 total then 0%Z else Qfloor (total / 500)).
  { rewrite Hf2 by qlra.
    destruct (Qle_bool 500 (0 + (next1 - 0))) eqn:Ea;
      destruct (Qle_bool 1000 total) eqn:Eb; qbool;
      try reflexivity; try (exfalso; qlra).
    apply Qfloor_comp. rewrite E1, E2. field. }
  assert (T1 : fuel_stops [t1] = 0%Z)
    by (unfold fuel_stops, is_fuel; cbn [filter]; rewrite Hty1; reflexivity).
  assert (T2 : fuel_stops [t2] = 0%Z)
    by (unfold fuel_stops, is_fuel; cbn [filter]; rewrite Hty2; reflexivity).
  assert (S0 : fuel_stops (stops p0) = 0%Z).
  { rewrite Hstart. apply fuel_stops_none.
    constructor; [reflexivity|].
    eapply Forall_impl; [|exact Hprep]. intros s Hs.
    apply (preparation_types s Hs). }
  rewrite Hs2, Hs1, !fuel_stops_app, S0, T1, T2, F1, F2.
  destruct (Qle_bool 1000 total) eqn:Eb; qbool; [lia|].
  assert (Z0 : Qfloor (total / 1000) = 0%Z).
  { apply Qfloor_unique.
    - change (inject_Z 0) with 0. apply Qle_shift_div_l; lra.
    - change (inject_Z (0 + 1)) with 1. apply Qlt_shift_div_r; lra. }
  rewrite Z0. lia.
Qed.

End TripTheorems.

(** ** The planner: [plan_break_time] *)

Section BreakPlan.

Import Py stop_generator.

Variable timestamp : datetime -> Q.

(** When seven more hours end outside the driving hours, less than seven
    hours of the driving day are left. *)
Lemma late_in_the_day (current_time : datetime) :
  is_within_driving_hours (current_time + DateTime.hours 7.0)%Z = false ->
  0 <= calculate_hours_until_end_of_driving_day current_time
  /\ calculate_hours_until_end_of_driving_day current_time < 7.
Proof.
  intros Hout.
  destruct (hours_until_end_bounds current_time) as [H0 _].
  split; [exact H0|].
  destruct (hours_until_end_cases current_time) as [[H E]|[H E]];
    rewrite E; [lra|].
  assert (Hq : hour_frac current_time < inject_Z 1050 / 60)
    by (change (inject_Z 1050) with 1050; qlra).
  apply hour_frac_lt in Hq.
  assert (E7 : DateTime.hours 7.0 = (420 * US_PER_MINUTE)%Z)
    by (vm_compute; reflexivity).
  rewrite E7 in Hout.
  destruct (datetime_split current_time) as (s & Ht & Hs & Hq0 & _).
  assert (Hlate : (630 < minute_of_day current_time)%Z).
  { destruct (Z_lt_le_dec 630 (minute_of_day current_time)) as [Hl|Hl];
      [exact Hl|].
    exfalso.
    destruct (datetime_join (DateTime.date current_time)
                (minute_of_day current_time + 420) s) as [_ Jq];
      [lia | exact Hs |].
    assert (Hw : is_within_driving_hours
                   (current_time + 420 * US_PER_MINUTE)%Z = true).
    { apply within_minutes.
      replace (current_time + 420 * US_PER_MINUTE)%Z
        with (DateTime.date current_time * US_PER_DAY
              + (minute_of_day current_time + 420) * US_PER_MINUTE + s)%Z
        by (rewrite Ht at 3; unfold US_PER_DAY, US_PER_HOUR, US_PER_MINUTE,
              US_PER_SECOND; lia).
      rewrite Jq. lia. }
    congruence. }
  rewrite hour_frac_minutes.
  assert (Hlate' : (631 <= minute_of_day current_time)%Z) by lia.
  rewrite Zle_Qle in Hlate'. change (inject_Z 631) with 631 in Hlate'.
  set (q := inject_Z (minute_of_day current_time)) in *. clearbody q.
  qlra.
Qed.

(** X17. [plan_break_time] splits the driving hours around the break: the
    hours before and the hours after always add up to the driving hours;
    under 8 driving hours no break is planned and all the hours come before;
    from 8 hours on a break is planned at the current time plus the hours
    before it, which are never negative and never more than 8, and the hours
    after it are never negative. *)
Theorem plan_break_time_split (current_time : datetime) (driving_hours : Q) :
  let plan := plan_break_time timestamp current_time driving_hours in
  let break_time := fst (fst plan) in
  let hours_before := snd (fst plan) in
  let hours_after := snd plan in
  hours_before + hours_after == driving_hours
  /\ hours_before <= 8
  /\ 0 <= hours_after
  /\ ((driving_hours < 8 /\ break_time = None
       /\ hours_before = driving_hours)
      \/ (8 <= driving_hours /\ 0 <= hours_before
          /\ break_time
             = Some (current_time + DateTime.hours hours_before)%Z)).
Proof.
  cbv zeta. unfold plan_break_time.
  destruct (Qlt_bool driving_hours 8) eqn:E8; qbool.
  - cbn [fst snd]. split; [ring|]. split; [lra|]. split; [lra|].
    left. repeat split. exact E8.
  - destruct (is_within_driving_hours (current_time + DateTime.hours 7.0)%Z)
      eqn:Ew; cbn [negb fst snd].
    + set (h := total_seconds _ / 3600).
      set (diff := Qabs _ / 3600).
      assert (Hb : 4 <= (if Qle_bool diff 2 then Qmax (Qmin h 8.0) 4.0
                         else 7.0)
                   /\ (if Qle_bool diff 2 then Qmax (Qmin h 8.0) 4.0
                       else 7.0) <= 8).
      { destruct (Qle_bool diff 2); [|split; lra].
        split; [apply Qle_trans with 4.0; [lra | apply Q.le_max_r]|].
        apply Q.max_lub; [|lra].
        apply Qle_trans with 8.0; [apply Q.le_min_r | lra]. }
      set (before := if Qle_bool diff 2 then _ else _) in *. clearbody before.
      destruct Hb as [Hb4 Hb8].
      split; [ring|]. split; [exact Hb8|]. split; [lra|].
      right. split; [exact E8|]. split; [lra | reflexivity].
    + destruct (late_in_the_day current_time Ew) as [H0 H7].
      set (hue := calculate_hours_until_end_of_driving_day current_time) in *.
      clearbody hue.
      split; [ring|]. split; [lra|]. split; [lra|].
      right. split; [exact E8|]. split; [exact H0 | reflexivity].
Qed.

End BreakPlan.

(** ** [combine_routes] *)

Section CombineRoutes.

Import Py route_calculator.

(** The routes that [combine_routes] uses: the first route of every segment
    that has one. *)
Definition used_routes (route_segments : list RouteResponse) : list Route :=
  flat_map (fun segment =>
              match first_route segment with
              | Some route => [route]
              | None => []
              end) route_segments.

Definition sum_Q (l : list Q) : Q := fold_right Qplus 0 l.

(** The coordinates of a segment without their first point. *)
Definition later_coordinates (route : Route) : list Coord :=
  tl (geometry route).

Lemma combine_loop_later (route_segments : list RouteResponse) :
  forall (i : nat) (d t : Q) (cs : list Coord),
    let result := combine_loop (S i) route_segments (d, t, cs) in
    fst (fst result)
    == d + (621371 # 1000000000)
           * sum_Q (map route_distance (used_routes route_segments))
    /\ snd (fst result)
       == t + sum_Q (map route_duration (used_routes route_segments))
    /\ snd result
       = (cs ++ flat_map later_coordinates (used_routes route_segments))%list.
Proof.
  induction route_segments as [|segment rest IH]; intros i d t cs.
  - cbn. repeat split; try ring. symmetry. apply app_nil_r.
  - cbn [combine_loop used_routes flat_map].
    fold (used_routes rest).
    destruct (first_route segment) as [route|].
    + cbn [Nat.eqb]. cbv zeta.
      destruct (IH (S i)
                  (d + route_distance route / 1000 * 0.621371)
                  (t + route_duration route)
                  (cs ++ tl (geometry route))%list) as (I1 & I2 & I3).
      split; [|split].
      * rewrite I1. cbn [app map sum_Q fold_right].
        fold (sum_Q (map route_distance (used_routes rest))).
        set (s := sum_Q _). clearbody s. field.
      * rewrite I2. cbn [app map sum_Q fold_right].
        fold (sum_Q (map route_duration (used_routes rest))). ring.
      * rewrite I3. cbn [app flat_map]. rewrite <- app_assoc. reflexivity.
    + cbn [app]. apply IH.
Qed.

(** The coordinates gathered by the loop: the first segment in full, the
    later ones without their first point. *)
Definition gathered (route_segments : list RouteResponse) : list Coord :=
  match route_segments with
  | [] => []
  | segment :: rest =>
      (match first_route segment with
       | Some route => geometry route
       | None => []
       end ++ flat_map later_coordinates (used_routes rest))%list
  end.

Lemma combine_loop_totals (route_segments : list RouteResponse) :
  let result := combine_loop 0 route_segments (0, 0, []) in
  fst (fst result)
  == (621371 # 1000000000)
     * sum_Q (map route_distance (used_routes route_segments))
  /\ snd (fst result)
     == sum_Q (map route_duration (used_routes route_segments))
  /\ snd result = gathered route_segments.
Proof.
  destruct route_segments as [|segment rest].
  - cbn. repeat split; ring.
  - cbn [combine_loop used_routes flat_map gathered].
    fold (used_routes rest).
    destruct (first_route segment) as [route|].
    + cbn [Nat.eqb]. cbv zeta.
      destruct (combine_loop_later rest 0
                  (0 + route_distance route / 1000 * 0.621371)
                  (0 + route_duration route)
                  ([] ++ geometry route)%list) as (I1 & I2 & I3).
      split; [|split].
      * rewrite I1. cbn [app map sum_Q fold_right].
        fold (sum_Q (map route_distance (used_routes rest))).
        set (s := sum_Q _). clearbody s. field.
      * rewrite I2. cbn [app map sum_Q fold_right].
        fold (sum_Q (map route_duration (used_routes rest))). ring.
      * rewrite I3. reflexivity.
    + destruct (combine_loop_later rest 0 0 0 []) as (I1 & I2 & I3).
      split; [|split].
      * rewrite I1. cbn [app]. ring.
      * rewrite I2. cbn [app]. ring.
      * rewrite I3. reflexivity.
Qed.

(** The last coordinate of the first route of a segment, if any. *)
Definition end_of (segment : option RouteResponse) : option Coord :=
  match segment with
  | Some segment =>
      match first_route segment with
      | Some route => Some (last (geometry route) (0, 0))
      | None => None
      end
  | None => None
  end.

(** A segment whose first route has no coordinates. *)
Definition pointless (segment : option RouteResponse) : Prop :=
  exists s route,
    segment = Some s /\ first_route s = Some route /\ geometry route = [].

Lemma last_cons (A : Type) (l : list A) :
  forall c d : A, last (c :: l) d = last l c.
Proof.
  induction l as [|x l IH]; intros c d; [reflexivity|].
  change (last (c :: x :: l) d) with (last (x :: l) d).
  rewrite (IH x d), (IH x c). reflexivity.
Qed.

Lemma end_coordinates_cases (segment : option RouteResponse) :
  (end_coordinates segment = Ok (end_of segment) /\ ~ pointless segment)
  \/ (end_coordinates segment = Raise IndexError /\ pointless segment).
Proof.
  unfold end_coordinates, end_of, pointless.
  destruct segment as [s|].
  - destruct (first_route s) as [route|] eqn:E.
    + destruct (geometry route) as [|c g] eqn:Eg.
      * right. split; [reflexivity|]. exists s, route. repeat split; auto.
      * left. split; [cbn [last_coordinate bind]; rewrite last_cons;
                        reflexivity|].
        intros (s' & r' & Hs & Hr & Hg). inversion Hs; subst s'.
        rewrite E in Hr. inversion Hr; subst r'. congruence.
    + left. split; [reflexivity|].
      intros (s' & r' & Hs & Hr & _). inversion Hs; subst s'. congruence.
  - left. split; [reflexivity|]. intros (s' & r' & Hs & _). discriminate.
Qed.

(** The coordinates of a combined route, and where it ends. *)
Lemma combine_routes_coordinates (route_segments : list RouteResponse)
    (route : CombinedRoute) :
  combine_routes route_segments = Ok route ->
  coordinates route = gathered route_segments
  /\ pickup_coordinates route = end_of (hd_error route_segments)
  /\ dropoff_coordinates route
     = end_of (last (map Some route_segments) None).
Proof.
  unfold combine_routes.
  destruct (combine_loop_totals route_segments) as (_ & _ & H3).
  destruct (combine_loop 0 route_segments (0, 0, [])) as [[d t] cs].
  cbn [fst snd] in H3.
  destruct (end_coordinates_cases (hd_error route_segments))
    as [[E1 P1]|[E1 P1]]; rewrite E1; cbn [bind]; [|discriminate].
  destruct (end_coordinates_cases (last (map Some route_segments) None))
    as [[E2 P2]|[E2 P2]]; rewrite E2; cbn [bind]; [|discriminate].
  intros H. inversion H; subst route.
  cbn [coordinates pickup_coordinates dropoff_coordinates].
  repeat split; assumption.
Qed.

(** A combined route is never out of fuel, and a chain of segments with
    coordinates is always combined. *)
Lemma combine_routes_returns (route_segments : list RouteResponse) :
  ~ pointless (hd_error route_segments) ->
  ~ pointless (last (map Some route_segments) None) ->
  exists route, combine_routes route_segments = Ok route.
Proof.
  intros N1 N2. unfold combine_routes.
  destruct (combine_loop 0 route_segments (0, 0, [])) as [[d t] cs].
  destruct (end_coordinates_cases (hd_error route_segments))
    as [[E1 P1]|[E1 P1]]; rewrite E1; cbn [bind]; [|contradiction].
  destruct (end_coordinates_cases (last (map Some route_segments) None))
    as [[E2 P2]|[E2 P2]]; rewrite E2; cbn [bind]; [|contradiction].
  eexists. reflexivity.
Qed.

(** X18. What [combine_routes] returns.  It raises only [IndexError], and
    exactly when the first or the last segment has a route without
    coordinates.  Otherwise the distance is the meters of the used routes
    times 0.000621371, the duration is the sum of their durations, the
    coordinates are those of the first segment followed by those of the
    later segments without their first point (a segment without a route
    contributes nothing, wherever it stands), and the pickup and dropoff
    coordinates are the last coordinates of the first and of the last
    segment. *)
Theorem combine_routes_result (route_segments : list RouteResponse) :
  let first_segment := hd_error route_segments in
  let last_segment := last (map Some route_segments) None in
  match combine_routes route_segments with
  | Ok route =>
      ~ pointless first_segment /\ ~ pointless last_segment
      /\ distance route
         == (621371 # 1000000000)
            * sum_Q (map route_distance (used_routes route_segments))
      /\ duration route
         == sum_Q (map route_duration (used_routes route_segments))
      /\ coordinates route = gathered route_segments
      /\ pickup_coordinates route = end_of first_segment
      /\ dropoff_coordinates route = end_of last_segment
  | Raise e =>
      e = IndexError /\ (pointless first_segment \/ pointless last_segment)
  | OutOfFuel => False
  end.
Proof.
  cbv zeta. unfold combine_routes.
  destruct (combine_loop_totals route_segments) as (H1 & H2 & H3).
  destruct (combine_loop 0 route_segments (0, 0, [])) as [[d t] cs].
  cbn [fst snd] in H1, H2, H3.
  destruct (end_coordinates_cases (hd_error route_segments))
    as [[E1 P1]|[E1 P1]]; rewrite E1; cbn [bind].
  - destruct (end_coordinates_cases (last (map Some route_segments) None))
      as [[E2 P2]|[E2 P2]]; rewrite E2; cbn [bind].
    + cbn [distance duration coordinates pickup_coordinates
           dropoff_coordinates].
      repeat split; assumption.
    + split; [reflexivity | right; exact P2].
  - split; [reflexivity | left; exact P1].
Qed.

End CombineRoutes.

Section RouteChain.

Import Py route_calculator.

(** Routes that follow one another: each has coordinates, and each starts
    where the one before it ends. *)
Fixpoint chained (routes : list Route) : Prop :=
  match routes with
  | [] => True
  | route :: rest =>
      geometry route <> []
      /\ match rest with
         | [] => True
         | next :: _ =>
             hd_error (geometry next) = Some (last (geometry route) (0, 0))
         end
      /\ chained rest
  end.

Lemma last_append (A : Type) (l l' : list A) (d : A) :
  l' <> [] -> last (l ++ l') d = last l' d.
Proof.
  intros H. induction l as [|x l IH]; [reflexivity|].
  cbn [app]. destruct (l ++ l')%list as [|y t] eqn:E.
  - apply app_eq_nil in E. destruct E as [_ E]. congruence.
  - change (last (x :: y :: t) d) with (last (y :: t) d). exact IH.
Qed.

Lemma last_In (A : Type) (l : list A) (x : A) : In (last l x) (x :: l).
Proof.
  revert x. induction l as [|y l IH]; intros x; [left; reflexivity|].
  right. rewrite (last_cons _ l y x). apply IH.
Qed.

Lemma chained_geometry (routes : list Route) (route : Route) :
  chained routes -> In route routes -> geometry route <> [].
Proof.
  induction routes as [|r rest IH]; intros H Hin; [destruct Hin|].
  destruct H as (Hne & _ & Hrest).
  destruct Hin as [<-|Hin]; [exact Hne | apply IH; assumption].
Qed.

Lemma chained_last (rest : list Route) :
  forall route : Route,
    chained (route :: rest) ->
    last (geometry route ++ flat_map later_coordinates rest) (0, 0)
    = last (geometry (last rest route)) (0, 0).
Proof.
  induction rest as [|next rest' IH]; intros route H.
  - cbn [flat_map last]. rewrite app_nil_r. reflexivity.
  - destruct H as (Hne & Hhd & Hrest).
    specialize (IH next Hrest).
    cbn [flat_map]. unfold later_coordinates at 1.
    destruct (geometry next) as [|c g] eqn:Eg; [destruct Hrest; congruence|].
    cbn [hd_error] in Hhd. inversion Hhd as [Hc]. cbn [tl].
    rewrite (last_cons _ rest' next route).
    rewrite <- IH.
    destruct (g ++ flat_map later_coordinates rest')%list as [|x l] eqn:Etail.
    + rewrite app_nil_r. cbn [app]. rewrite Etail.
      cbn [last]. symmetry. exact Hc.
    + rewrite last_append by discriminate.
      change ((c :: g) ++ flat_map later_coordinates rest')%list
        with (c :: (g ++ flat_map later_coordinates rest'))%list.
      rewrite Etail. reflexivity.
Qed.

(** X19. A chain of segments makes a route from end to end.  When every
    segment has a route with coordinates and every segment starts where the
    one before it ends, [combine_routes] returns a route whose first
    coordinate is the start of the first segment and whose last coordinate
    is the dropoff, the end of the last segment; [interpolate_position]
    gives these two at 0 and at 1; and the pickup, the end of the first
    segment, is one of the coordinates of the route. *)
Theorem combined_chain (route_segments : list RouteResponse)
    (first_of_chain : Route) (others : list Route) :
  map first_route route_segments = map Some (first_of_chain :: others) ->
  chained (first_of_chain :: others) ->
  exists route start finish pickup,
    combine_routes route_segments = Ok route
    /\ hd_error (geometry first_of_chain) = Some start
    /\ hd_error (coordinates route) = Some start
    /\ finish = last (geometry (last others first_of_chain)) (0, 0)
    /\ last (coordinates route) (0, 0) = finish
    /\ dropoff_coordinates route = Some finish
    /\ pickup_coordinates route = Some pickup
    /\ In pickup (coordinates route)
    /\ interpolate_position route 0 = start
    /\ interpolate_position route 1 = finish.
Proof.
  intros Hmap Hchain.
  destruct route_segments as [|segment rest]; [discriminate Hmap|].
  cbn [map] in Hmap. inversion Hmap as [[Hfirst Hrest]].
  assert (Hused : used_routes rest = others).
  { clear - Hrest. revert others Hrest.
    induction rest as [|s rest IH]; intros others H;
      destruct others as [|r others]; try discriminate H; [reflexivity|].
    cbn [map] in H. inversion H as [[H1 H2]].
    cbn [used_routes flat_map]. rewrite H1. fold (used_routes rest).
    rewrite (IH others H2). reflexivity. }
  assert (Hlast : exists s,
             last (map Some (segment :: rest)) None = Some s
             /\ first_route s = Some (last others first_of_chain)).
  { clear - Hfirst Hrest. revert segment first_of_chain others Hfirst Hrest.
    induction rest as [|s rest IH]; intros segment r0 others Hfirst Hrest;
      destruct others as [|r others]; try discriminate Hrest.
    - exists segment. split; [reflexivity | exact Hfirst].
    - cbn [map] in Hrest. inversion Hrest as [[H1 H2]].
      change (last (map Some (segment :: s :: rest)) None)
        with (last (map Some (s :: rest)) None).
      rewrite (last_cons _ others r r0). apply IH; assumption. }
  destruct Hlast as (final & Hfinal & Hfinal_route).
  assert (Hlast : end_of (last (map Some (segment :: rest)) None)
                  = Some (last (geometry (last others first_of_chain))
                               (0, 0))).
  { rewrite Hfinal. unfold end_of. rewrite Hfinal_route. reflexivity. }
  assert (Hret : exists route, combine_routes (segment :: rest) = Ok route).
  { apply combine_routes_returns.
    - intros (s & r & Hs & Hr & Hg). cbn [hd_error] in Hs.
      inversion Hs; subst s. rewrite Hfirst in Hr. inversion Hr; subst r.
      destruct Hchain as [Hne _]. contradiction.
    - intros (s & r & Hs & Hr & Hg).
      rewrite Hfinal in Hs. inversion Hs; subst s.
      rewrite Hfinal_route in Hr. inversion Hr; subst r.
      apply (chained_geometry _ _ Hchain (last_In _ others first_of_chain)).
      exact Hg. }
  destruct Hret as [route Hroute].
  destruct (combine_routes_coordinates _ _ Hroute) as (Hco & Hpick & Hdrop).
  rewrite Hroute.
  - unfold gathered in Hco. rewrite Hfirst, Hused in Hco.
    cbn [hd_error end_of] in Hpick. rewrite Hfirst in Hpick.
    rewrite Hlast in Hdrop.
    assert (Hfinish : last (coordinates route) (0, 0)
                      = last (geometry (last others first_of_chain)) (0, 0)).
    { rewrite Hco. apply chained_last. exact Hchain. }
    destruct Hchain as (Hne & _).
    destruct (geometry first_of_chain) as [|start g] eqn:Eg; [congruence|].
    assert (Hnonempty : coordinates route <> [])
      by (rewrite Hco; discriminate).
    exists route, start,
      (last (geometry (last others first_of_chain)) (0, 0)),
      (last (start :: g) (0, 0)).
    split; [reflexivity|]. split; [reflexivity|].
    split; [rewrite Hco; reflexivity|]. split; [reflexivity|].
    split; [exact Hfinish|]. split; [exact Hdrop|]. split; [exact Hpick|].
    split.
    { rewrite Hco. apply in_or_app. left.
      clear. revert start. induction g as [|x g IH]; intros start.
      - left. reflexivity.
      - right. apply IH. }
    split.
    + pose proof (interpolate_position_nth route 0 Hnonempty) as Hn.
      rewrite (interpolation_index_floor route 0 Hnonempty) in Hn by lra.
      assert (E0 : Qfloor (0 * inject_Z (Z.of_nat (List.length
                                                   (coordinates route))))
                   = 0%Z).
      { rewrite (Qfloor_comp _ 0) by ring. reflexivity. }
      rewrite E0 in Hn. rewrite Hco in Hn at 1. cbn in Hn.
      inversion Hn. reflexivity.
    + pose proof (interpolate_position_nth route 1 Hnonempty) as Hn.
      rewrite (interpolation_index_last route 1 Hnonempty) in Hn by lra.
      rewrite <- Hfinish.
      assert (Hl : forall (l : list Coord) (d : Coord), l <> [] ->
                     nth_error l (Z.to_nat (Z.of_nat (List.length l) - 1))
                     = Some (last l d)).
      { clear. intros l d Hl.
        replace (Z.to_nat (Z.of_nat (List.length l) - 1))
          with (List.length l - 1)%nat by lia.
        induction l as [|x l IH]; [congruence|].
        destruct l as [|y l]; [reflexivity|].
        cbn [List.length] in *.
        replace (S (S (List.length l)) - 1)%nat
          with (S (S (List.length l) - 1)) by lia.
        cbn [nth_error]. rewrite IH by discriminate. reflexivity. }
      rewrite (Hl _ (0, 0) Hnonempty) in Hn. inversion Hn. reflexivity.
Qed.

End RouteChain.

(** ** Concrete runs of the further properties *)

(** Stops over two days: a pickup on day 0, the night, and the dropoff on
    the morning of day 1. *)
Definition two_days : list Stop :=
  [ {| type := "start"; name := "Starting Location";
       coordinates := (-118.25, 34.05); duration := "0 hours";
       estimatedArrival := DateTime.make 0 7 0 0 0 |};
    {| type := "pickup"; name := "Pickup at Somewhere";
       coordinates := (-118.30, 34.15); duration := "30 minutes";
       estimatedArrival := DateTime.make 0 12 0 0 0 |};
    {| type := "off-duty"; name := "End of Driving Day";
       coordinates := (-118.32, 34.17); duration := "1.5 hours";
       estimatedArrival := DateTime.make 0 17 30 0 0 |};
    {| type := "overnight"; name := "Required 10-Hour Rest";
       coordinates := (-118.32, 34.17); duration := "10 hours";
       estimatedArrival := DateTime.make 0 19 0 0 0 |};
    {| type := "dropoff"; name := "Dropoff at Somewhere";
       coordinates := (-118.35, 34.20); duration := "30 minutes";
       estimatedArrival := DateTime.make 1 9 15 0 0 |} ].

Definition second_sheet : eld_log_generator.DailyLogSheet :=
  nth 1 (assemble two_days (Some 100000%Z))
      (fst (eld_log_generator.create_daily_log_sheet unit first_randint 0 tt)).

Lemma second_sheet_nth :
  nth_error (assemble two_days (Some 100000%Z)) 1 = Some second_sheet.
Proof. vm_compute. reflexivity. Qed.

Definition the_dropoff : Stop :=
  {| type := "dropoff"; name := "Dropoff at Somewhere";
     coordinates := (-118.35, 34.20); duration := "30 minutes";
     estimatedArrival := DateTime.make 1 9 15 0 0 |}.

Lemma sheet_covers_its_date_witness :
  nth_error (assemble two_days (Some 100000%Z)) 1 = Some second_sheet
  /\ exists first_stop others,
       filter (on_date (eld_log_generator.date second_sheet)) two_days
       = first_stop :: others
       /\ eld_log_generator.startTime second_sheet
          = Some (estimatedArrival first_stop)
       /\ eld_log_generator.endTime second_sheet
          = Some (estimatedArrival (last others first_stop)).
Proof.
  split; [exact second_sheet_nth|].
  apply (sheet_covers_its_date unit first_randint first_choice somewhere
           two_days (Some 100000%Z) tt 1 second_sheet second_sheet_nth).
Defined.

Lemma odometer_chain_witness :
  nth_error (assemble two_days (Some 100000%Z)) 1 = Some second_sheet
  /\ exists previous,
       nth_error (assemble two_days (Some 100000%Z)) 0 = Some previous
       /\ eld_log_generator.startOdometer second_sheet
          = eld_log_generator.endOdometer previous.
Proof.
  split; [exact second_sheet_nth|].
  apply (odometer_chain unit first_randint first_choice somewhere
           two_days (Some 100000%Z) tt 1 second_sheet second_sheet_nth).
Defined.

Lemma odometer_advance_witness :
  nth_error (assemble long_day (Some 100000%Z)) 0 = Some long_day_sheet
  /\ exists day first_stop others,
       nth_error (days_of long_day) 0 = Some (day, (first_stop, others))
       /\ let segments :=
            Z.of_nat (List.length (segment_miles (first_stop :: others))) in
          (eld_log_generator.startOdometer long_day_sheet + 15 * segments
           <= eld_log_generator.endOdometer long_day_sheet)%Z
          /\ (eld_log_generator.startOdometer long_day_sheet
              <= eld_log_generator.endOdometer long_day_sheet)%Z
          /\ (0 <= eld_log_generator.totalMiles long_day_sheet)%Z
          /\ (2 * Z.abs (eld_log_generator.endOdometer long_day_sheet
                         - eld_log_generator.startOdometer long_day_sheet
                         - eld_log_generator.totalMiles long_day_sheet)
              <= segments + 1)%Z.
Proof.
  split; [exact long_day_sheet_nth|].
  apply (odometer_advance unit first_randint first_choice somewhere
           long_day (Some 100000%Z) tt 0 long_day_sheet long_day_sheet_nth).
Defined.


Lemma remarks_sorted_witness :
  nth_error (assemble two_days (Some 100000%Z)) 1 = Some second_sheet
  /\ StronglySorted
       (fun a b => eld_log_generator.time a < eld_log_generator.time b)
       (eld_log_generator.remarks (eld_log_generator.graphData second_sheet))
  /\ Forall (fun r => 0 <= eld_log_generator.time r
                      /\ eld_log_generator.time r < 24)
       (eld_log_generator.remarks (eld_log_generator.graphData second_sheet))
  /\ ForallOrdPairs
       (fun a b =>
          0.001 <= Qabs (eld_log_generator.time a - eld_log_generator.time b))
       (eld_log_generator.remarks (eld_log_generator.graphData second_sheet)).
Proof.
  split; [exact second_sheet_nth|].
  apply (remarks_sorted unit first_randint first_choice somewhere
           two_days (Some 100000%Z) tt 1 second_sheet second_sheet_nth).
Defined.

Lemma stops_are_logged_witness :
  nth_error (assemble two_days (Some 100000%Z)) 1 = Some second_sheet
  /\ In the_dropoff two_days
  /\ stop_date the_dropoff = eld_log_generator.date second_sheet
  /\ logged_type (type the_dropoff) = true
  /\ (exists e,
        In e (eld_log_generator.hourData
                (eld_log_generator.graphData second_sheet))
        /\ Qabs (eld_log_generator.hour e
                 - hour_frac (estimatedArrival the_dropoff)) < 0.001)
  /\ (exists r,
        In r (eld_log_generator.remarks
                (eld_log_generator.graphData second_sheet))
        /\ Qabs (eld_log_generator.time r
                 - hour_frac (estimatedArrival the_dropoff)) < 0.001).
Proof.
  assert (Hin : In the_dropoff two_days)
    by (do 4 right; left; reflexivity).
  assert (Hdate : stop_date the_dropoff
                  = eld_log_generator.date second_sheet)
    by (vm_compute; reflexivity).
  assert (Hty : logged_type (type the_dropoff) = true) by reflexivity.
  split; [exact second_sheet_nth|]. split; [exact Hin|].
  split; [exact Hdate|]. split; [exact Hty|].
  apply (stops_are_logged unit first_randint first_choice somewhere
           two_days (Some 100000%Z) tt 1 second_sheet the_dropoff
           second_sheet_nth Hin Hdate Hty).
Defined.

Lemma sheet_logs_witness :
  nth_error (assemble two_days (Some 100000%Z)) 1 = Some second_sheet
  /\ map eld_log_generator.log_status (eld_log_generator.logs second_sheet)
     = map eld_log_generator.status
         (eld_log_generator.hourData
            (eld_log_generator.graphData second_sheet))
  /\ map eld_log_generator.log_location (eld_log_generator.logs second_sheet)
     = map (fun s =>
              eld_log_generator.closest_remark
                (eld_log_generator.remarks
                   (eld_log_generator.graphData second_sheet))
                (eld_log_generator.hour s) None "Unknown Location")
           (eld_log_generator.hourData
              (eld_log_generator.graphData second_sheet))
  /\ Forall (fun e => eld_log_generator.log_date e
                      = eld_log_generator.date second_sheet)
       (eld_log_generator.logs second_sheet)
  /\ Forall (fun e => eld_log_generator.log_status e
                      <> eld_log_generator.driving ->
                      eld_log_generator.miles e = 0%Z)
       (eld_log_generator.logs second_sheet)
  /\ eld_log_generator.logs second_sheet <> []
  /\ forall e,
       Some (eld_log_generator.log_endTime
               (last (eld_log_generator.logs second_sheet) e))
       = eld_log_generator.endTime second_sheet.
Proof.
  split; [exact second_sheet_nth|].
  apply (sheet_logs unit first_randint first_choice somewhere
           two_days (Some 100000%Z) tt 1 second_sheet second_sheet_nth).
Defined.

Lemma arrival_in_driving_hours_witness :
  stop_generator.calculate_time_restricted_arrival 5
    (DateTime.make 0 16 0 0 0) 3
  = Py.Ok (DateTime.make 1 8 30 0 0)
  /\ ((3 <= 0 /\ DateTime.make 1 8 30 0 0 = DateTime.make 0 16 0 0 0)
      \/ (0 < 3
          /\ stop_generator.is_within_driving_hours
               (DateTime.make 1 8 30 0 0) = true
          /\ (DateTime.make 0 16 0 0 0 <= DateTime.make 1 8 30 0 0)%Z)).
Proof.
  assert (H : stop_generator.calculate_time_restricted_arrival 5
                (DateTime.make 0 16 0 0 0) 3
              = Py.Ok (DateTime.make 1 8 30 0 0))
    by (vm_compute; reflexivity).
  split; [exact H|].
  apply (arrival_in_driving_hours 5 (DateTime.make 0 16 0 0 0) 3
           (DateTime.make 1 8 30 0 0) H).
Defined.

(** The stops planned for the 1200-mile trip that starts at 06:00 of
    day 0. *)
Definition long_trip : list Stop :=
  match fst (stop_generator.generate_stops unit somewhere_found 100
               (route_of_miles 1200) [origin; pickup; dropoff]
               (DateTime.make 0 6 0 0 0) 0 tt) with
  | Py.Ok planned => planned
  | _ => []
  end.

Lemma long_trip_planned :
  stop_generator.generate_stops unit somewhere_found 100
    (route_of_miles 1200) [origin; pickup; dropoff]
    (DateTime.make 0 6 0 0 0) 0 tt
  = (Py.Ok long_trip, tt).
Proof. vm_compute. reflexivity. Qed.

Lemma planned_stops_witness :
  stop_generator.generate_stops unit somewhere_found 100
    (route_of_miles 1200) [origin; pickup; dropoff]
    (DateTime.make 0 6 0 0 0) 0 tt
  = (Py.Ok long_trip, tt)
  /\ exists first_location destinations rest,
       [origin; pickup; dropoff] = first_location :: destinations
       /\ Permutation long_trip
            ({| type := "start";
                name := "Starting Location";
                coordinates := (stop_generator.lng first_location,
                                stop_generator.lat first_location);
                duration := "0 hours";
                estimatedArrival := DateTime.make 0 6 0 0 0 |} :: rest)
       /\ StronglySorted
            (fun a b => (estimatedArrival a <= estimatedArrival b)%Z)
            long_trip
       /\ Forall (fun s => String.eqb (type s) "start" = false) rest
       /\ map type_and_place (filter is_destination rest)
          = destination_stops
              (Z.of_nat (List.length [origin; pickup; dropoff])) 1
              destinations
       /\ Forall (fun s => logged_type (type s) = true) long_trip.
Proof.
  split; [exact long_trip_planned|].
  apply (planned_stops unit somewhere_found 100 (route_of_miles 1200)
           [origin; pickup; dropoff] (DateTime.make 0 6 0 0 0) 0 tt tt
           long_trip long_trip_planned).
Defined.

(** The plan after the first leg of that trip. *)
Definition first_leg : stop_generator.Plan :=
  match fst (stop_generator.leg unit somewhere_found 100
               (route_of_miles 1200) 3 1 pickup
               (stop_generator.start_of_trip origin (DateTime.make 0 6 0 0 0)
                  0) tt) with
  | Py.Ok p => p
  | _ => stop_generator.start_of_trip origin (DateTime.make 0 6 0 0 0) 0
  end.

Lemma first_leg_run :
  stop_generator.leg unit somewhere_found 100 (route_of_miles 1200) 3 1
    pickup (stop_generator.start_of_trip origin (DateTime.make 0 6 0 0 0) 0)
    tt
  = (Py.Ok first_leg, tt).
Proof. vm_compute. reflexivity. Qed.

Lemma leg_fuel_stops_witness :
  let start := stop_generator.start_of_trip origin (DateTime.make 0 6 0 0 0)
                 0 in
  let leg_miles :=
    route_calculator.distance (route_of_miles 1200)
    * (inject_Z 1 / inject_Z (3 - 1))
    - stop_generator.current_position start in
  stop_generator.leg unit somewhere_found 100 (route_of_miles 1200) 3 1
    pickup start tt
  = (Py.Ok first_leg, tt)
  /\ 0 <= leg_miles
  /\ 0 <= stop_generator.miles_since_last_fuel start
  /\ stop_generator.miles_since_last_fuel first_leg
     = stop_generator.miles_since_last_fuel start + leg_miles
  /\ fuel_stops (stop_generator.stops first_leg)
     = (fuel_stops (stop_generator.stops start)
        + if Qle_bool 500 (stop_generator.miles_since_last_fuel start)
          then 0
          else Qfloor ((stop_generator.miles_since_last_fuel start
                        + leg_miles) / 500))%Z.
Proof.
  cbv zeta.
  assert (Hmiles : 0 <= route_calculator.distance (route_of_miles 1200)
                        * (inject_Z 1 / inject_Z (3 - 1))
                        - stop_generator.current_position
                            (stop_generator.start_of_trip origin
                               (DateTime.make 0 6 0 0 0) 0))
    by (vm_compute; discriminate).
  assert (Hmsf : 0 <= stop_generator.miles_since_last_fuel
                        (stop_generator.start_of_trip origin
                           (DateTime.make 0 6 0 0 0) 0))
    by (vm_compute; discriminate).
  split; [exact first_leg_run|]. split; [exact Hmiles|].
  split; [exact Hmsf|].
  apply (leg_fuel_stops unit somewhere_found 100 (route_of_miles 1200) 3 1
           pickup
           (stop_generator.start_of_trip origin (DateTime.make 0 6 0 0 0) 0)
           first_leg tt tt first_leg_run Hmiles Hmsf).
Defined.

Lemma fuel_stops_three_locations_witness :
  stop_generator.generate_stops unit somewhere_found 100
    (route_of_miles 1200) [origin; pickup; dropoff]
    (DateTime.make 0 6 0 0 0) 0 tt
  = (Py.Ok long_trip, tt)
  /\ 0 <= route_calculator.distance (route_of_miles 1200)
  /\ fuel_stops long_trip
     = if Qle_bool 1000 (route_calculator.distance (route_of_miles 1200))
       then Qfloor (route_calculator.distance (route_of_miles 1200) / 1000)
       else Qfloor (route_calculator.distance (route_of_miles 1200) / 500).
Proof.
  assert (Hd : 0 <= route_calculator.distance (route_of_miles 1200))
    by (vm_compute; discriminate).
  split; [exact long_trip_planned|]. split; [exact Hd|].
  apply (fuel_stops_three_locations unit somewhere_found 100
           (route_of_miles 1200) origin pickup dropoff
           (DateTime.make 0 6 0 0 0) 0 tt tt long_trip long_trip_planned Hd).
Defined.

(** Two segments that meet at (1, 1). *)
Definition to_pickup : route_calculator.Route :=
  {| route_calculator.route_distance := 160934;
     route_calculator.route_duration := 7200;
     route_calculator.geometry := [(0, 0); (1 # 2, 1 # 2); (1, 1)] |}.
Definition to_dropoff : route_calculator.Route :=
  {| route_calculator.route_distance := 80467;
     route_calculator.route_duration := 3600;
     route_calculator.geometry := [(1, 1); (2, 2)] |}.
Definition two_segments : list route_calculator.RouteResponse :=
  [ {| route_calculator.routes := Some [to_pickup] |};
    {| route_calculator.routes := Some [to_dropoff] |} ].

Lemma combined_chain_witness :
  map route_calculator.first_route two_segments
  = map Some [to_pickup; to_dropoff]
  /\ chained [to_pickup; to_dropoff]
  /\ exists route start finish pickup,
       route_calculator.combine_routes two_segments = Py.Ok route
       /\ hd_error (route_calculator.geometry to_pickup) = Some start
       /\ hd_error (route_calculator.coordinates route) = Some start
       /\ finish = last (route_calculator.geometry
                           (last [to_dropoff] to_pickup)) (0, 0)
       /\ last (route_calculator.coordinates route) (0, 0) = finish
       /\ route_calculator.dropoff_coordinates route = Some finish
       /\ route_calculator.pickup_coordinates route = Some pickup
       /\ In pickup (route_calculator.coordinates route)
       /\ route_calculator.interpolate_position route 0 = start
       /\ route_calculator.interpolate_position route 1 = finish.
Proof.
  assert (Hmap : map route_calculator.first_route two_segments
                 = map Some [to_pickup; to_dropoff]) by reflexivity.
  assert (Hchain : chained [to_pickup; to_dropoff]).
  { cbn. repeat split; discriminate. }
  split; [exact Hmap|]. split; [exact Hchain|].
  apply (combined_chain two_segments to_pickup [to_dropoff] Hmap Hchain).
Defined.

(** ** The driving hours, minute by minute *)

Section ByTheMinute.

Import Py stop_generator.

(** X20. The tests on the driving hours read the hour and the minute of a
    timestamp and nothing else: a timestamp is within the driving hours
    exactly when its minute of the day lies in [420, 1050], so that every
    instant up to 17:30:59.999999 counts, and the hours left in the driving
    day are the minutes left before 17:30, never negative, divided by
    60. *)
Theorem driving_hours_by_the_minute (t : datetime) :
  minute_of_day t = (60 * DateTime.hour t + DateTime.minute t)%Z
  /\ (is_within_driving_hours t = true
      <-> (420 <= minute_of_day t <= 1050)%Z)
  /\ calculate_hours_until_end_of_driving_day t
     == inject_Z (Z.max 0 (1050 - minute_of_day t)) / 60
  /\ (calculate_hours_until_end_of_driving_day t == 0
      <-> (1050 <= minute_of_day t)%Z).
Proof.
  split; [symmetry; apply minute_of_day_fields|].
  split; [apply within_minutes|].
  assert (Hclosed : calculate_hours_until_end_of_driving_day t
                    == inject_Z (Z.max 0 (1050 - minute_of_day t)) / 60).
  { destruct (hours_until_end_cases t) as [[H E]|[H E]]; rewrite E.
    - assert (H' : inject_Z 1050 / 60 <= hour_frac t)
        by (change (inject_Z 1050) with 1050; qlra).
      apply hour_frac_le in H'.
      rewrite Z.max_l by lia. reflexivity.
    - assert (H' : hour_frac t < inject_Z 1050 / 60)
        by (change (inject_Z 1050) with 1050; qlra).
      apply hour_frac_lt in H'.
      rewrite Z.max_r by lia. rewrite hour_frac_minutes.
      unfold Z.sub. rewrite inject_Z_plus, inject_Z_opp.
      change (inject_Z 1050) with 1050. field. }
  split; [exact Hclosed|].
  rewrite Hclosed. split.
  - intros H0.
    destruct (Z_le_gt_dec 1050 (minute_of_day t)) as [Hc|Hc]; [exact Hc|].
    exfalso. rewrite Z.max_r in H0 by lia.
    assert (Hpos : (1 <= 1050 - minute_of_day t)%Z) by lia.
    rewrite Zle_Qle in Hpos. change (inject_Z 1) with 1 in Hpos.
    set (m := inject_Z (1050 - minute_of_day t)) in *. clearbody m. qlra.
  - intros Hc. rewrite Z.max_l by lia. reflexivity.
Qed.

End ByTheMinute.

(** ** From the planner to the log sheets *)

Section PlannerToSheets.

Import Py.

Variable planner_world : Type.
Variable geocoder : Coord -> planner_world -> outcome string * planner_world.
Variable world : Type.
Variable randint : Z -> Z -> world -> Z * world.
Variable choice : list string -> world -> string * world.
Variable get_location_name : Coord -> world -> string * world.

(** X21. Every stop that the planner returns shows up on the log sheet of
    its day: when [generate_eld_logs] is run on the result of
    [generate_stops], each stop has a sheet with its date, and that sheet
    has a duty-status entry and a remark within 0.001 of the fractional
    hour of the stop. *)
Theorem planned_stops_are_logged (fuel : nat)
    (route : route_calculator.CombinedRoute)
    (locations : list stop_generator.Location) (start_time : datetime)
    (current_cycle_used : Q) (w0 w0' : planner_world) (planned : list Stop)
    (starting_odometer : option Z) (w : world) (stop : Stop) :
  stop_generator.generate_stops planner_world geocoder fuel route locations
    start_time current_cycle_used w0
  = (Ok planned, w0') ->
  In stop planned ->
  exists k sheet,
    nth_error
      (fst (eld_log_generator.generate_eld_logs world randint choice
              get_location_name planned starting_odometer w)) k
    = Some sheet
    /\ eld_log_generator.date sheet = stop_date stop
    /\ (exists e,
          In e (eld_log_generator.hourData
                  (eld_log_generator.graphData sheet))
          /\ Qabs (eld_log_generator.hour e
                   - hour_frac (estimatedArrival stop)) < 0.001)
    /\ (exists r,
          In r (eld_log_generator.remarks
                  (eld_log_generator.graphData sheet))
          /\ Qabs (eld_log_generator.time r
                   - hour_frac (estimatedArrival stop)) < 0.001).
Proof.
  intros Hplan Hin.
  pose proof (planned_types planner_world geocoder fuel route locations
                start_time current_cycle_used w0 w0' planned Hplan)
    as Hlogged.
  rewrite Forall_forall in Hlogged. specialize (Hlogged stop Hin).
  assert (Hdate : In (stop_date stop)
                    (map eld_log_generator.date
                       (fst (eld_log_generator.generate_eld_logs world
                               randint choice get_location_name planned
                               starting_odometer w)))).
  { rewrite sheet_dates. apply days_of_dates.
    exists stop. split; [exact Hin | reflexivity]. }
  apply in_map_iff in Hdate. destruct Hdate as (sheet & Hsheet & Hin').
  apply In_nth_error in Hin'. destruct Hin' as [k Hk].
  exists k, sheet. split; [exact Hk|]. split; [exact Hsheet|].
  apply (stop_mark world randint choice get_location_name planned
           starting_odometer w k sheet stop Hk Hin (eq_sym Hsheet) Hlogged).
Qed.

End PlannerToSheets.

(** The fuel stop of the 1200-mile trip. *)
Definition the_fuel_stop : Stop := nth 4 long_trip the_dropoff.

Lemma planned_stops_are_logged_witness :
  stop_generator.generate_stops unit somewhere_found 100
    (route_of_miles 1200) [origin; pickup; dropoff]
    (DateTime.make 0 6 0 0 0) 0 tt
  = (Py.Ok long_trip, tt)
  /\ In the_fuel_stop long_trip
  /\ exists k sheet,
       nth_error (assemble long_trip (Some 100000%Z)) k = Some sheet
       /\ eld_log_generator.date sheet = stop_date the_fuel_stop
       /\ (exists e,
             In e (eld_log_generator.hourData
                     (eld_log_generator.graphData sheet))
             /\ Qabs (eld_log_generator.hour e
                      - hour_frac (estimatedArrival the_fuel_stop)) < 0.001)
       /\ (exists r,
             In r (eld_log_generator.remarks
                     (eld_log_generator.graphData sheet))
             /\ Qabs (eld_log_generator.time r
                      - hour_frac (estimatedArrival the_fuel_stop)) < 0.001).
Proof.
  assert (Hin : In the_fuel_stop long_trip).
  { apply nth_In.
    assert (Hlen : List.length long_trip = 14%nat)
      by (vm_compute; reflexivity).
    rewrite Hlen. lia. }
  split; [exact long_trip_planned|]. split; [exact Hin|].
  apply (planned_stops_are_logged unit somewhere_found unit first_randint
           first_choice somewhere 100 (route_of_miles 1200)
           [origin; pickup; dropoff] (DateTime.make 0 6 0 0 0) 0 tt tt
           long_trip (Some 100000%Z) tt the_fuel_stop long_trip_planned Hin).
Defined.
